(** * srsRAN-matlab MEX bindings: PRACH detector and multiport channel estimator

    A shallow embedding of
      - [sourceMex/include/srsran_matlab/support/matlab_to_srs.h],
      - [+srsMEX/source/lib/phy/upper/channel_processors/prach_detector_mex.cpp],
      - [+srsMEX/source/lib/phy/upper/signal_processors/multiport_channel_estimator_mex.cpp],
    together with the parts of the MATLAB Data API and of the srsRAN PHY
    interfaces that these files call.  The srsRAN library itself (detector,
    estimator, buffers, constants) is external to the bindings and enters as
    a type class. *)

From Stdlib Require Import ZArith NArith String Ascii List Lia.
From Stdlib Require Import Floats.SpecFloat.
From stdpp Require Import base numbers list option strings.

Local Open Scope N_scope.
Local Open Scope string_scope.

(* ===================================================================== *)
(** ** Machine numbers *)
(* ===================================================================== *)

(** [unsigned] is 32 bits wide, [size_t] 64 bits.  Both are carried as [N];
    an assignment from [size_t] to [unsigned] keeps the low 32 bits. *)
Definition UNSIGNED_MODULUS : N := 2 ^ 32.

Definition to_unsigned (n : N) : N := n mod UNSIGNED_MODULUS.

(** IEEE-754 binary32 ([float]) and binary64 ([double]), with round to nearest
    even, on the Standard Library's [spec_float]. *)
Module Ieee.

Record float32 := F32 { bits32 : spec_float }.
Record float64 := F64 { bits64 : spec_float }.

Definition prec32 : Z := 24.
Definition emax32 : Z := 128.
Definition prec64 : Z := 53.
Definition emax64 : Z := 1024.

Definition round_to (prec emax : Z) (x : spec_float) : spec_float :=
  match x with
  | S754_finite s m e => binary_normalize prec emax (cond_Zopp s (Zpos m)) e s
  | _ => x
  end.

Definition f32_zero : float32 := F32 (S754_zero false).
Definition f64_zero : float64 := F64 (S754_zero false).
Definition f64_nan : float64 := F64 S754_nan.

Definition f32_add (x y : float32) : float32 :=
  F32 (SFadd prec32 emax32 (bits32 x) (bits32 y)).
Definition f32_div (x y : float32) : float32 :=
  F32 (SFdiv prec32 emax32 (bits32 x) (bits32 y)).
Definition f64_add (x y : float64) : float64 :=
  F64 (SFadd prec64 emax64 (bits64 x) (bits64 y)).
Definition f64_div (x y : float64) : float64 :=
  F64 (SFdiv prec64 emax64 (bits64 x) (bits64 y)).

(** [static_cast<float>(unsigned)] and the usual arithmetic conversion of an
    [unsigned] operand next to a [float] or [double] one. *)
Definition f32_of_unsigned (n : N) : float32 :=
  F32 (binary_normalize prec32 emax32 (Z.of_N n) 0 false).
Definition f64_of_unsigned (n : N) : float64 :=
  F64 (binary_normalize prec64 emax64 (Z.of_N n) 0 false).

(** [static_cast<double>(float)] (exact) and [static_cast<float>(double)]. *)
Definition f64_of_f32 (x : float32) : float64 :=
  F64 (round_to prec64 emax64 (bits32 x)).
Definition f32_of_f64 (x : float64) : float32 :=
  F32 (round_to prec32 emax32 (bits64 x)).

(** [static_cast<unsigned>(double)]: truncation towards zero.  The
    conversion is undefined when the truncated value does not fit, which
    is [None] here. *)
Definition f64_to_unsigned (x : float64) : option N :=
  match bits64 x with
  | S754_zero _ => Some 0
  | S754_finite s m e =>
      let mag := match e with
                 | Zneg k => Z.shiftr (Zpos m) (Zpos k)
                 | _ => Z.shiftl (Zpos m) e
                 end in
      if Z.eqb mag 0 then Some 0
      else if s then None
      else if Z.ltb mag (Z.of_N UNSIGNED_MODULUS) then Some (Z.to_N mag)
      else None
  | _ => None
  end.

Definition is_nan64 (x : float64) : bool :=
  match bits64 x with S754_nan => true | _ => false end.

End Ieee.
Export Ieee.

(** [cf_t] is [std::complex<float>]; the PRACH input holds
    [std::complex<double>]. *)
Definition cf_t : Type := float32 * float32.
Definition cd_t : Type := float64 * float64.

Definition cf_zero : cf_t := (f32_zero, f32_zero).

(** [cf_t(z)] for a complex double [z]. *)
Definition cf_of_cd (z : cd_t) : cf_t := (f32_of_f64 (fst z), f32_of_f64 (snd z)).

(* ===================================================================== *)
(** ** Failures *)
(* ===================================================================== *)

(** Arguments of an [fmt]-style message. *)
Inductive fmt_arg :=
| ArgNum (n : N)
| ArgStr (s : string)
| ArgDims (d : list N).

(** Exceptions of the MATLAB Data API that the bindings can provoke. *)
Inductive matlab_exception :=
| InvalidArrayIndexException
| InvalidFieldNameException
| InvalidArrayTypeException
| TypeMismatchException.

(** The ways a call can stop early.
    - [MexAbort]: [mex_abort(fmt, args...)], a MATLAB error of this call;
    - [Terminate]: [srsran::srsran_terminate(fmt, args...)];
    - [MatlabException]: thrown by the MATLAB Data API;
    - [AssertionFailure]: an [srsran_assert] inside a library object
      (bounds of a buffer, a span, a bitset);
    - [UndefinedBehaviour]: an operation the language leaves undefined, as a
      floating-point value converted to [unsigned]
      that does not fit. *)
Inductive failure :=
| MexAbort (fmt : string) (args : list fmt_arg)
| Terminate (fmt : string) (args : list fmt_arg)
| MatlabException (e : matlab_exception)
| AssertionFailure (what : string)
| UndefinedBehaviour (what : string).

Inductive result (A : Type) :=
| Ok (a : A)
| Fail (f : failure).
Arguments Ok {A} a.
Arguments Fail {A} f.

Definition result_bind {A B} (r : result A) (k : A -> result B) : result B :=
  match r with
  | Ok a => k a
  | Fail f => Fail f
  end.

Definition of_option {A} (e : failure) (o : option A) : result A :=
  match o with
  | Some a => Ok a
  | None => Fail e
  end.

Global Instance result_ret : MRet result := fun A a => Ok a.
Global Instance result_bind_inst : MBind result := fun A B k r => result_bind r k.

(* ===================================================================== *)
(** ** MATLAB Data API values *)
(* ===================================================================== *)

Module Matlab.

Inductive ArrayType :=
| LOGICAL | CHAR | DOUBLE | SINGLE | UINT32 | UINT64
| COMPLEX_DOUBLE | COMPLEX_SINGLE | STRUCT.

Definition ArrayType_eqb (a b : ArrayType) : bool :=
  match a, b with
  | LOGICAL, LOGICAL | CHAR, CHAR | DOUBLE, DOUBLE | SINGLE, SINGLE
  | UINT32, UINT32 | UINT64, UINT64 | COMPLEX_DOUBLE, COMPLEX_DOUBLE
  | COMPLEX_SINGLE, COMPLEX_SINGLE | STRUCT, STRUCT => true
  | _, _ => false
  end.

(** An array is its dimensions ([ArrayDimensions], a vector of [size_t]) and
    its elements in column-major order. *)
Inductive Array :=
| MkArray (dims : list N) (data : Payload)
with Payload :=
| PLogical (l : list bool)
| PChar (s : string)
| PDouble (l : list float64)
| PSingle (l : list float32)
| PUInt32 (l : list N)
| PUInt64 (l : list N)
| PComplexDouble (l : list cd_t)
| PComplexSingle (l : list cf_t)
| PStruct (l : list Struct)
with Struct :=
| MkStruct (fields : list (string * Array)).

Definition ArgumentList := list Array.

Definition getDimensions (a : Array) : list N :=
  match a with MkArray dims _ => dims end.

Definition payload (a : Array) : Payload :=
  match a with MkArray _ p => p end.

Definition getType (a : Array) : ArrayType :=
  match payload a with
  | PLogical _ => LOGICAL
  | PChar _ => CHAR
  | PDouble _ => DOUBLE
  | PSingle _ => SINGLE
  | PUInt32 _ => UINT32
  | PUInt64 _ => UINT64
  | PComplexDouble _ => COMPLEX_DOUBLE
  | PComplexSingle _ => COMPLEX_SINGLE
  | PStruct _ => STRUCT
  end.

Definition getNumberOfElements (a : Array) : N :=
  fold_right N.mul 1 (getDimensions a).

Definition isEmpty (a : Array) : bool := N.eqb (getNumberOfElements a) 0.

(** [dims[k]] on the dimension vector. *)
Definition dim (k : nat) (dims : list N) : N := nth k dims 0.

(** [inputs[k]] *)
Definition arg (inputs : ArgumentList) (k : nat) : result Array :=
  of_option (MatlabException InvalidArrayIndexException) (inputs !! k).

(** Offset of the element addressed by a chain [a[i0][i1]...]: one index
    per dimension, zero-based, each checked against its own dimension;
    dimensions left without an index must be singletons. *)
Fixpoint linear_index (dims idx : list N) : result N :=
  match idx, dims with
  | [], _ =>
      if forallb (N.eqb 1) dims then Ok 0
      else Fail (MatlabException InvalidArrayIndexException)
  | i :: idx', d :: dims' =>
      if N.ltb i d
      then result_bind (linear_index dims' idx') (fun r => Ok (i + d * r))
      else Fail (MatlabException InvalidArrayIndexException)
  | _ :: _, [] => Fail (MatlabException InvalidArrayIndexException)
  end.

Definition element {A} (dims : list N) (l : list A) (idx : list N) : result A :=
  result_bind (linear_index dims idx) (fun k =>
    of_option (MatlabException InvalidArrayIndexException) (l !! N.to_nat k)).

(** Conversions of an [Array] to a typed array. *)
Definition as_struct_array (a : Array) : result (list Struct) :=
  match payload a with
  | PStruct l => Ok l
  | _ => Fail (MatlabException InvalidArrayTypeException)
  end.

Definition as_char_array (a : Array) : result string :=
  match payload a with
  | PChar s => Ok s
  | _ => Fail (MatlabException InvalidArrayTypeException)
  end.

Definition as_logical_array (a : Array) : result (list bool) :=
  match payload a with
  | PLogical l => Ok l
  | _ => Fail (MatlabException InvalidArrayTypeException)
  end.

Definition as_double_array (a : Array) : result (list float64) :=
  match payload a with
  | PDouble l => Ok l
  | _ => Fail (MatlabException InvalidArrayTypeException)
  end.

Definition as_complex_double_array (a : Array) : result (list cd_t) :=
  match payload a with
  | PComplexDouble l => Ok l
  | _ => Fail (MatlabException InvalidArrayTypeException)
  end.

Definition as_complex_single_array (a : Array) : result (list cf_t) :=
  match payload a with
  | PComplexSingle l => Ok l
  | _ => Fail (MatlabException InvalidArrayTypeException)
  end.

(** [s[name]] on a [Struct]. *)
Fixpoint lookup_field (name : string) (fields : list (string * Array)) : option Array :=
  match fields with
  | [] => None
  | (n, a) :: rest => if String.eqb n name then Some a else lookup_field name rest
  end.

Definition field (s : Struct) (name : string) : result Array :=
  match s with
  | MkStruct fields =>
      of_option (MatlabException InvalidFieldNameException) (lookup_field name fields)
  end.

(** [struct_array[i]] *)
Definition struct_element (a : Array) (i : N) : result Struct :=
  result_bind (as_struct_array a) (fun l => element (getDimensions a) l [i]).

(** An element of an untyped numeric [Array] read as a [double]. *)
Definition element_as_double (a : Array) (idx : list N) : result float64 :=
  match payload a with
  | PDouble l => element (getDimensions a) l idx
  | PSingle l => result_bind (element (getDimensions a) l idx) (fun x => Ok (f64_of_f32 x))
  | PUInt32 l | PUInt64 l =>
      result_bind (element (getDimensions a) l idx) (fun n => Ok (f64_of_unsigned n))
  | PLogical l =>
      result_bind (element (getDimensions a) l idx)
        (fun b => Ok (f64_of_unsigned (if b : bool then 1 else 0)))
  | _ => Fail (MatlabException TypeMismatchException)
  end.

(** An element of an untyped numeric [Array] converted to [unsigned]. *)
Definition element_as_unsigned (a : Array) (idx : list N) : result N :=
  match payload a with
  | PUInt32 l => element (getDimensions a) l idx
  | PUInt64 l => result_bind (element (getDimensions a) l idx) (fun n => Ok (to_unsigned n))
  | PLogical l =>
      result_bind (element (getDimensions a) l idx) (fun b => Ok (if b : bool then 1 else 0))
  | _ =>
      result_bind (element_as_double a idx) (fun x =>
        of_option (UndefinedBehaviour "float to unsigned") (f64_to_unsigned x))
  end.

(** [factory.createScalar(x)]: a 1-by-1 array. *)
Definition createScalar (p : Payload) : Array := MkArray [1; 1] p.

End Matlab.
Export Matlab.

(* ===================================================================== *)
(** ** The call monad *)
(* ===================================================================== *)

(** State of one MEX call: the output argument slots ([ArgumentList outputs],
    a view on storage owned by the caller, so that passing the list by value
    or by reference writes the same slots) and the trace of what the call
    printed and which library algorithms it ran. *)
Record mex_state (E : Type) := MexState {
  outputs : list (option Array);
  trace : list E
}.
Arguments MexState {E} outputs trace.
Arguments outputs {E} m.
Arguments trace {E} m.

Definition M (E A : Type) : Type := mex_state E -> result A * mex_state E.

Section CallMonad.
Context {E : Type}.

Definition ret {A} (a : A) : M E A := fun st => (Ok a, st).

Definition bind {A B} (m : M E A) (k : A -> M E B) : M E B :=
  fun st =>
    match m st with
    | (Ok a, st') => k a st'
    | (Fail f, st') => (Fail f, st')
    end.

Definition fail {A} (f : failure) : M E A := fun st => (Fail f, st).

Definition lift {A} (r : result A) : M E A := fun st => (r, st).

Definition emit (e : E) : M E unit :=
  fun st => (Ok tt, MexState (outputs st) (trace st ++ [e])).

Definition mex_abort {A} (fmt : string) (args : list fmt_arg) : M E A :=
  fail (MexAbort fmt args).

(** [outputs.size()] *)
Definition nargout : M E nat := fun st => (Ok (length (outputs st)), st).

(** [outputs[i] = a] *)
Definition set_output (i : nat) (a : Array) : M E unit :=
  fun st =>
    if decide (i < length (outputs st))%nat
    then (Ok tt, MexState (<[i := Some a]> (outputs st)) (trace st))
    else (Fail (MatlabException InvalidArrayIndexException), st).

(** [for (unsigned i = start; i != start + n; ++i) body], threading the
    loop state [s]; a failing iteration ends the loop. *)
Fixpoint for_loop {S} (n : nat) (i : N) (body : N -> S -> M E S) (s : S)
  : M E S :=
  match n with
  | O => ret s
  | Datatypes.S n' => bind (body i s) (for_loop n' (N.succ i) body)
  end.

End CallMonad.

Global Instance M_ret E : MRet (M E) := fun A a => ret a.
Global Instance M_bind E : MBind (M E) := fun A B k m => bind m k.


(* ===================================================================== *)
(** ** [matlab_to_srs.h]: MATLAB tags to srsRAN enumerations *)
(* ===================================================================== *)

Module MatlabToSrs.

Inductive modulation_scheme := BPSK | QPSK | QAM16 | QAM64 | QAM256.
Inductive ldpc_base_graph_type := BG1 | BG2.
Inductive restricted_set_config := UNRESTRICTED | TYPE_A | TYPE_B.
Inductive preamble_format := FORMAT0 | FORMAT1 | FORMAT2 | FORMAT3 | OTHER.

Definition restricted_set_eqb (a b : restricted_set_config) : bool :=
  match a, b with
  | UNRESTRICTED, UNRESTRICTED | TYPE_A, TYPE_A | TYPE_B, TYPE_B => true
  | _, _ => false
  end.

(** [srsran::srsran_terminate(fmt, args...)] *)
Definition srsran_terminate {A} (fmt : string) (args : list fmt_arg) : result A :=
  Fail (Terminate fmt args).

Definition matlab_to_srs_modulation (modulation_name : string) : result modulation_scheme :=
  if String.eqb modulation_name "BPSK" || String.eqb modulation_name "pi/2-BPSK" then Ok BPSK
  else if String.eqb modulation_name "QPSK" then Ok QPSK
  else if String.eqb modulation_name "QAM16" || String.eqb modulation_name "16QAM" then Ok QAM16
  else if String.eqb modulation_name "QAM64" || String.eqb modulation_name "64QAM" then Ok QAM64
  else if String.eqb modulation_name "QAM256" || String.eqb modulation_name "256QAM" then Ok QAM256
  else srsran_terminate "Unknown modulation {}." [ArgStr modulation_name].

Definition matlab_to_srs_base_graph (bg : N) : result ldpc_base_graph_type :=
  if N.eqb bg 1 then Ok BG1
  else if N.eqb bg 2 then Ok BG2
  else srsran_terminate "Unknown base graph {}." [ArgNum bg].

Definition matlab_to_srs_restricted_set (restricted_set : string) : result restricted_set_config :=
  if String.eqb restricted_set "UnrestrictedSet" then Ok UNRESTRICTED
  else if String.eqb restricted_set "RestrictedSetTypeA" then Ok TYPE_A
  else if String.eqb restricted_set "RestrictedSetTypeB" then Ok TYPE_B
  else srsran_terminate "Unknown restricted set {}." [ArgStr restricted_set].

(** The argument is called [preamble_format] in the source, like the type. *)
Definition matlab_to_srs_preamble_format (format_name : string) : preamble_format :=
  if String.eqb format_name "0" then FORMAT0
  else if String.eqb format_name "1" then FORMAT1
  else if String.eqb format_name "2" then FORMAT2
  else if String.eqb format_name "3" then FORMAT3
  else OTHER.

(** The names each conversion tests for. *)
Definition modulation_names : list string :=
  ["BPSK"; "pi/2-BPSK"; "QPSK"; "QAM16"; "16QAM"; "QAM64"; "64QAM"; "QAM256"; "256QAM"].
Definition restricted_set_names : list string :=
  ["UnrestrictedSet"; "RestrictedSetTypeA"; "RestrictedSetTypeB"].
Definition preamble_format_digits : list string := ["0"; "1"; "2"; "3"].

End MatlabToSrs.
Export MatlabToSrs.

(** Error kinds as the specification names them, and the kind under which it
    files each way of stopping: a [mex_abort] that reports that nothing was
    detected is [NotFound]; every other [mex_abort] and every
    [srsran_terminate] on an unknown tag is [InvalidArgument].  Failures
    raised inside the MATLAB API or inside a library object have no kind. *)
Inductive error_kind := InvalidArgument | NotFound | Unsupported.

Definition NO_PREAMBLES_MESSAGE : string := "No PRACH preambles were detected.".

Definition spec_error_kind (f : failure) : option error_kind :=
  match f with
  | MexAbort fmt _ =>
      if String.eqb fmt NO_PREAMBLES_MESSAGE then Some NotFound else Some InvalidArgument
  | Terminate _ _ => Some InvalidArgument
  | _ => None
  end.

(* ===================================================================== *)
(** ** srsRAN PHY interfaces used by the PRACH binding *)
(* ===================================================================== *)

Module Prach.

(** [phy_time_unit]: a duration, an integer count of the library's base
    time unit. *)
Record phy_time_unit := PhyTime { time_value : Z }.

(** [prach_detector::configuration] *)
Record configuration := Configuration {
  root_sequence_index : N;
  format : preamble_format;
  restricted_set : restricted_set_config;
  zero_correlation_zone : N;
  start_preamble_index : N;
  nof_preamble_indices : N
}.

(** [prach_detection_result::preamble_indication] *)
Record preamble_indication := PreambleIndication {
  preamble_index : N;
  time_advance : phy_time_unit;
  power_dB : float32;
  snr_dB : float32
}.

(** [prach_detection_result] *)
Record prach_detection_result := DetectionResult {
  rssi_dB : float32;
  time_resolution : phy_time_unit;
  time_advance_max : phy_time_unit;
  preambles : list preamble_indication
}.

(** [prach_buffer]: sequences of [sequence_length] samples, addressed by
    port, time-domain occasion, frequency-domain occasion and symbol, the
    sample index running fastest. *)
Record prach_buffer := PrachBuffer {
  max_nof_ports : N;
  max_nof_td_occasions : N;
  max_nof_fd_occasions : N;
  max_nof_symbols : N;
  sequence_length : N;
  samples : list cf_t
}.

(** [span<cf_t>]: a window on the samples of a buffer. *)
Record span := Span { span_offset : N; span_size : N }.

(** [buffer->get_symbol(i_port, i_td_occasion, i_fd_occasion, i_symbol)];
    each index is asserted to lie below its dimension. *)
Definition get_symbol (b : prach_buffer) (i_port i_td_occasion i_fd_occasion i_symbol : N)
  : result span :=
  if N.ltb i_port (max_nof_ports b) && N.ltb i_td_occasion (max_nof_td_occasions b)
     && N.ltb i_fd_occasion (max_nof_fd_occasions b) && N.ltb i_symbol (max_nof_symbols b)
  then
    Ok (Span (sequence_length b
              * (i_symbol + max_nof_symbols b
                 * (i_fd_occasion + max_nof_fd_occasions b
                    * (i_td_occasion + max_nof_td_occasions b * i_port))))
             (sequence_length b))
  else Fail (AssertionFailure "prach_buffer::get_symbol").

(** [view[i] = v] on a span of buffer [b]. *)
Definition span_write (b : prach_buffer) (view : span) (i : N) (v : cf_t) : result prach_buffer :=
  let k := N.to_nat (span_offset view + i) in
  if N.ltb i (span_size view) && bool_decide (k < length (samples b))%nat
  then Ok (PrachBuffer (max_nof_ports b) (max_nof_td_occasions b) (max_nof_fd_occasions b)
             (max_nof_symbols b) (sequence_length b) (<[k := v]> (samples b)))
  else Fail (AssertionFailure "span::operator[]").

(** What the binding takes from the library: the two sequence lengths of
    [prach_constants], the buffer factories (a null pointer is [None]),
    the detector and the conversion of a duration to seconds. *)
Class Library := {
  LONG_SEQUENCE_LENGTH : N;
  SHORT_SEQUENCE_LENGTH : N;
  create_prach_buffer_long : N -> option prach_buffer;
  create_prach_buffer_short : N -> N -> option prach_buffer;
  detect : prach_buffer -> configuration -> prach_detection_result;
  to_seconds : phy_time_unit -> float64
}.

End Prach.

(* ===================================================================== *)
(** ** [prach_detector_mex.cpp] *)
(* ===================================================================== *)

Module PrachDetectorMex.
Import Prach.

Inductive event :=
| Print (fmt : string) (args : list fmt_arg)
| Detect (buffer : prach_buffer) (config : configuration).

(** Messages are the literals of the source, escapes as written there. *)
Definition SKIP_MESSAGE : string :=
  "Skipping test case with 'RESTRICTED' set configuration.\n".

Definition check_step_outputs_inputs (inputs : ArgumentList) : M event unit :=
  if negb (Nat.eqb (length inputs) 3) then mex_abort "Wrong number of inputs." [] else
  in1 ← lift (arg inputs 1);
  if negb (ArrayType_eqb (getType in1) COMPLEX_DOUBLE)
  then mex_abort "Input 'prach_symbols' must be an array of double." [] else
  in2 ← lift (arg inputs 2);
  if negb (ArrayType_eqb (getType in2) STRUCT) || N.ltb 1 (getNumberOfElements in2)
  then mex_abort "Input 'config' must be a scalar structure." [] else
  n_out ← nargout;
  if negb (Nat.eqb n_out 1) then mex_abort "Wrong number of outputs." [] else
  ret tt.

(** Lines 52-59: the configuration structure and its restricted set. *)
Definition read_restricted_set (inputs : ArgumentList) : result (Struct * restricted_set_config) :=
  in_struct_array ← arg inputs 2;
  in_det_cfg ← struct_element in_struct_array 0;
  restricted_set_field ← field in_det_cfg "restricted_set";
  restricted_set_in ← as_char_array restricted_set_field;
  rs ← matlab_to_srs_restricted_set restricted_set_in;
  Ok (in_det_cfg, rs).

(** Lines 61-66: the remaining fields of the detector configuration. *)
Definition read_detector_config (in_det_cfg : Struct) (rs : restricted_set_config)
  : result configuration :=
  rsi_field ← field in_det_cfg "root_sequence_index";
  rsi ← element_as_unsigned rsi_field [0];
  format_field ← field in_det_cfg "format";
  format_in ← as_char_array format_field;
  zcz_field ← field in_det_cfg "zero_correlation_zone";
  zcz ← element_as_unsigned zcz_field [0];
  Ok (Configuration rsi (matlab_to_srs_preamble_format format_in) rs zcz 0 64).

(** [unsigned nof_samples = buffer_dimensions[0]] and
    [unsigned nof_symbols = buffer_dimensions[1]]. *)
Definition nof_samples_of (buffer_dimensions : list N) : N := to_unsigned (dim 0 buffer_dimensions).
Definition nof_symbols_of (buffer_dimensions : list N) : N := to_unsigned (dim 1 buffer_dimensions).

Section WithLibrary.
Context {lib : Library}.

(** Lines 81-92: the buffer for the long or the short sequence. *)
Definition select_buffer (buffer_dimensions : list N) (nof_samples nof_symbols : N)
  : M event (option prach_buffer) :=
  if N.eqb nof_samples LONG_SEQUENCE_LENGTH then ret (create_prach_buffer_long nof_symbols)
  else if N.eqb nof_samples SHORT_SEQUENCE_LENGTH then ret (create_prach_buffer_short 1 1)
  else mex_abort "Invalid number of samples. Dimensions=[{}]." [ArgDims buffer_dimensions].

Definition create_buffer (buffer_dimensions : list N) (nof_samples nof_symbols : N)
  : M event prach_buffer :=
  buffer ← select_buffer buffer_dimensions nof_samples nof_symbols;
  match buffer with
  | Some b => ret b
  | None => mex_abort "Cannot create srsran PRACH buffer long." []
  end.

(** Lines 98-100: the samples of one symbol.  The right-hand side
    [in_cft_array[i_symbol][i_sample]] is evaluated before the element of
    the view is addressed. *)
Definition fill_sample (in_cft_array : Array) (data : list cd_t) (symbol_view : span)
    (i_symbol i_sample : N) (buffer : prach_buffer) : M event prach_buffer :=
  z ← lift (element (getDimensions in_cft_array) data [i_symbol; i_sample]);
  lift (span_write buffer symbol_view i_sample (cf_of_cd z)).

(** Lines 95-101, one iteration of the outer loop. *)
Definition fill_symbol (in_cft_array : Array) (data : list cd_t) (nof_samples : N)
    (i_symbol : N) (buffer : prach_buffer) : M event prach_buffer :=
  emit (Print "-- i_symbol={}.\n" [ArgNum i_symbol]);;
  symbol_view ← lift (get_symbol buffer 0 0 0 i_symbol);
  for_loop (N.to_nat nof_samples) 0
    (fill_sample in_cft_array data symbol_view i_symbol) buffer.

Definition fill_buffer (in_cft_array : Array) (data : list cd_t) (nof_samples nof_symbols : N)
    (buffer : prach_buffer) : M event prach_buffer :=
  for_loop (N.to_nat nof_symbols) 0 (fill_symbol in_cft_array data nof_samples) buffer.

(** Lines 61-101: everything the unrestricted branch does before it runs
    the detector. *)
Definition prepare (inputs : ArgumentList) (in_det_cfg : Struct) (rs : restricted_set_config)
  : M event (prach_buffer * configuration) :=
  detector_config ← lift (read_detector_config in_det_cfg rs);
  in1 ← lift (arg inputs 1);
  data ← lift (as_complex_double_array in1);
  let buffer_dimensions := getDimensions in1 in
  if negb (Nat.eqb (length buffer_dimensions) 2)
  then mex_abort "Invalid number of dimensions (i.e., {})."
         [ArgNum (N.of_nat (length buffer_dimensions))] else
  emit (Print "-- Dimensions=[{}].\n" [ArgDims buffer_dimensions]);;
  let nof_samples := nof_samples_of buffer_dimensions in
  let nof_symbols := nof_symbols_of buffer_dimensions in
  buffer ← create_buffer buffer_dimensions nof_samples nof_symbols;
  buffer ← fill_buffer in1 data nof_samples nof_symbols buffer;
  ret (buffer, detector_config).

(** Line 104: the detector runs on the filled buffer. *)
Definition run_detector (buffer : prach_buffer) (detector_config : configuration)
  : M event prach_detection_result :=
  emit (Detect buffer detector_config);;
  ret (detect buffer detector_config).

(** The structure of lines 113-130, for the indication [p]. *)
Definition detected_preamble_indication (result : prach_detection_result)
    (p : preamble_indication) : Array :=
  MkArray [1; 1] (PStruct [MkStruct
    [ ("nof_detected_preambles", createScalar (PUInt64 [N.of_nat (length (preambles result))]));
      ("preamble_index", createScalar (PUInt32 [preamble_index p]));
      ("time_advance", createScalar (PDouble [to_seconds (time_advance p)]));
      ("power_dB", createScalar (PSingle [power_dB p]));
      ("snr_dB", createScalar (PSingle [snr_dB p]));
      ("rssi_dB", createScalar (PSingle [rssi_dB result]));
      ("time_resolution", createScalar (PDouble [to_seconds (time_resolution result)]));
      ("time_advance_max", createScalar (PDouble [to_seconds (time_advance_max result)])) ]]).

(** Lines 106-132. *)
Definition report (result : prach_detection_result) : M event unit :=
  let nof_detected_preambles := to_unsigned (N.of_nat (length (preambles result))) in
  if N.eqb nof_detected_preambles 0 then mex_abort NO_PREAMBLES_MESSAGE [] else
  match last (preambles result) with
  | Some p => set_output 0 (detected_preamble_indication result p)
  | None => fail (AssertionFailure "static_vector::back")
  end.

Definition method_step (inputs : ArgumentList) : M event unit :=
  check_step_outputs_inputs inputs;;
  '(in_det_cfg, rs) ← lift (read_restricted_set inputs);
  if restricted_set_eqb rs UNRESTRICTED then
    '(buffer, detector_config) ← prepare inputs in_det_cfg rs;
    result ← run_detector buffer detector_config;
    report result
  else
    emit (Print SKIP_MESSAGE []).

End WithLibrary.

End PrachDetectorMex.

(** A library instance and sample calls on which the PRACH binding can be
    run: sequences of 839 and 139 samples, a long buffer of 4 symbols per
    frequency-domain occasion, a short buffer of 12 symbols per occasion,
    durations counted in nanoseconds, and a detector given as a function. *)
Module PrachSamples.
Import Prach PrachDetectorMex.

Definition zeroed_buffer (ports td fd symbols len : N) : prach_buffer :=
  PrachBuffer ports td fd symbols len
    (replicate (N.to_nat (ports * td * fd * symbols * len)) cf_zero).

Definition nanoseconds (t : phy_time_unit) : float64 :=
  F64 (binary_normalize prec64 emax64 (time_value t) (-30) false).

Definition sample_library (detector : prach_buffer -> configuration -> prach_detection_result)
  : Library :=
  {| LONG_SEQUENCE_LENGTH := 839;
     SHORT_SEQUENCE_LENGTH := 139;
     create_prach_buffer_long := fun max_nof_fd_occasions =>
       Some (zeroed_buffer 1 1 max_nof_fd_occasions 4 839);
     create_prach_buffer_short := fun max_nof_td_occasions max_nof_fd_occasions =>
       Some (zeroed_buffer 1 max_nof_td_occasions max_nof_fd_occasions 12 139);
     detect := detector;
     to_seconds := nanoseconds |}.

(** A detector that finds nothing, and one that finds two preambles. *)
Definition silent_detector (b : prach_buffer) (c : configuration) : prach_detection_result :=
  DetectionResult f32_zero (PhyTime 1) (PhyTime 100) [].

Definition two_preamble_detector (b : prach_buffer) (c : configuration)
  : prach_detection_result :=
  DetectionResult (f32_of_unsigned 3) (PhyTime 1) (PhyTime 100)
    [ PreambleIndication 5 (PhyTime 7) (f32_of_unsigned 10) (f32_of_unsigned 20);
      PreambleIndication 9 (PhyTime 8) (f32_of_unsigned 11) (f32_of_unsigned 21) ].

Definition config_struct (restricted_set_name format_name : string) : Array :=
  MkArray [1; 1] (PStruct [MkStruct
    [ ("root_sequence_index", createScalar (PDouble [f64_of_unsigned 1]));
      ("format", MkArray [1; 1] (PChar format_name));
      ("restricted_set", MkArray [1; N.of_nat (String.length restricted_set_name)]
                           (PChar restricted_set_name));
      ("zero_correlation_zone", createScalar (PDouble [f64_of_unsigned 0])) ]]).

Definition step_tag : Array := MkArray [1; 4] (PChar "step").

(** A complex double array of the given shape, every element zero. *)
Definition zero_symbols (rows columns : N) : Array :=
  MkArray [rows; columns]
    (PComplexDouble (replicate (N.to_nat (rows * columns)) (f64_zero, f64_zero))).

Definition call (prach_symbols config : Array) : ArgumentList :=
  [step_tag; prach_symbols; config].

(** One output slot, not yet assigned, and nothing printed or run. *)
Definition fresh : mex_state event := MexState [None] [].

End PrachSamples.

(* ===================================================================== *)
(** ** srsRAN PHY interfaces used by the channel estimator binding *)
(* ===================================================================== *)

Module Estimator.
Import Prach.

Inductive cyclic_prefix := NORMAL | EXTENDED.
Inductive subcarrier_spacing := kHz15 | kHz30 | kHz60 | kHz120 | kHz240.

(** Modelled from the spec: the constant [NRE] of the srsRAN headers, the
    number of subcarriers of a resource block, which the specification
    gives as 12. *)
Definition NRE : N := 12.

(** [bounded_bitset<capacity>(begin, end)]: the bits in order; building a
    bitset longer than its capacity is an assertion failure. *)
Definition bounded_bitset (capacity : N) (bits : list bool) : result (list bool) :=
  if N.leb (N.of_nat (length bits)) capacity then Ok bits
  else Fail (AssertionFailure "bounded_bitset::resize").

(** [bitset.count()] and [bitset.size()], as [unsigned]. *)
Definition count (bits : list bool) : N := N.of_nat (length (filter (fun b => b = true) bits)).
Definition size (bits : list bool) : N := N.of_nat (length bits).

(** [port_channel_estimator::layer_dmrs_pattern] *)
Record layer_dmrs_pattern := LayerDmrsPattern {
  symbols : list bool;
  rb_mask : list bool;
  rb_mask2 : list bool;
  hopping_symbol_index : option N;
  re_pattern : list bool
}.

(** [port_channel_estimator::configuration] *)
Record configuration := Configuration {
  scs : subcarrier_spacing;
  cp : cyclic_prefix;
  first_symbol : N;
  nof_symbols : N;
  dmrs_pattern : list layer_dmrs_pattern;
  rx_ports : list N;
  scaling : float32
}.

(** [resource_grid]: subcarrier index fastest, then symbol, then port. *)
Record resource_grid := ResourceGrid {
  grid_nof_subc : N;
  grid_nof_symbols : N;
  grid_nof_ports : N;
  grid_data : list cf_t
}.

(** [span::first(n)] and [span::last(n)] on a view with the elements [l]. *)
Definition span_first {A} (n : N) (l : list A) : result (list A) :=
  if N.leb n (N.of_nat (length l)) then Ok (take (N.to_nat n) l)
  else Fail (AssertionFailure "span::first").

Definition span_last {A} (n : N) (l : list A) : result (list A) :=
  if N.leb n (N.of_nat (length l)) then Ok (drop (length l - N.to_nat n) l)
  else Fail (AssertionFailure "span::last").

(** [grid->get_writer().put(port, l, k_init, symbols)] *)
Definition put (g : resource_grid) (port l k_init : N) (values : list cf_t) : result resource_grid :=
  if N.ltb port (grid_nof_ports g) && N.ltb l (grid_nof_symbols g)
     && N.leb (k_init + N.of_nat (length values)) (grid_nof_subc g)
  then
    let start := N.to_nat (k_init + grid_nof_subc g * (l + grid_nof_symbols g * port)) in
    Ok (ResourceGrid (grid_nof_subc g) (grid_nof_symbols g) (grid_nof_ports g)
          (take start (grid_data g) ++ values ++ drop (start + length values) (grid_data g)))
  else Fail (AssertionFailure "resource_grid_writer::put").

(** [re_measurement_dimensions] and [dmrs_symbol_list]. *)
Record re_measurement_dimensions := ReDims {
  nof_subc : N;
  dims_nof_symbols : N;
  nof_slices : N
}.

Record dmrs_symbol_list := DmrsSymbolList {
  pilot_dims : re_measurement_dimensions;
  slices : list (list cf_t)
}.

(** [dmrs_symbol_list pilots(dims)]: one slice per receive port. *)
Definition new_dmrs_symbol_list (dims : re_measurement_dimensions) : dmrs_symbol_list :=
  DmrsSymbolList dims
    (replicate (N.to_nat (nof_slices dims))
       (replicate (N.to_nat (nof_subc dims * dims_nof_symbols dims)) cf_zero)).

(** [pilots.set_slice(view, i_slice)] *)
Definition set_slice (p : dmrs_symbol_list) (view : list cf_t) (i_slice : N)
  : result dmrs_symbol_list :=
  if N.eqb (N.of_nat (length view)) (nof_subc (pilot_dims p) * dims_nof_symbols (pilot_dims p))
     && N.ltb i_slice (nof_slices (pilot_dims p))
     && bool_decide (N.to_nat i_slice < length (slices p))%nat
  then Ok (DmrsSymbolList (pilot_dims p) (<[N.to_nat i_slice := view]> (slices p)))
  else Fail (AssertionFailure "re_measurement::set_slice").

Definition get_slice (p : dmrs_symbol_list) (i_slice : N) : option (list cf_t) :=
  slices p !! N.to_nat i_slice.

(** [channel_estimate::channel_estimate_dimensions] *)
Record channel_estimate_dimensions := ChEstDims {
  nof_prb : N;
  ce_nof_symbols : N;
  nof_rx_ports : N;
  nof_tx_layers : N
}.

(** [channel_estimate]: per receive port (transmit layer 0), the estimated
    path and the metrics. *)
Record channel_estimate := ChannelEstimate {
  ce_dims : channel_estimate_dimensions;
  get_path_ch_estimate : N -> list cf_t;
  get_noise_variance : N -> float32;
  get_rsrp : N -> float32;
  get_epre : N -> float32;
  get_snr : N -> float32;
  get_time_alignment : N -> phy_time_unit
}.

(** What the binding takes from outside this file: the bitset capacities,
    the two tag conversions declared next to those of [matlab_to_srs.h],
    the grid factory (a null pointer is [None]), the initial
    [channel_estimate] of given dimensions, the estimator's
    [compute(estimate, grid, port, pilots, cfg)] as estimate transformer,
    and the conversion of a duration to seconds. *)
Class Library := {
  MAX_NSYMB_PER_SLOT : N;
  MAX_RB : N;
  matlab_to_srs_cyclic_prefix : string -> result cyclic_prefix;
  matlab_to_srs_subcarrier_spacing : N -> result subcarrier_spacing;
  create_resource_grid : N -> N -> N -> option resource_grid;
  new_channel_estimate : channel_estimate_dimensions -> channel_estimate;
  compute : channel_estimate -> resource_grid -> N -> dmrs_symbol_list -> configuration
            -> channel_estimate;
  to_seconds : phy_time_unit -> float64
}.

End Estimator.

(* ===================================================================== *)
(** ** [multiport_channel_estimator_mex.cpp] *)
(* ===================================================================== *)

Module ChannelEstimatorMex.
Import Prach Estimator.

Inductive event :=
| Compute (grid : resource_grid) (i_port : N) (pilots : dmrs_symbol_list) (cfg : configuration).

Definition PORT_MISMATCH_MESSAGE : string :=
  "PortIndices and number of resource grid ports do not match: {} vs. {}.".
Definition PILOT_MISMATCH_MESSAGE : string := "Expected {} DM-RS symbols, received {}.".

Definition NOF_INPUTS : nat := 5.
Definition NOF_OUTPUTS : nat := 2.

Definition check_step_outputs_inputs (inputs : ArgumentList) : M event unit :=
  if negb (Nat.eqb (length inputs) NOF_INPUTS)
  then mex_abort "Wrong number of inputs: expected {}, provided {}."
         [ArgNum (N.of_nat NOF_INPUTS); ArgNum (N.of_nat (length inputs))] else
  in1 ← lift (arg inputs 1);
  if negb (ArrayType_eqb (getType in1) COMPLEX_SINGLE)
     || Nat.ltb (length (getDimensions in1)) 2 || Nat.ltb 3 (length (getDimensions in1))
  then mex_abort "Input 'rxGrid' should be a 2- or 3-dimensional array of complex floats." [] else
  in2 ← lift (arg inputs 2);
  if negb (ArrayType_eqb (getType in2) DOUBLE) || negb (N.eqb (getNumberOfElements in2) 2)
  then mex_abort "Input 'symbolAllocation' should contain two elements only." [] else
  in3 ← lift (arg inputs 3);
  if negb (ArrayType_eqb (getType in3) COMPLEX_SINGLE)
     || negb (N.eqb (dim 0 (getDimensions in3)) (getNumberOfElements in3))
  then mex_abort "Input 'refSym' should be a column array of complex float symbols." [] else
  in4 ← lift (arg inputs 4);
  if negb (ArrayType_eqb (getType in4) STRUCT) || N.ltb 1 (getNumberOfElements in4)
  then mex_abort "Input 'config' should be a scalar structure." [] else
  n_out ← nargout;
  if negb (Nat.eqb n_out NOF_OUTPUTS)
  then mex_abort "Wrong number of outputs: expected {}, provided {}."
         [ArgNum (N.of_nat NOF_OUTPUTS); ArgNum (N.of_nat n_out)] else
  ret tt.

(** [static_cast<unsigned>(x)] for a [double] [x]. *)
Definition double_to_unsigned (x : float64) : result N :=
  of_option (UndefinedBehaviour "float to unsigned") (f64_to_unsigned x).

(** A logical field of the configuration as a bitset of the given capacity. *)
Definition bitset_field (in_cfg : Struct) (name : string) (capacity : N) : result (list bool) :=
  a ← field in_cfg name;
  bits ← as_logical_array a;
  bounded_bitset capacity bits.

(** [unsigned r; r -= n;] *)
Definition unsigned_sub (r n : N) : N := to_unsigned (r + UNSIGNED_MODULUS - to_unsigned n).

(** [info_out[i][name] = value] on a structure array. *)
Fixpoint set_field (name : string) (value : Array) (fields : list (string * Array))
  : option (list (string * Array)) :=
  match fields with
  | [] => None
  | (n, a) :: rest =>
      if String.eqb n name then Some ((n, value) :: rest)
      else option_map (cons (n, a)) (set_field name value rest)
  end.

Definition assign (info_out : list Struct) (i : N) (name : string) (value : Array)
  : result (list Struct) :=
  match info_out !! N.to_nat i with
  | Some (MkStruct fields) =>
      match set_field name value fields with
      | Some fields' => Ok (<[N.to_nat i := MkStruct fields']> info_out)
      | None => Fail (MatlabException InvalidFieldNameException)
      end
  | None => Fail (MatlabException InvalidArrayIndexException)
  end.

(** [factory.createScalar(x)] for a [double] [x]. *)
Definition double_scalar (x : float64) : Array := createScalar (PDouble [x]).

(** [factory.createStructArray({n, 1}, names)]: every field starts as an
    empty array. *)
Definition INFO_FIELDS : list string := ["NoiseVar"; "RSRP"; "EPRE"; "SINR"; "TimeAlignment"].

Definition createStructArray (n : N) (names : list string) : list Struct :=
  replicate (N.to_nat n) (MkStruct (map (fun name => (name, MkArray [0; 0] (PDouble []))) names)).

(** [std::copy_n(view.begin(), view.size(), out_iter)] into the elements
    [out] from position [pos] on; returns the advanced iterator. *)
Definition copy_n (view : list cf_t) (out : list cf_t) (pos : nat) : result (list cf_t * nat) :=
  if bool_decide (pos + length view <= length out)%nat
  then Ok ((take pos out ++ view ++ drop (pos + length view) out)%list, (pos + length view)%nat)
  else Fail (UndefinedBehaviour "copy_n past the end").

Section WithLibrary.
Context {lib : Library}.

(** Lines 70-104: the configuration without its receive ports. *)
Definition read_configuration (inputs : ArgumentList) : result (Struct * configuration) :=
  in_cfg_array ← arg inputs 4;
  in_cfg ← struct_element in_cfg_array 0;
  cp_field ← field in_cfg "CyclicPrefix";
  in_cp ← as_char_array cp_field;
  cfg_cp ← matlab_to_srs_cyclic_prefix in_cp;
  scs_field ← field in_cfg "SubcarrierSpacing";
  scs_value ← element_as_unsigned scs_field [0];
  cfg_scs ← matlab_to_srs_subcarrier_spacing scs_value;
  in2 ← arg inputs 2;
  in_allocation ← as_double_array in2;
  a0 ← element (getDimensions in2) in_allocation [0];
  cfg_first_symbol ← double_to_unsigned a0;
  a1 ← element (getDimensions in2) in_allocation [1];
  cfg_nof_symbols ← double_to_unsigned a1;
  dmrs_symbols ← bitset_field in_cfg "Symbols" MAX_NSYMB_PER_SLOT;
  dmrs_rb_mask ← bitset_field in_cfg "RBMask" MAX_RB;
  hop_field ← field in_cfg "HoppingIndex";
  in_hop ← as_double_array hop_field;
  '(hop, dmrs_rb_mask2) ←
    (if negb (isEmpty hop_field) then
       h0 ← element (getDimensions hop_field) in_hop [0];
       h ← double_to_unsigned h0;
       mask2 ← bitset_field in_cfg "RBMask2" MAX_RB;
       Ok (Some h, mask2)
     else Ok (None, []));
  dmrs_re_pattern ← bitset_field in_cfg "REPattern" NRE;
  beta_field ← field in_cfg "BetaScaling";
  beta ← element_as_double beta_field [0];
  Ok (in_cfg,
      Configuration cfg_scs cfg_cp cfg_first_symbol cfg_nof_symbols
        [LayerDmrsPattern dmrs_symbols dmrs_rb_mask dmrs_rb_mask2 hop dmrs_re_pattern]
        [] (f32_of_f64 beta)).

(** [cfg.dmrs_pattern[0]] *)
Definition first_layer (cfg : configuration) : layer_dmrs_pattern :=
  match dmrs_pattern cfg with
  | p :: _ => p
  | [] => LayerDmrsPattern [] [] [] None []
  end.

(** Lines 108-113. *)
Definition grid_nof_rx_ports (grid_dims : list N) : N :=
  if Nat.eqb (length grid_dims) 3 then to_unsigned (dim 2 grid_dims) else 1.

(** Lines 122-124. *)
Definition check_port_indices (nof_port_indices nof_rx_ports : N) : M event unit :=
  if negb (N.eqb nof_port_indices nof_rx_ports)
  then mex_abort PORT_MISMATCH_MESSAGE [ArgNum nof_port_indices; ArgNum nof_rx_ports]
  else ret tt.

(** Lines 120-128: the receive ports. *)
Definition read_rx_ports (in_cfg : Struct) (nof_rx_ports : N) : M event (list N) :=
  port_field ← lift (field in_cfg "PortIndices");
  in_port_indices ← lift (as_double_array port_field);
  let nof_port_indices := to_unsigned (getNumberOfElements port_field) in
  check_port_indices nof_port_indices nof_rx_ports;;
  for_loop (N.to_nat nof_rx_ports) 0
    (fun i_port ports =>
       x ← lift (element (getDimensions port_field) in_port_indices [i_port]);
       p ← lift (double_to_unsigned x);
       ret (<[N.to_nat i_port := p]> ports))
    (replicate (N.to_nat nof_rx_ports) 0).

(** Lines 130-141: the samples of the input grid, symbol by symbol. *)
Definition fill_grid_symbol (nof_subcarriers i_port i_symbol : N)
    (s : resource_grid * list cf_t * N) : M event (resource_grid * list cf_t * N) :=
  let '(grid, grid_view, remaining_res) := s in
  symbol_view ← lift (span_first nof_subcarriers grid_view);
  let remaining_res := unsigned_sub remaining_res nof_subcarriers in
  grid_view ← lift (span_last remaining_res grid_view);
  grid ← lift (put grid i_port i_symbol 0 symbol_view);
  ret (grid, grid_view, remaining_res).

Definition fill_grid (in_grid : Array) (data : list cf_t)
    (nof_subcarriers nof_symbols nof_rx_ports : N) (grid : resource_grid)
  : M event resource_grid :=
  s ← for_loop (N.to_nat nof_rx_ports) 0
        (fun i_port =>
           for_loop (N.to_nat nof_symbols) 0 (fill_grid_symbol nof_subcarriers i_port))
        (grid, data, to_unsigned (getNumberOfElements in_grid));
  ret (fst (fst s)).

(** Lines 106-141. *)
Definition build_grid (inputs : ArgumentList) (in_cfg : Struct) (cfg : configuration)
  : M event (resource_grid * N * configuration) :=
  in_grid ← lift (arg inputs 1);
  data ← lift (as_complex_single_array in_grid);
  let grid_dims := getDimensions in_grid in
  let nof_subcarriers := to_unsigned (dim 0 grid_dims) in
  let nof_symbols := to_unsigned (dim 1 grid_dims) in
  let nof_rx_ports := grid_nof_rx_ports grid_dims in
  match create_resource_grid nof_subcarriers nof_symbols nof_rx_ports with
  | None => mex_abort "Cannot create resource grid." []
  | Some grid =>
      ports ← read_rx_ports in_cfg nof_rx_ports;
      grid ← fill_grid in_grid data nof_subcarriers nof_symbols nof_rx_ports grid;
      ret (grid, nof_rx_ports,
           Configuration (scs cfg) (cp cfg) (first_symbol cfg) (Estimator.nof_symbols cfg)
             (dmrs_pattern cfg) ports (scaling cfg))
  end.

(** Lines 145-146. *)
Definition nof_pilot_res_of (p : layer_dmrs_pattern) : N :=
  to_unsigned (count (rb_mask p) * count (re_pattern p)).
Definition nof_pilot_symbols_of (p : layer_dmrs_pattern) : N :=
  to_unsigned (count (symbols p)).

(** Lines 147-150; the product is taken in [unsigned]. *)
Definition check_pilots (nof_pilots nof_pilot_res nof_pilot_symbols : N) : M event unit :=
  if negb (N.eqb nof_pilots (to_unsigned (nof_pilot_res * nof_pilot_symbols)))
  then mex_abort PILOT_MISMATCH_MESSAGE
         [ArgNum (to_unsigned (nof_pilot_res * nof_pilot_symbols)); ArgNum nof_pilots]
  else ret tt.

(** Lines 143-160: the pilots, the same view for every port. *)
Definition build_pilots (inputs : ArgumentList) (p : layer_dmrs_pattern) (nof_rx_ports : N)
  : M event dmrs_symbol_list :=
  in3 ← lift (arg inputs 3);
  in_pilots ← lift (as_complex_single_array in3);
  let nof_pilot_res := nof_pilot_res_of p in
  let nof_pilot_symbols := nof_pilot_symbols_of p in
  check_pilots (getNumberOfElements in3) nof_pilot_res nof_pilot_symbols;;
  let pilot_view := in_pilots in
  for_loop (N.to_nat nof_rx_ports) 0
    (fun i_port pilots => lift (set_slice pilots pilot_view i_port))
    (new_dmrs_symbol_list (ReDims nof_pilot_res nof_pilot_symbols nof_rx_ports)).

(** Lines 162-166. *)
Definition ch_est_dims_of (p : layer_dmrs_pattern) (nof_rx_ports : N)
  : channel_estimate_dimensions :=
  ChEstDims (to_unsigned (size (rb_mask p))) (to_unsigned (size (symbols p))) nof_rx_ports 1.

(** Line 170: the dimensions of the output array. *)
Definition ch_est_out_dims (d : channel_estimate_dimensions) (nof_rx_ports : N) : list N :=
  [to_unsigned (nof_prb d * NRE); ce_nof_symbols d; nof_rx_ports].

(** Lines 172-177, one port. *)
Definition estimate_port (grid : resource_grid) (pilots : dmrs_symbol_list)
    (cfg : configuration) (i_port : N) (s : channel_estimate * list cf_t * nat)
  : M event (channel_estimate * list cf_t * nat) :=
  let '(ch_estimate, ch_est_out, ch_est_out_iter) := s in
  emit (Compute grid i_port pilots cfg);;
  let ch_estimate := compute ch_estimate grid i_port pilots cfg in
  let ch_estimate_view := get_path_ch_estimate ch_estimate i_port in
  '(ch_est_out, ch_est_out_iter) ← lift (copy_n ch_estimate_view ch_est_out ch_est_out_iter);
  ret (ch_estimate, ch_est_out, ch_est_out_iter).

(** Lines 162-177. *)
Definition run_estimator (grid : resource_grid) (pilots : dmrs_symbol_list)
    (cfg : configuration) (nof_rx_ports : N) : M event (channel_estimate * Array) :=
  let ch_est_dims := ch_est_dims_of (first_layer cfg) nof_rx_ports in
  let out_dims := ch_est_out_dims ch_est_dims nof_rx_ports in
  s ← for_loop (N.to_nat nof_rx_ports) 0 (estimate_port grid pilots cfg)
        (new_channel_estimate ch_est_dims,
         replicate (N.to_nat (fold_right N.mul 1 out_dims)) cf_zero, 0%nat);
  ret (fst (fst s), MkArray out_dims (PComplexSingle (snd (fst s)))).

(** The running totals of lines 181-184. *)
Record totals := Totals {
  total_noise_var : float32;
  total_rsrp : float32;
  total_epre : float32;
  total_time_alignment : float64
}.

(** Lines 186-195, one port. *)
Definition port_info (ch_estimate : channel_estimate) (i_port : N)
    (s : list Struct * totals) : result (list Struct * totals) :=
  let '(info_out, t) := s in
  info_out ← assign info_out i_port "NoiseVar"
               (double_scalar (f64_of_f32 (get_noise_variance ch_estimate i_port)));
  let noise_var := f32_add (total_noise_var t) (get_noise_variance ch_estimate i_port) in
  info_out ← assign info_out i_port "RSRP"
               (double_scalar (f64_of_f32 (get_rsrp ch_estimate i_port)));
  let rsrp := f32_add (total_rsrp t) (get_rsrp ch_estimate i_port) in
  info_out ← assign info_out i_port "EPRE"
               (double_scalar (f64_of_f32 (get_epre ch_estimate i_port)));
  let epre := f32_add (total_epre t) (get_epre ch_estimate i_port) in
  info_out ← assign info_out i_port "SINR"
               (double_scalar (f64_of_f32 (get_snr ch_estimate i_port)));
  info_out ← assign info_out i_port "TimeAlignment"
               (double_scalar (to_seconds (get_time_alignment ch_estimate i_port)));
  let time_alignment :=
    f64_add (total_time_alignment t) (to_seconds (get_time_alignment ch_estimate i_port)) in
  Ok (info_out, Totals noise_var rsrp epre time_alignment).

(** Lines 198-205: the record after those of the ports. *)
Definition global_info (nof_rx_ports : N) (s : list Struct * totals) : result (list Struct) :=
  let '(info_out, t) := s in
  let noise_var := f32_div (total_noise_var t) (f32_of_unsigned nof_rx_ports) in
  info_out ← assign info_out nof_rx_ports "NoiseVar" (double_scalar (f64_of_f32 noise_var));
  info_out ← assign info_out nof_rx_ports "RSRP"
               (double_scalar (f64_of_f32 (f32_div (total_rsrp t) (f32_of_unsigned nof_rx_ports))));
  info_out ← assign info_out nof_rx_ports "EPRE"
               (double_scalar (f64_of_f32 (f32_div (total_epre t) (f32_of_unsigned nof_rx_ports))));
  info_out ← assign info_out nof_rx_ports "SINR" (double_scalar f64_nan);
  assign info_out nof_rx_ports "TimeAlignment"
    (double_scalar (f64_div (total_time_alignment t) (f64_of_unsigned nof_rx_ports))).

(** Lines 179-205. *)
Definition build_info (ch_estimate : channel_estimate) (nof_rx_ports : N) : M event Array :=
  let nof_records := to_unsigned (nof_rx_ports + 1) in
  s ← for_loop (N.to_nat nof_rx_ports) 0
        (fun i_port s => lift (port_info ch_estimate i_port s))
        (createStructArray nof_records INFO_FIELDS,
         Totals f32_zero f32_zero f32_zero f64_zero);
  info_out ← lift (global_info nof_rx_ports s);
  ret (MkArray [nof_records; 1] (PStruct info_out)).

Definition method_step (inputs : ArgumentList) : M event unit :=
  check_step_outputs_inputs inputs;;
  '(in_cfg, cfg) ← lift (read_configuration inputs);
  '(grid, nof_rx_ports, cfg) ← build_grid inputs in_cfg cfg;
  pilots ← build_pilots inputs (first_layer cfg) nof_rx_ports;
  '(ch_estimate, ch_est_out) ← run_estimator grid pilots cfg nof_rx_ports;
  info_out ← build_info ch_estimate nof_rx_ports;
  set_output 0 ch_est_out;;
  set_output 1 info_out.

End WithLibrary.

End ChannelEstimatorMex.

(** A library instance and a sample call on which the estimator binding can
    be run: 14 symbols per slot, at most 275 resource blocks, and a stand-in
    estimator whose result for a port depends on the port index only. *)
Module EstimatorSamples.
Import Prach Estimator ChannelEstimatorMex.

Definition sample_cyclic_prefix (name : string) : result cyclic_prefix :=
  if String.eqb name "normal" then Ok NORMAL
  else if String.eqb name "extended" then Ok EXTENDED
  else srsran_terminate "Unknown cyclic prefix {}." [ArgStr name].

Definition sample_subcarrier_spacing (khz : N) : result subcarrier_spacing :=
  if N.eqb khz 15 then Ok kHz15
  else if N.eqb khz 30 then Ok kHz30
  else if N.eqb khz 60 then Ok kHz60
  else if N.eqb khz 120 then Ok kHz120
  else if N.eqb khz 240 then Ok kHz240
  else srsran_terminate "Unknown subcarrier spacing {}." [ArgNum khz].

Definition zero_grid (nof_subc nof_symb nof_ports : N) : option resource_grid :=
  Some (ResourceGrid nof_subc nof_symb nof_ports
          (replicate (N.to_nat (nof_subc * nof_symb * nof_ports)) cf_zero)).

Definition blank_estimate (d : channel_estimate_dimensions) : channel_estimate :=
  ChannelEstimate d (fun _ => replicate (N.to_nat (nof_prb d * NRE * ce_nof_symbols d)) cf_zero)
    (fun _ => f32_zero) (fun _ => f32_zero) (fun _ => f32_zero) (fun _ => f32_zero)
    (fun _ => PhyTime 0).

Definition override {A} (f : N -> A) (i : N) (x : A) : N -> A :=
  fun j => if N.eqb j i then x else f j.

(** Port [i] gets noise variance [i + 1], RSRP [2 i + 1], EPRE [3], SNR [7]
    and a time alignment of [10 i] units; its path is filled with [i + 1]. *)
Definition stand_in_compute (e : channel_estimate) (g : resource_grid) (i_port : N)
    (pilots : dmrs_symbol_list) (cfg : configuration) : channel_estimate :=
  let d := ce_dims e in
  ChannelEstimate d
    (override (get_path_ch_estimate e) i_port
       (replicate (N.to_nat (nof_prb d * NRE * ce_nof_symbols d))
          (f32_of_unsigned (i_port + 1), f32_zero)))
    (override (get_noise_variance e) i_port (f32_of_unsigned (i_port + 1)))
    (override (get_rsrp e) i_port (f32_of_unsigned (2 * i_port + 1)))
    (override (get_epre e) i_port (f32_of_unsigned 3))
    (override (get_snr e) i_port (f32_of_unsigned 7))
    (override (get_time_alignment e) i_port (PhyTime (Z.of_N (10 * i_port)))).

Definition sample_library : Library :=
  {| MAX_NSYMB_PER_SLOT := 14;
     MAX_RB := 275;
     matlab_to_srs_cyclic_prefix := sample_cyclic_prefix;
     matlab_to_srs_subcarrier_spacing := sample_subcarrier_spacing;
     create_resource_grid := zero_grid;
     new_channel_estimate := blank_estimate;
     compute := stand_in_compute;
     to_seconds := PrachSamples.nanoseconds |}.

Definition column {A} (wrap : list A -> Payload) (l : list A) : Array :=
  MkArray [N.of_nat (length l); 1] (wrap l).

Definition unit_sample : cf_t := (f32_of_unsigned 1, f32_zero).

(** A structure with the fields the binding reads. *)
Definition config_struct (symbols rb_mask re_pattern : list bool) (port_indices : list N) : Array :=
  MkArray [1; 1] (PStruct [MkStruct
    [ ("CyclicPrefix", MkArray [1; 6] (PChar "normal"));
      ("SubcarrierSpacing", createScalar (PDouble [f64_of_unsigned 15]));
      ("Symbols", column PLogical symbols);
      ("RBMask", column PLogical rb_mask);
      ("HoppingIndex", MkArray [0; 0] (PDouble []));
      ("REPattern", column PLogical re_pattern);
      ("BetaScaling", createScalar (PDouble [f64_of_unsigned 1]));
      ("PortIndices", column PDouble (map f64_of_unsigned port_indices)) ]]).

(** Symbol 2 of 14 carries pilots, on the even subcarriers of the first of
    two resource blocks. *)
Definition symbols_mask : list bool := <[2%nat := true]> (replicate 14 false).
Definition rb_mask_10 : list bool := [true; false].
Definition even_res : list bool :=
  [true; false; true; false; true; false; true; false; true; false; true; false].

Definition rx_grid (nof_subc nof_symb nof_ports : N) : Array :=
  MkArray [nof_subc; nof_symb; nof_ports]
    (PComplexSingle (replicate (N.to_nat (nof_subc * nof_symb * nof_ports)) unit_sample)).

Definition call (grid : Array) (ref_sym : list cf_t) (config : Array) : ArgumentList :=
  [ PrachSamples.step_tag; grid;
    column PDouble [f64_of_unsigned 0; f64_of_unsigned 14];
    column PComplexSingle ref_sym; config ].

(** Two receive ports, six pilots. *)
Definition two_port_call : ArgumentList :=
  call (rx_grid 24 14 2) (replicate 6 unit_sample)
    (config_struct symbols_mask rb_mask_10 even_res [0; 1]).

Definition fresh : mex_state event := MexState [None; None] [].

End EstimatorSamples.

(* ===================================================================== *)
(** ** Vocabulary of the properties *)
(* ===================================================================== *)

(** A conversion fails fast when it stops with a failure that the
    specification files under [InvalidArgument]. *)
Definition fails_fast {A} (r : result A) : Prop :=
  exists f, r = Fail f /\ spec_error_kind f = Some InvalidArgument.

(** A failure other than the specification's [NotFound], and code whose
    failures are all of that sort. *)
Definition quiet (f : failure) : Prop := spec_error_kind f <> Some NotFound.

Definition result_fails_quietly {A} (r : result A) : Prop :=
  forall f, r = Fail f -> quiet f.

Definition fails_quietly {E A} (m : M E A) : Prop :=
  forall st f st', m st = (Fail f, st') -> quiet f.

(** A stage that comes to its end. *)
Definition is_ok {A} (r : result A) : bool :=
  match r with
  | Ok _ => true
  | Fail _ => false
  end.

(** Code that leaves the output slots alone, and code that leaves the whole
    call state alone. *)
Definition keeps_outputs {E A} (m : M E A) : Prop :=
  forall st, outputs (snd (m st)) = outputs st.

Definition stateless {E A} (m : M E A) : Prop := forall st, snd (m st) = st.

(** The loop counter of [for (i = start; i != start + n; ++i)]. *)
Fixpoint port_range (n : nat) (start : N) : list N :=
  match n with
  | O => []
  | S n' => start :: port_range n' (N.succ start)
  end.

(** The arithmetic mean of a list of values: their sum, taken from the left
    starting at zero, divided by their number, in [float] and in [double]
    arithmetic. *)
Definition f32_sum (xs : list float32) : float32 := fold_left f32_add xs f32_zero.
Definition f32_mean (xs : list float32) : float32 :=
  f32_div (f32_sum xs) (f32_of_unsigned (N.of_nat (length xs))).
Definition f64_sum (xs : list float64) : float64 := fold_left f64_add xs f64_zero.
Definition f64_mean (xs : list float64) : float64 :=
  f64_div (f64_sum xs) (f64_of_unsigned (N.of_nat (length xs))).

Module EstimatorVocabulary.
Import Prach Estimator ChannelEstimatorMex.

Section WithLibrary.
Context {lib : Library}.

(** A record of [createStructArray] before any field is assigned. *)
Definition blank_record : Struct :=
  MkStruct (map (fun name => (name, MkArray [0; 0] (PDouble []))) INFO_FIELDS).

(** The record of one port in the metrics output. *)
Definition port_record (e : channel_estimate) (i_port : N) : Struct :=
  MkStruct
    [ ("NoiseVar", double_scalar (f64_of_f32 (get_noise_variance e i_port)));
      ("RSRP", double_scalar (f64_of_f32 (get_rsrp e i_port)));
      ("EPRE", double_scalar (f64_of_f32 (get_epre e i_port)));
      ("SINR", double_scalar (f64_of_f32 (get_snr e i_port)));
      ("TimeAlignment", double_scalar (to_seconds (get_time_alignment e i_port))) ].

(** The record of the means over the given ports, its SINR not a number. *)
Definition mean_record (e : channel_estimate) (ports : list N) : Struct :=
  MkStruct
    [ ("NoiseVar", double_scalar (f64_of_f32 (f32_mean (map (get_noise_variance e) ports))));
      ("RSRP", double_scalar (f64_of_f32 (f32_mean (map (get_rsrp e) ports))));
      ("EPRE", double_scalar (f64_of_f32 (f32_mean (map (get_epre e) ports))));
      ("SINR", double_scalar f64_nan);
      ("TimeAlignment",
       double_scalar
         (f64_mean (map (fun i => to_seconds (get_time_alignment e i)) ports))) ].

(** The estimator run port after port from the estimate [e]: the paths
    of the ports, each read right after its port was computed, one after
    the other, and the estimate at the end. *)
Fixpoint estimated_paths (grid : resource_grid) (pilots : dmrs_symbol_list)
    (cfg : configuration) (n : nat) (i_port : N) (e : channel_estimate)
  : list cf_t * channel_estimate :=
  match n with
  | O => ([], e)
  | S n' =>
      let e1 := compute e grid i_port pilots cfg in
      let '(rest, e') := estimated_paths grid pilots cfg n' (N.succ i_port) e1 in
      ((get_path_ch_estimate e1 i_port ++ rest)%list, e')
  end.

(** The same run, the paths kept apart: one list per port. *)
Fixpoint estimated_path_list (grid : resource_grid) (pilots : dmrs_symbol_list)
    (cfg : configuration) (n : nat) (i_port : N) (e : channel_estimate)
  : list (list cf_t) :=
  match n with
  | O => []
  | S n' =>
      let e1 := compute e grid i_port pilots cfg in
      get_path_ch_estimate e1 i_port
        :: estimated_path_list grid pilots cfg n' (N.succ i_port) e1
  end.

End WithLibrary.

End EstimatorVocabulary.

(** Words for the traces and the buffers of the PRACH binding. *)
Module PrachVocabulary.
Import Prach PrachDetectorMex.

Definition is_print (e : event) : bool :=
  match e with
  | Print _ _ => true
  | Detect _ _ => false
  end.

(** The lines of lines 76 and 96. *)
Definition dimensions_line (buffer_dimensions : list N) : event :=
  Print "-- Dimensions=[{}].\n" [ArgDims buffer_dimensions].

Definition symbol_line (i_symbol : N) : event :=
  Print "-- i_symbol={}.\n" [ArgNum i_symbol].

Definition symbol_lines (nof_symbols : N) : list event :=
  map symbol_line (port_range (N.to_nat nof_symbols) 0).

(** Code that adds nothing but printed lines to the trace. *)
Definition only_prints {A} (m : M event A) : Prop :=
  forall st, exists prints,
    trace (snd (m st)) = (trace st ++ prints)%list /\
    Forall (fun e => is_print e = true) prints.

(** Where sample [i_sample] of symbol [i_symbol] of port 0 and occasions
    (0, 0) lies among the samples of a buffer. *)
Definition sample_position (b : prach_buffer) (i_symbol i_sample : N) : nat :=
  N.to_nat (sequence_length b * i_symbol + i_sample).

(** Two buffers of the same dimensions and the same number of samples. *)
Definition same_frame (b b' : prach_buffer) : Prop :=
  max_nof_ports b' = max_nof_ports b /\
  max_nof_td_occasions b' = max_nof_td_occasions b /\
  max_nof_fd_occasions b' = max_nof_fd_occasions b /\
  max_nof_symbols b' = max_nof_symbols b /\
  sequence_length b' = sequence_length b /\
  length (samples b') = length (samples b).

End PrachVocabulary.

(* ===================================================================== *)
(** A library with sequences of 2 samples (long) and 1 sample (short), on
    which the fill loop can be run to its end on a small input, and one
    whose factories return a null pointer. *)
Module PrachSmallSamples.
Import Prach PrachDetectorMex PrachSamples.

Definition small_library : Library :=
  {| LONG_SEQUENCE_LENGTH := 2;
     SHORT_SEQUENCE_LENGTH := 1;
     create_prach_buffer_long := fun max_nof_fd_occasions =>
       Some (zeroed_buffer 1 1 max_nof_fd_occasions 4 2);
     create_prach_buffer_short := fun max_nof_td_occasions max_nof_fd_occasions =>
       Some (zeroed_buffer 1 max_nof_td_occasions max_nof_fd_occasions 12 1);
     detect := silent_detector;
     to_seconds := nanoseconds |}.

Definition no_buffer_library : Library :=
  {| LONG_SEQUENCE_LENGTH := 839;
     SHORT_SEQUENCE_LENGTH := 139;
     create_prach_buffer_long := fun _ => None;
     create_prach_buffer_short := fun _ _ => None;
     detect := silent_detector;
     to_seconds := nanoseconds |}.

Definition real_sample (n : N) : cd_t := (f64_of_unsigned n, f64_zero).

(** The 2-by-2 array with rows (1, 3) and (2, 4), stored column by column. *)
Definition square_symbols : Array :=
  MkArray [2; 2] (PComplexDouble [real_sample 1; real_sample 2; real_sample 3; real_sample 4]).

(** A 2-by-1-by-3 array of zeros. *)
Definition cube_symbols : Array :=
  MkArray [2; 1; 3] (PComplexDouble (replicate 6 (f64_zero, f64_zero))).

(** A structure array without elements. *)
Definition empty_config : Array := MkArray [0; 0] (PStruct []).

(** The one element of a sample configuration. *)
Definition config_element (restricted_set_name format_name : string) : Struct :=
  match payload (config_struct restricted_set_name format_name) with
  | PStruct (s :: _) => s
  | _ => MkStruct []
  end.

End PrachSmallSamples.

(** Further sample calls of the estimator binding, and a library whose
    grid factory returns a null pointer. *)
Module EstimatorSmallSamples.
Import Prach Estimator ChannelEstimatorMex EstimatorSamples.

(** The first element of a structure array. *)
Definition first_element (a : Array) : Struct :=
  match payload a with
  | PStruct (s :: _) => s
  | _ => MkStruct []
  end.

Definition two_port_config : Array := config_struct symbols_mask rb_mask_10 even_res [0; 1].

(** What [two_port_config] is read as, before the receive ports. *)
Definition two_port_cfg0 : configuration :=
  Configuration kHz15 NORMAL 0 14
    [LayerDmrsPattern symbols_mask rb_mask_10 [] None even_res] []
    (f32_of_f64 (f64_of_unsigned 1)).

(** A grid of 24 subcarriers and 14 symbols without ports. *)
Definition no_port_call : ArgumentList :=
  call (rx_grid 24 14 0) (replicate 6 unit_sample)
    (config_struct symbols_mask rb_mask_10 even_res []).

Definition no_grid_library : Library :=
  {| MAX_NSYMB_PER_SLOT := 14;
     MAX_RB := 275;
     matlab_to_srs_cyclic_prefix := sample_cyclic_prefix;
     matlab_to_srs_subcarrier_spacing := sample_subcarrier_spacing;
     create_resource_grid := fun _ _ _ => None;
     new_channel_estimate := blank_estimate;
     compute := stand_in_compute;
     to_seconds := PrachSamples.nanoseconds |}.

End EstimatorSmallSamples.

(** * Properties *)
(* ===================================================================== *)

Local Open Scope list_scope.

(** ** Running monadic code *)

Section MonadFacts.
Context {E : Type}.

Lemma bind_run {A B} (m : M E A) (k : A -> M E B) (st : mex_state E) :
  (m ≫= k) st =
  match m st with
  | (Ok a, st') => k a st'
  | (Fail f, st') => (Fail f, st')
  end.
Proof. reflexivity. Qed.

Lemma bind_ok {A B} (m : M E A) (k : A -> M E B) st a st1 :
  m st = (Ok a, st1) -> (m ≫= k) st = k a st1.
Proof. intros H. rewrite bind_run, H. reflexivity. Qed.

Lemma bind_fail {A B} (m : M E A) (k : A -> M E B) st f st1 :
  m st = (Fail f, st1) -> (m ≫= k) st = (Fail f, st1).
Proof. intros H. rewrite bind_run, H. reflexivity. Qed.

Lemma bind_ok_inv {A B} (m : M E A) (k : A -> M E B) st b st' :
  (m ≫= k) st = (Ok b, st') ->
  exists a st1, m st = (Ok a, st1) /\ k a st1 = (Ok b, st').
Proof.
  rewrite bind_run. destruct (m st) as [[a|f] st1]; intros H.
  - exists a, st1. split; [reflexivity | exact H].
  - discriminate H.
Qed.

Lemma lift_run {A} (r : result A) (st : mex_state E) : lift r st = (r, st).
Proof. reflexivity. Qed.

Lemma lift_ok_inv {A} (r : result A) (st st' : mex_state E) a :
  lift r st = (Ok a, st') -> r = Ok a /\ st' = st.
Proof. unfold lift. intros H. injection H as -> ->. split; reflexivity. Qed.

Lemma ret_run {A} (a : A) (st : mex_state E) : ret a st = (Ok a, st).
Proof. reflexivity. Qed.

Lemma for_loop_S {S} n i (body : N -> S -> M E S) s :
  for_loop (Datatypes.S n) i body s = body i s ≫= for_loop n (N.succ i) body.
Proof. reflexivity. Qed.

(** A loop whose body leaves the output slots alone leaves them alone. *)
Lemma for_loop_outputs {S} (body : N -> S -> M E S) :
  (forall i s st, outputs (snd (body i s st)) = outputs st) ->
  forall n i s st, outputs (snd (for_loop n i body s st)) = outputs st.
Proof.
  intros Hbody n. induction n as [|n IH]; intros i s st.
  - reflexivity.
  - rewrite for_loop_S, bind_run.
    specialize (Hbody i s st). destruct (body i s st) as [[s1|f] st1]; simpl in *.
    + rewrite IH. exact Hbody.
    + exact Hbody.
Qed.

End MonadFacts.

Lemma result_bind_ok_inv {A B} (r : result A) (k : A -> result B) b :
  (r ≫= k) = Ok b -> exists a, r = Ok a /\ k a = Ok b.
Proof.
  destruct r as [a|f]; intros H.
  - exists a. split; [reflexivity | exact H].
  - discriminate H.
Qed.

Lemma to_unsigned_small (n : N) : n < UNSIGNED_MODULUS -> to_unsigned n = n.
Proof. intros H. unfold to_unsigned. apply N.mod_small. exact H. Qed.

Lemma to_unsigned_bound (n : N) : to_unsigned n < UNSIGNED_MODULUS.
Proof. unfold to_unsigned. apply N.mod_lt. discriminate. Qed.

(** The first dimension of an array is narrowed to 32 bits where the bindings
    read it into an [unsigned]: 2^32 + 839 rows are read as 839. *)
Remark narrowing_of_a_dimension :
  PrachDetectorMex.nof_samples_of [4294968135; 0] = 839.
Proof. reflexivity. Qed.

(** ** Tag conversions *)

Section TagConversions.

Lemma eqb_false_of_not_in (s t : string) (l : list string) :
  ~ In s l -> In t l -> String.eqb s t = false.
Proof.
  intros Hs Ht. apply String.eqb_neq. intros ->. exact (Hs Ht).
Qed.

Lemma modulation_unknown (s : string) :
  ~ In s modulation_names ->
  matlab_to_srs_modulation s = Fail (Terminate "Unknown modulation {}." [ArgStr s]).
Proof.
  intros H. unfold matlab_to_srs_modulation.
  rewrite !(fun t Ht => eqb_false_of_not_in s t modulation_names H Ht)
    by (simpl; tauto).
  reflexivity.
Qed.

Lemma modulation_known (s : string) :
  In s modulation_names -> exists m, matlab_to_srs_modulation s = Ok m.
Proof.
  simpl. intros H.
  repeat (destruct H as [<- | H]; [eexists; reflexivity |]).
  destruct H.
Qed.

Lemma restricted_set_unknown (s : string) :
  ~ In s restricted_set_names ->
  matlab_to_srs_restricted_set s = Fail (Terminate "Unknown restricted set {}." [ArgStr s]).
Proof.
  intros H. unfold matlab_to_srs_restricted_set.
  rewrite !(fun t Ht => eqb_false_of_not_in s t restricted_set_names H Ht)
    by (simpl; tauto).
  reflexivity.
Qed.

Lemma restricted_set_known (s : string) :
  In s restricted_set_names -> exists r, matlab_to_srs_restricted_set s = Ok r.
Proof.
  simpl. intros H.
  repeat (destruct H as [<- | H]; [eexists; reflexivity |]).
  destruct H.
Qed.

Lemma preamble_format_unknown (s : string) :
  ~ In s preamble_format_digits -> matlab_to_srs_preamble_format s = OTHER.
Proof.
  intros H. unfold matlab_to_srs_preamble_format.
  rewrite !(fun t Ht => eqb_false_of_not_in s t preamble_format_digits H Ht)
    by (simpl; tauto).
  reflexivity.
Qed.

Lemma preamble_format_known (s : string) :
  In s preamble_format_digits -> matlab_to_srs_preamble_format s <> OTHER.
Proof.
  simpl. intros H.
  repeat (destruct H as [<- | H]; [discriminate |]).
  destruct H.
Qed.

End TagConversions.

(** A tag is none of the names of a list. *)
Ltac not_listed :=
  let H := fresh "H" in
  simpl; intros H; repeat (destruct H as [H | H]; [discriminate H |]); exact H.

(** C7, as stated, fails for the preamble format: the tag "4" is none of the
    four digits, yet it is converted to an enumeration value, and a call with
    that tag runs the detector with it. *)
Lemma unknown_preamble_format_is_converted :
  ~ In "4" preamble_format_digits /\
  matlab_to_srs_preamble_format "4" = OTHER /\
  exists b c,
    trace (snd (PrachDetectorMex.method_step
                  (lib := PrachSamples.sample_library PrachSamples.silent_detector)
                  (PrachSamples.call (PrachSamples.zero_symbols 839 0)
                     (PrachSamples.config_struct "UnrestrictedSet" "4"))
                  PrachSamples.fresh))
    !! 1%nat = Some (PrachDetectorMex.Detect b c) /\ Prach.format c = OTHER.
Proof.
  split; [| split].
  - not_listed.
  - reflexivity.
  - eexists _, _. split; vm_compute; reflexivity.
Qed.

(** ** Code that leaves the output slots alone *)

Section KeepsOutputs.
Context {E : Type}.

Lemma keeps_ret {A} (a : A) : keeps_outputs (ret (E := E) a).
Proof. intros st. reflexivity. Qed.

Lemma keeps_fail {A} f : keeps_outputs (fail (E := E) (A := A) f).
Proof. intros st. reflexivity. Qed.

Lemma keeps_mex_abort {A} fmt args : keeps_outputs (mex_abort (E := E) (A := A) fmt args).
Proof. intros st. reflexivity. Qed.

Lemma keeps_lift {A} (r : result A) : keeps_outputs (lift (E := E) r).
Proof. intros st. reflexivity. Qed.

Lemma keeps_emit (e : E) : keeps_outputs (emit e).
Proof. intros st. reflexivity. Qed.

Lemma keeps_bind {A B} (m : M E A) (k : A -> M E B) :
  keeps_outputs m -> (forall a, keeps_outputs (k a)) -> keeps_outputs (m ≫= k).
Proof.
  intros Hm Hk st. rewrite bind_run. specialize (Hm st).
  destruct (m st) as [[a|f] st1]; simpl in *.
  - rewrite Hk. exact Hm.
  - exact Hm.
Qed.

Lemma keeps_for_loop {S} (body : N -> S -> M E S) n i s :
  (forall j t, keeps_outputs (body j t)) -> keeps_outputs (for_loop n i body s).
Proof.
  intros Hbody st. apply for_loop_outputs. intros j t st'. apply Hbody.
Qed.

End KeepsOutputs.

Ltac keeps :=
  repeat first
    [ apply keeps_ret | apply keeps_fail | apply keeps_mex_abort | apply keeps_lift
    | apply keeps_emit | apply keeps_for_loop; intros
    | apply keeps_bind; [| intros ?]
    | case_match ].

Lemma ArrayType_eqb_eq (a b : ArrayType) : ArrayType_eqb a b = true -> a = b.
Proof. destruct a, b; simpl; intros H; first [reflexivity | discriminate H]. Qed.

(** ** Code that never reports [NotFound] *)

Section Quiet.
Context {E : Type}.

Lemma bind_fail_inv {A B} (m : M E A) (k : A -> M E B) st f st' :
  (m ≫= k) st = (Fail f, st') ->
  m st = (Fail f, st') \/ exists a st1, m st = (Ok a, st1) /\ k a st1 = (Fail f, st').
Proof.
  rewrite bind_run. destruct (m st) as [[a|f0] st1]; intros H.
  - right. exists a, st1. split; [reflexivity | exact H].
  - left. injection H as -> ->. reflexivity.
Qed.

Lemma rq_ok {A} (a : A) : result_fails_quietly (Ok a).
Proof. intros f H. discriminate H. Qed.

Lemma rq_fail {A} f : quiet f -> result_fails_quietly (Fail (A := A) f).
Proof. intros Hq g H. injection H as <-. exact Hq. Qed.

Lemma rq_of_option {A} e (o : option A) : quiet e -> result_fails_quietly (of_option e o).
Proof. intros Hq. destruct o; [apply rq_ok | apply rq_fail, Hq]. Qed.

Lemma rq_bind {A B} (r : result A) (k : A -> result B) :
  result_fails_quietly r -> (forall a, result_fails_quietly (k a)) ->
  result_fails_quietly (r ≫= k).
Proof.
  intros Hr Hk. destruct r as [a|f]; [apply Hk |].
  intros g H. injection H as <-. apply (Hr f eq_refl).
Qed.

Lemma rq_result_bind {A B} (r : result A) (k : A -> result B) :
  result_fails_quietly r -> (forall a, result_fails_quietly (k a)) ->
  result_fails_quietly (result_bind r k).
Proof. exact (rq_bind r k). Qed.

Lemma fq_ret {A} (a : A) : fails_quietly (ret (E := E) a).
Proof. intros st f st' H. discriminate H. Qed.

Lemma fq_emit (e : E) : fails_quietly (emit e).
Proof. intros st f st' H. discriminate H. Qed.

Lemma fq_nargout : fails_quietly (nargout (E := E)).
Proof. intros st f st' H. discriminate H. Qed.

Lemma fq_fail {A} f : quiet f -> fails_quietly (fail (E := E) (A := A) f).
Proof. intros Hq st g st' H. injection H as <- _. exact Hq. Qed.

Lemma fq_mex_abort {A} fmt args :
  quiet (MexAbort fmt args) -> fails_quietly (mex_abort (E := E) (A := A) fmt args).
Proof. apply fq_fail. Qed.

Lemma fq_lift {A} (r : result A) : result_fails_quietly r -> fails_quietly (lift (E := E) r).
Proof. intros Hr st f st' H. injection H as H _. exact (Hr f H). Qed.

Lemma fq_bind {A B} (m : M E A) (k : A -> M E B) :
  fails_quietly m -> (forall a, fails_quietly (k a)) -> fails_quietly (m ≫= k).
Proof.
  intros Hm Hk st f st' H.
  apply bind_fail_inv in H as [H | (a & st1 & _ & H)]; [exact (Hm _ _ _ H) | exact (Hk _ _ _ _ H)].
Qed.

Lemma fq_for_loop {S} (body : N -> S -> M E S) n :
  (forall j t, fails_quietly (body j t)) -> forall i s, fails_quietly (for_loop n i body s).
Proof.
  intros Hbody. induction n as [|n IH]; intros i s.
  - apply fq_ret.
  - rewrite for_loop_S. apply fq_bind; [apply Hbody | intros a; apply IH].
Qed.

End Quiet.

(** Failures of one sort or another that are not [NotFound]. *)
Ltac quiet_failure := unfold quiet; cbn; discriminate.

Ltac quiet_result :=
  repeat first
    [ apply rq_ok | apply rq_fail; quiet_failure | apply rq_of_option; quiet_failure
    | apply rq_bind; [| intros ?] | apply rq_result_bind; [| intros ?]
    | case_match ].

Ltac quiet_code :=
  repeat first
    [ apply fq_ret | apply fq_emit | apply fq_nargout
    | apply fq_fail; quiet_failure | apply fq_mex_abort; quiet_failure
    | apply fq_for_loop; intros
    | apply fq_bind; [| intros ?]
    | apply fq_lift
    | case_match ].

(** ** The PRACH detector binding *)

Section PrachProperties.
Import Prach PrachDetectorMex.
Context {lib : Library}.

Lemma check_state inputs (st : mex_state event) :
  snd (check_step_outputs_inputs inputs st) = st.
Proof.
  unfold check_step_outputs_inputs, mex_abort, fail, nargout.
  repeat first [ reflexivity | rewrite bind_run | rewrite lift_run | case_match ].
Qed.

Lemma check_run inputs (st : mex_state event) :
  fst (check_step_outputs_inputs inputs st) = Ok tt ->
  check_step_outputs_inputs inputs st = (Ok tt, st).
Proof.
  intros H. pose proof (check_state inputs st) as Hst.
  destruct (check_step_outputs_inputs inputs st) as [r st1]. simpl in *. congruence.
Qed.

(** What a passed check says about the arguments. *)
Lemma check_facts inputs (st : mex_state event) :
  fst (check_step_outputs_inputs inputs st) = Ok tt ->
  length inputs = 3%nat /\ length (outputs st) = 1%nat /\
  exists in1, arg inputs 1 = Ok in1 /\ getType in1 = COMPLEX_DOUBLE.
Proof.
  unfold check_step_outputs_inputs, mex_abort, fail, nargout. intros H.
  destruct (Nat.eqb (length inputs) 3) eqn:Hlen; simpl in H; [| discriminate H].
  rewrite bind_run, lift_run in H.
  destruct (arg inputs 1) as [in1|] eqn:Hin1; [| discriminate H].
  destruct (ArrayType_eqb (getType in1) COMPLEX_DOUBLE) eqn:Hty; simpl in H; [| discriminate H].
  rewrite bind_run, lift_run in H.
  destruct (arg inputs 2) as [in2|] eqn:Hin2; [| discriminate H].
  destruct (negb (ArrayType_eqb (getType in2) STRUCT) || N.ltb 1 (getNumberOfElements in2));
    [discriminate H |].
  rewrite bind_run in H.
  destruct (Nat.eqb (length (outputs st)) 1) eqn:Hout; simpl in H; [| discriminate H].
  split; [apply Nat.eqb_eq, Hlen | split; [apply Nat.eqb_eq, Hout |]].
  exists in1. split; [reflexivity | apply ArrayType_eqb_eq, Hty].
Qed.

Lemma keeps_fill_buffer in_cft_array data nof_samples nof_symbols buffer :
  keeps_outputs (fill_buffer in_cft_array data nof_samples nof_symbols buffer).
Proof. unfold fill_buffer, fill_symbol, fill_sample. keeps. Qed.

Lemma keeps_prepare inputs in_det_cfg rs : keeps_outputs (prepare inputs in_det_cfg rs).
Proof.
  unfold prepare, create_buffer, select_buffer, fill_buffer, fill_symbol, fill_sample.
  keeps.
Qed.

Lemma method_step_unrestricted inputs st in_det_cfg :
  fst (check_step_outputs_inputs inputs st) = Ok tt ->
  read_restricted_set inputs = Ok (in_det_cfg, UNRESTRICTED) ->
  method_step inputs st =
  (prepare inputs in_det_cfg UNRESTRICTED ≫= fun '(buffer, detector_config) =>
     run_detector buffer detector_config ≫= report) st.
Proof.
  intros Hcheck Hrs. unfold method_step.
  rewrite (bind_ok _ _ _ _ _ (check_run _ _ Hcheck)).
  rewrite bind_run, lift_run, Hrs. reflexivity.
Qed.

(** A dimension below 2^32 is read as it is. *)
Lemma nof_samples_of_small buffer_dimensions :
  dim 0 buffer_dimensions < UNSIGNED_MODULUS ->
  nof_samples_of buffer_dimensions = dim 0 buffer_dimensions.
Proof. apply to_unsigned_small. Qed.

(** The detector is only reached with a two-dimensional buffer of one of the
    two supported shapes. *)
Lemma prepared_buffer_shape inputs in_det_cfg rs (st st1 : mex_state event) buffer cfg :
  prepare inputs in_det_cfg rs st = (Ok (buffer, cfg), st1) ->
  exists in1,
    arg inputs 1 = Ok in1 /\
    length (getDimensions in1) = 2%nat /\
    (nof_samples_of (getDimensions in1) = LONG_SEQUENCE_LENGTH \/
     nof_samples_of (getDimensions in1) = SHORT_SEQUENCE_LENGTH).
Proof.
  unfold prepare. intros H.
  apply bind_ok_inv in H as (c & s0 & _ & H).
  apply bind_ok_inv in H as (in1 & s1 & Hin & H).
  apply lift_ok_inv in Hin as [Hin _].
  apply bind_ok_inv in H as (data & s2 & _ & H).
  destruct (Nat.eqb (length (getDimensions in1)) 2) eqn:Hdims; simpl in H; [| discriminate H].
  apply bind_ok_inv in H as ([] & s3 & _ & H).
  apply bind_ok_inv in H as (b0 & s4 & Hcreate & _).
  exists in1. split; [exact Hin | split; [apply Nat.eqb_eq, Hdims |]].
  unfold create_buffer, select_buffer in Hcreate.
  destruct (N.eqb_spec (nof_samples_of (getDimensions in1)) LONG_SEQUENCE_LENGTH) as [Hl | _];
    [left; exact Hl |].
  destruct (N.eqb_spec (nof_samples_of (getDimensions in1)) SHORT_SEQUENCE_LENGTH) as [Hs | _];
    [right; exact Hs | discriminate Hcreate].
Qed.

Lemma rq_linear_index dims idx : result_fails_quietly (linear_index dims idx).
Proof.
  revert idx. induction dims as [|d dims IH]; intros [|i idx]; simpl.
  - quiet_result.
  - quiet_result.
  - quiet_result.
  - case_match; [| quiet_result].
    apply rq_result_bind; [apply IH | intros r; apply rq_ok].
Qed.

Lemma rq_element {A} dims (l : list A) idx : result_fails_quietly (element dims l idx).
Proof.
  unfold element. apply rq_result_bind; [apply rq_linear_index | intros k; quiet_result].
Qed.

Lemma rq_element_as_double a idx : result_fails_quietly (element_as_double a idx).
Proof.
  unfold element_as_double.
  repeat first [ apply rq_element | apply rq_result_bind; [| intros ?] | apply rq_ok
               | apply rq_fail; quiet_failure | case_match ].
Qed.

Lemma rq_element_as_unsigned a idx : result_fails_quietly (element_as_unsigned a idx).
Proof.
  unfold element_as_unsigned.
  repeat first [ apply rq_element | apply rq_element_as_double
               | apply rq_result_bind; [| intros ?] | apply rq_ok
               | apply rq_of_option; quiet_failure | case_match ].
Qed.

Lemma rq_read_restricted_set inputs : result_fails_quietly (read_restricted_set inputs).
Proof.
  unfold read_restricted_set, arg, struct_element, field, as_struct_array, as_char_array,
    matlab_to_srs_restricted_set, srsran_terminate.
  repeat first [ apply rq_element | apply rq_bind; [| intros ?]
               | apply rq_result_bind; [| intros ?] | apply rq_ok
               | apply rq_fail; quiet_failure | apply rq_of_option; quiet_failure | case_match ].
Qed.

Lemma rq_read_detector_config in_det_cfg rs :
  result_fails_quietly (read_detector_config in_det_cfg rs).
Proof.
  unfold read_detector_config, field, as_char_array.
  repeat first [ apply rq_element_as_unsigned | apply rq_bind; [| intros ?] | apply rq_ok
               | apply rq_fail; quiet_failure | apply rq_of_option; quiet_failure | case_match ].
Qed.

Lemma quiet_check inputs : fails_quietly (check_step_outputs_inputs inputs).
Proof.
  unfold check_step_outputs_inputs, arg.
  repeat first [ progress quiet_code | apply rq_of_option; quiet_failure ].
Qed.

Lemma quiet_prepare inputs in_det_cfg rs : fails_quietly (prepare inputs in_det_cfg rs).
Proof.
  unfold prepare, create_buffer, select_buffer, fill_buffer, fill_symbol, fill_sample,
    arg, as_complex_double_array, get_symbol, span_write.
  repeat first [ progress quiet_code | apply rq_read_detector_config | apply rq_element
               | apply rq_ok | apply rq_fail; quiet_failure
               | apply rq_of_option; quiet_failure ].
Qed.

(** The only way for a call to stop with the specification's [NotFound] is
    the detector having run last and the binding having counted no
    preamble. *)
Lemma not_found_only_after_detection inputs (st st' : mex_state event) f :
  method_step inputs st = (Fail f, st') ->
  spec_error_kind f = Some NotFound ->
  exists buffer cfg,
    last (trace st') = Some (Detect buffer cfg) /\
    to_unsigned (N.of_nat (length (preambles (detect buffer cfg)))) = 0.
Proof.
  unfold method_step. intros Hrun Hkind.
  apply bind_fail_inv in Hrun as [Hrun | ([] & st1 & _ & Hrun)];
    [destruct (quiet_check _ _ _ _ Hrun Hkind) |].
  apply bind_fail_inv in Hrun as [Hrun | ([in_det_cfg rs] & st2 & _ & Hrun)];
    [destruct (fq_lift _ (rq_read_restricted_set inputs) _ _ _ Hrun Hkind) |].
  destruct (restricted_set_eqb rs UNRESTRICTED); [| discriminate Hrun].
  apply bind_fail_inv in Hrun as [Hrun | ([buffer cfg] & st3 & _ & Hrun)];
    [destruct (quiet_prepare _ _ _ _ _ _ Hrun Hkind) |].
  apply bind_fail_inv in Hrun as [Hrun | (result & st4 & Hdet & Hrun)]; [discriminate Hrun |].
  unfold run_detector in Hdet. rewrite bind_run in Hdet. simpl in Hdet.
  injection Hdet as <- <-.
  unfold report in Hrun.
  destruct (N.eqb_spec (to_unsigned (N.of_nat (length (preambles (detect buffer cfg))))) 0)
    as [Hz | Hnz].
  - injection Hrun as _ <-. exists buffer, cfg. split; [apply last_snoc | exact Hz].
  - exfalso. destruct (last (preambles (detect buffer cfg))).
    + unfold set_output in Hrun. case_match; [discriminate Hrun |].
      injection Hrun as <- _. discriminate Hkind.
    + injection Hrun as <- _. discriminate Hkind.
Qed.

(** C1: a call whose arguments pass the argument check and whose
    configuration names a restricted set other than the unrestricted one
    returns normally, whatever the buffer holds; it leaves the output slot
    as it found it, and all it adds to the trace is the message that the
    case is skipped, so the detector does not run. *)
Theorem restricted_set_is_skipped inputs (st : mex_state event) in_det_cfg rs :
  fst (check_step_outputs_inputs inputs st) = Ok tt ->
  read_restricted_set inputs = Ok (in_det_cfg, rs) ->
  rs <> UNRESTRICTED ->
  method_step inputs st =
  (Ok tt, MexState (outputs st) (trace st ++ [Print SKIP_MESSAGE []])).
Proof.
  intros Hcheck Hrs Hne. unfold method_step.
  rewrite (bind_ok _ _ _ _ _ (check_run _ _ Hcheck)).
  rewrite bind_run, lift_run, Hrs.
  destruct rs; [contradiction | reflexivity | reflexivity].
Qed.

(** C2: on the unrestricted set, when the call gets as far as the detector
    (the buffer has one of the two supported shapes and was filled) and the
    detector reports no preamble, the call stops with the [mex_abort]
    "No PRACH preambles were detected.", the specification's [NotFound]:
    an error of this call raised through the MATLAB error mechanism,
    neither [srsran_terminate] nor an assertion, with the output slot left
    as it was.  The failure tells this outcome apart: no call stops with a
    [NotFound] unless the detector ran last and no preamble was counted. *)
Theorem no_preamble_is_not_found inputs (st st1 : mex_state event) in_det_cfg buffer cfg :
  fst (check_step_outputs_inputs inputs st) = Ok tt ->
  read_restricted_set inputs = Ok (in_det_cfg, UNRESTRICTED) ->
  prepare inputs in_det_cfg UNRESTRICTED st = (Ok (buffer, cfg), st1) ->
  preambles (detect buffer cfg) = [] ->
  method_step inputs st =
  (Fail (MexAbort NO_PREAMBLES_MESSAGE []),
   MexState (outputs st) (trace st1 ++ [Detect buffer cfg])) /\
  spec_error_kind (MexAbort NO_PREAMBLES_MESSAGE []) = Some NotFound /\
  (forall inputs0 (st0 st0' : mex_state event) f,
     method_step inputs0 st0 = (Fail f, st0') ->
     spec_error_kind f = Some NotFound ->
     exists buffer0 cfg0,
       last (trace st0') = Some (Detect buffer0 cfg0) /\
       to_unsigned (N.of_nat (length (preambles (detect buffer0 cfg0)))) = 0).
Proof.
  intros Hcheck Hrs Hprep Hnone.
  split; [| split; [reflexivity | exact not_found_only_after_detection]].
  rewrite (method_step_unrestricted _ _ _ Hcheck Hrs).
  rewrite (bind_ok _ _ _ _ _ Hprep).
  pose proof (keeps_prepare inputs in_det_cfg UNRESTRICTED st) as Hout.
  rewrite Hprep in Hout. simpl in Hout.
  unfold run_detector, report. rewrite !bind_run. simpl.
  rewrite Hnone, Hout. reflexivity.
Qed.

Lemma last_is_Some {A} (l : list A) : l <> [] -> exists x, last l = Some x.
Proof.
  intros H. destruct (last l) as [x|] eqn:Hl; [exists x; reflexivity |].
  apply last_None in Hl. contradiction.
Qed.

(** C3: on the unrestricted set, when the detector returns a non-empty list
    of preambles (shorter than 2^32, the range of the [unsigned] that
    holds its length), the call returns normally and its output is a
    1-by-1 structure whose [preamble_index], [time_advance], [power_dB] and
    [snr_dB] are those of the last element of the list, next to the length
    of the list and the [rssi_dB], [time_resolution] and
    [time_advance_max] of the result. *)
Theorem last_preamble_is_reported inputs (st st1 : mex_state event) in_det_cfg buffer cfg :
  fst (check_step_outputs_inputs inputs st) = Ok tt ->
  read_restricted_set inputs = Ok (in_det_cfg, UNRESTRICTED) ->
  prepare inputs in_det_cfg UNRESTRICTED st = (Ok (buffer, cfg), st1) ->
  preambles (detect buffer cfg) <> [] ->
  N.of_nat (length (preambles (detect buffer cfg))) < UNSIGNED_MODULUS ->
  exists p fields,
    last (preambles (detect buffer cfg)) = Some p /\
    method_step inputs st =
    (Ok tt, MexState [Some (MkArray [1; 1] (PStruct [MkStruct fields]))]
              (trace st1 ++ [Detect buffer cfg])) /\
    map fst fields =
      ["nof_detected_preambles"; "preamble_index"; "time_advance"; "power_dB"; "snr_dB";
       "rssi_dB"; "time_resolution"; "time_advance_max"] /\
    lookup_field "nof_detected_preambles" fields =
      Some (createScalar (PUInt64 [N.of_nat (length (preambles (detect buffer cfg)))])) /\
    lookup_field "preamble_index" fields = Some (createScalar (PUInt32 [preamble_index p])) /\
    lookup_field "time_advance" fields =
      Some (createScalar (PDouble [to_seconds (time_advance p)])) /\
    lookup_field "power_dB" fields = Some (createScalar (PSingle [power_dB p])) /\
    lookup_field "snr_dB" fields = Some (createScalar (PSingle [snr_dB p])) /\
    lookup_field "rssi_dB" fields =
      Some (createScalar (PSingle [rssi_dB (detect buffer cfg)])) /\
    lookup_field "time_resolution" fields =
      Some (createScalar (PDouble [to_seconds (time_resolution (detect buffer cfg))])) /\
    lookup_field "time_advance_max" fields =
      Some (createScalar (PDouble [to_seconds (time_advance_max (detect buffer cfg))])).
Proof.
  intros Hcheck Hrs Hprep Hsome Hlen.
  destruct (last_is_Some _ Hsome) as [p Hp].
  exists p. eexists. split; [exact Hp |]. split.
  { rewrite (method_step_unrestricted _ _ _ Hcheck Hrs).
    rewrite (bind_ok _ _ _ _ _ Hprep).
    pose proof (keeps_prepare inputs in_det_cfg UNRESTRICTED st) as Hout.
    rewrite Hprep in Hout. simpl in Hout.
    destruct (check_facts _ _ Hcheck) as (_ & Hslots & _).
    destruct (outputs st) as [|slot [|slot' slots]] eqn:Hst; try discriminate Hslots.
    unfold run_detector, report. rewrite !bind_run. simpl.
    rewrite (to_unsigned_small _ Hlen).
    destruct (N.eqb_spec (N.of_nat (length (preambles (detect buffer cfg)))) 0) as [Hz | _].
    - destruct (preambles (detect buffer cfg)); [contradiction | discriminate Hz].
    - rewrite Hp. unfold set_output. simpl. rewrite Hout. simpl. reflexivity. }
  repeat split.
Qed.

(** The sample count as the code holds it.  On the unrestricted set, with
    a readable configuration and a two-dimensional buffer, the number of
    samples per symbol (the first dimension narrowed to
    [unsigned nof_samples]) decides what happens.  If it is neither of the two sequence lengths the call
    stops with the [mex_abort] "Invalid number of samples", an
    [InvalidArgument], having only printed the dimensions: no detector has
    run.  If it is the long length the buffer is the one of
    [create_prach_buffer_long(nof_symbols)], and if it is the short length
    the one of [create_prach_buffer_short(1, 1)]; the call goes on to fill
    that buffer. *)
Theorem buffer_shape_selects_path inputs (st : mex_state event) in_det_cfg cfg in1 data :
  fst (check_step_outputs_inputs inputs st) = Ok tt ->
  read_restricted_set inputs = Ok (in_det_cfg, UNRESTRICTED) ->
  read_detector_config in_det_cfg UNRESTRICTED = Ok cfg ->
  arg inputs 1 = Ok in1 ->
  as_complex_double_array in1 = Ok data ->
  length (getDimensions in1) = 2%nat ->
  let dims := getDimensions in1 in
  let nof_samples := nof_samples_of dims in
  let nof_symbols := nof_symbols_of dims in
  let st1 := MexState (outputs st) (trace st ++ [Print "-- Dimensions=[{}].\n" [ArgDims dims]]) in
  let fill_from (created : option prach_buffer) :=
    match created with
    | Some b =>
        (fill_buffer in1 data nof_samples nof_symbols b ≫= fun b' => ret (b', cfg)) st1
    | None => (Fail (MexAbort "Cannot create srsran PRACH buffer long." []), st1)
    end in
  (nof_samples <> LONG_SEQUENCE_LENGTH -> nof_samples <> SHORT_SEQUENCE_LENGTH ->
   method_step inputs st =
     (Fail (MexAbort "Invalid number of samples. Dimensions=[{}]." [ArgDims dims]), st1) /\
   spec_error_kind (MexAbort "Invalid number of samples. Dimensions=[{}]." [ArgDims dims])
     = Some InvalidArgument) /\
  (nof_samples = LONG_SEQUENCE_LENGTH ->
   prepare inputs in_det_cfg UNRESTRICTED st =
     fill_from (create_prach_buffer_long nof_symbols)) /\
  (nof_samples <> LONG_SEQUENCE_LENGTH -> nof_samples = SHORT_SEQUENCE_LENGTH ->
   prepare inputs in_det_cfg UNRESTRICTED st =
     fill_from (create_prach_buffer_short 1 1)).
Proof.
  intros Hcheck Hrs Hcfg Hin1 Hdata Hdims dims nof_samples nof_symbols st1 fill_from.
  assert (Hprep : prepare inputs in_det_cfg UNRESTRICTED st =
                  (create_buffer dims nof_samples nof_symbols ≫= fun buffer =>
                     fill_buffer in1 data nof_samples nof_symbols buffer ≫= fun b' =>
                       ret (b', cfg)) st1).
  { unfold prepare. rewrite bind_run, lift_run, Hcfg.
    rewrite bind_run, lift_run, Hin1. rewrite bind_run, lift_run, Hdata.
    rewrite Hdims. simpl. rewrite bind_run. reflexivity. }
  split; [| split].
  - intros Hlong Hshort. split; [| reflexivity].
    rewrite (method_step_unrestricted _ _ _ Hcheck Hrs).
    rewrite bind_run, Hprep. unfold create_buffer, select_buffer.
    apply N.eqb_neq in Hlong, Hshort. rewrite Hlong, Hshort. reflexivity.
  - intros Hlong. rewrite Hprep. unfold create_buffer, select_buffer.
    apply N.eqb_eq in Hlong. rewrite Hlong. rewrite !bind_run. simpl.
    destruct (create_prach_buffer_long nof_symbols); reflexivity.
  - intros Hlong Hshort. rewrite Hprep. unfold create_buffer, select_buffer.
    apply N.eqb_neq in Hlong. apply N.eqb_eq in Hshort. rewrite Hlong, Hshort.
    rewrite !bind_run. simpl.
    destruct (create_prach_buffer_short 1 1); reflexivity.
Qed.

(** The symbol loop addresses the symbols of the buffer by their index:
    an index at or past the number of symbols of the buffer is refused by
    [get_symbol], whatever the input holds. *)
Lemma fill_symbol_past_the_buffer in_cft_array data nof_samples i_symbol buffer
    (st : mex_state event) :
  max_nof_symbols buffer <= i_symbol ->
  fill_symbol in_cft_array data nof_samples i_symbol buffer st =
  (Fail (AssertionFailure "prach_buffer::get_symbol"),
   MexState (outputs st) (trace st ++ [Print "-- i_symbol={}.\n" [ArgNum i_symbol]])).
Proof.
  intros Hle. unfold fill_symbol. rewrite bind_run. simpl.
  rewrite bind_run, lift_run. unfold get_symbol.
  apply N.ltb_ge in Hle. rewrite Hle, andb_false_r. reflexivity.
Qed.

Lemma fill_sample_loop_symbols in_cft_array data view i_symbol n :
  forall i buffer buffer' (st st' : mex_state event),
    for_loop n i (fill_sample in_cft_array data view i_symbol) buffer st = (Ok buffer', st') ->
    max_nof_symbols buffer' = max_nof_symbols buffer.
Proof.
  induction n as [|n IH]; intros i buffer buffer' st st' Hrun.
  - injection Hrun as <- _. reflexivity.
  - rewrite for_loop_S in Hrun.
    apply bind_ok_inv in Hrun as (b1 & st1 & Hsample & Hrest).
    apply IH in Hrest. rewrite Hrest.
    unfold fill_sample in Hsample.
    apply bind_ok_inv in Hsample as (z & st2 & _ & Hwrite).
    apply lift_ok_inv in Hwrite as [Hwrite _].
    unfold span_write in Hwrite. case_match; [| discriminate Hwrite].
    injection Hwrite as <-. reflexivity.
Qed.

Lemma fill_symbol_ok in_cft_array data nof_samples i_symbol buffer buffer'
    (st st' : mex_state event) :
  fill_symbol in_cft_array data nof_samples i_symbol buffer st = (Ok buffer', st') ->
  i_symbol < max_nof_symbols buffer /\ max_nof_symbols buffer' = max_nof_symbols buffer.
Proof.
  intros Hrun.
  destruct (N.lt_ge_cases i_symbol (max_nof_symbols buffer)) as [Hlt | Hge].
  - split; [exact Hlt |]. unfold fill_symbol in Hrun.
    apply bind_ok_inv in Hrun as ([] & st1 & _ & Hrun).
    apply bind_ok_inv in Hrun as (view & st2 & _ & Hrun).
    exact (fill_sample_loop_symbols _ _ _ _ _ _ _ _ _ _ Hrun).
  - rewrite (fill_symbol_past_the_buffer _ _ _ _ _ _ Hge) in Hrun. discriminate Hrun.
Qed.

Lemma fill_symbol_loop_room in_cft_array data nof_samples n :
  forall i buffer buffer' (st st' : mex_state event),
    for_loop n i (fill_symbol in_cft_array data nof_samples) buffer st = (Ok buffer', st') ->
    (n = 0%nat \/ i + N.of_nat n <= max_nof_symbols buffer) /\
    max_nof_symbols buffer' = max_nof_symbols buffer.
Proof.
  induction n as [|n IH]; intros i buffer buffer' st st' Hrun.
  - injection Hrun as <- _. split; [left; reflexivity | reflexivity].
  - rewrite for_loop_S in Hrun.
    apply bind_ok_inv in Hrun as (b1 & st1 & Hsymbol & Hrest).
    apply fill_symbol_ok in Hsymbol as [Hlt Hkeep].
    apply IH in Hrest as [Hroom Hkeep']. rewrite Hkeep in Hroom, Hkeep'.
    split; [right | exact Hkeep'].
    destruct Hroom as [-> | Hroom]; lia.
Qed.

(** A buffer can only be filled from an input with no more symbols than it
    has: the loop over [nof_symbols] comes to its end only if [nof_symbols]
    is at most the number of symbols of the buffer. *)
Lemma filled_buffer_has_room in_cft_array data nof_samples nof_symbols buffer buffer'
    (st st' : mex_state event) :
  fill_buffer in_cft_array data nof_samples nof_symbols buffer st = (Ok buffer', st') ->
  nof_symbols <= max_nof_symbols buffer.
Proof.
  unfold fill_buffer. intros Hrun.
  apply fill_symbol_loop_room in Hrun as [[Hz | Hroom] _]; lia.
Qed.

End PrachProperties.

(** *** The PRACH binding on sample calls *)

Section PrachRuns.
Import Prach PrachDetectorMex PrachSamples.

Lemma restricted_set_is_skipped_witness :
  let lib := sample_library two_preamble_detector in
  let inputs := call (zero_symbols 100 7) (config_struct "RestrictedSetTypeA" "0") in
  fst (check_step_outputs_inputs inputs fresh) = Ok tt /\
  (exists in_det_cfg, read_restricted_set inputs = Ok (in_det_cfg, TYPE_A)) /\
  method_step inputs fresh = (Ok tt, MexState [None] [Print SKIP_MESSAGE []]).
Proof.
  intros lib inputs.
  assert (Hcheck : fst (check_step_outputs_inputs inputs fresh) = Ok tt) by reflexivity.
  split; [exact Hcheck | split].
  - eexists. reflexivity.
  - apply (restricted_set_is_skipped (lib := lib) inputs fresh _ TYPE_A Hcheck eq_refl).
    discriminate.
Defined.

Lemma no_preamble_is_not_found_witness :
  let lib := sample_library silent_detector in
  let inputs := call (zero_symbols 839 0) (config_struct "UnrestrictedSet" "0") in
  fst (check_step_outputs_inputs inputs fresh) = Ok tt /\
  exists buffer cfg,
    method_step inputs fresh =
    (Fail (MexAbort NO_PREAMBLES_MESSAGE []),
     MexState [None] [Print "-- Dimensions=[{}].\n" [ArgDims [839; 0]]; Detect buffer cfg]).
Proof.
  intros lib inputs.
  assert (Hcheck : fst (check_step_outputs_inputs inputs fresh) = Ok tt) by reflexivity.
  split; [exact Hcheck |].
  eexists _, _.
  refine (proj1 (no_preamble_is_not_found (lib := lib) inputs fresh
                   (MexState [None] [Print "-- Dimensions=[{}].\n" [ArgDims [839; 0]]])
                   _ _ _ Hcheck eq_refl eq_refl eq_refl)).
Defined.

Lemma last_preamble_is_reported_witness :
  let lib := sample_library two_preamble_detector in
  let inputs := call (zero_symbols 839 0) (config_struct "UnrestrictedSet" "0") in
  fst (check_step_outputs_inputs inputs fresh) = Ok tt /\
  exists fields st',
    method_step inputs fresh = (Ok tt, MexState [Some (MkArray [1; 1] (PStruct [MkStruct fields]))] st') /\
    lookup_field "nof_detected_preambles" fields = Some (createScalar (PUInt64 [2])) /\
    lookup_field "preamble_index" fields = Some (createScalar (PUInt32 [9])).
Proof.
  intros lib inputs.
  assert (Hcheck : fst (check_step_outputs_inputs inputs fresh) = Ok tt) by reflexivity.
  split; [exact Hcheck |].
  destruct (last_preamble_is_reported (lib := lib) inputs fresh
              (MexState [None] [Print "-- Dimensions=[{}].\n" [ArgDims [839; 0]]])
              _ _ _ Hcheck eq_refl eq_refl ltac:(discriminate) eq_refl)
    as (p & fields & Hp & Hrun & _ & Hn & Hi & _).
  exists fields. eexists. split; [exact Hrun |].
  injection Hp as <-. split; [exact Hn | exact Hi].
Defined.

Lemma buffer_shape_selects_path_witness :
  let lib := sample_library two_preamble_detector in
  let inputs := call (zero_symbols 100 1) (config_struct "UnrestrictedSet" "0") in
  fst (check_step_outputs_inputs inputs fresh) = Ok tt /\
  method_step inputs fresh =
  (Fail (MexAbort "Invalid number of samples. Dimensions=[{}]." [ArgDims [100; 1]]),
   MexState [None] [Print "-- Dimensions=[{}].\n" [ArgDims [100; 1]]]).
Proof.
  intros lib inputs.
  assert (Hcheck : fst (check_step_outputs_inputs inputs fresh) = Ok tt) by reflexivity.
  split; [exact Hcheck |].
  refine (proj1 (proj1 (buffer_shape_selects_path (lib := lib) inputs fresh _ _ _ _
                          Hcheck eq_refl eq_refl eq_refl eq_refl eq_refl) _ _));
    discriminate.
Defined.

(** C10 fails on the code.  The sample library's short buffer has 12
    symbols, whatever the input; for a buffer of 139 samples by 139 symbols
    on the unrestricted set the symbol loop fills symbols 0 to 11 and then
    asks the buffer for symbol 12, which [get_symbol] refuses: the call
    stops there, before the detector. *)
Theorem short_buffer_symbol_out_of_range :
  let lib := sample_library silent_detector in
  let inputs := call (zero_symbols 139 139) (config_struct "UnrestrictedSet" "0") in
  let run := method_step inputs fresh in
  nof_samples_of [139; 139] = SHORT_SEQUENCE_LENGTH /\
  option_map max_nof_symbols (create_prach_buffer_short 1 1) = Some 12 /\
  fst run = Fail (AssertionFailure "prach_buffer::get_symbol") /\
  last (trace (snd run)) = Some (Print "-- i_symbol={}.\n" [ArgNum 12]).
Proof. vm_compute. repeat split. Qed.

End PrachRuns.

(** ** Code that leaves the whole call state alone *)

Section Stateless.
Context {E : Type}.

Lemma stateless_ret {A} (a : A) : stateless (ret (E := E) a).
Proof. intros st. reflexivity. Qed.

Lemma stateless_fail {A} f : stateless (fail (E := E) (A := A) f).
Proof. intros st. reflexivity. Qed.

Lemma stateless_mex_abort {A} fmt args : stateless (mex_abort (E := E) (A := A) fmt args).
Proof. intros st. reflexivity. Qed.

Lemma stateless_lift {A} (r : result A) : stateless (lift (E := E) r).
Proof. intros st. reflexivity. Qed.

Lemma stateless_nargout : stateless (nargout (E := E)).
Proof. intros st. reflexivity. Qed.

Lemma stateless_bind {A B} (m : M E A) (k : A -> M E B) :
  stateless m -> (forall a, stateless (k a)) -> stateless (m ≫= k).
Proof.
  intros Hm Hk st. rewrite bind_run. specialize (Hm st).
  destruct (m st) as [[a|f] st1]; simpl in *; subst st1.
  - apply Hk.
  - reflexivity.
Qed.

Lemma stateless_for_loop {S} (body : N -> S -> M E S) n :
  (forall j t, stateless (body j t)) -> forall i s, stateless (for_loop n i body s).
Proof.
  intros Hbody. induction n as [|n IH]; intros i s.
  - apply stateless_ret.
  - rewrite for_loop_S. apply stateless_bind; [apply Hbody | intros a; apply IH].
Qed.

Lemma stateless_run {A} (m : M E A) st : stateless m -> m st = (fst (m st), st).
Proof. intros H. specialize (H st). destruct (m st); simpl in *. congruence. Qed.

Lemma stateless_ok {A} (m : M E A) st a st' :
  stateless m -> m st = (Ok a, st') -> st' = st.
Proof. intros H Hrun. specialize (H st). rewrite Hrun in H. exact H. Qed.

End Stateless.

Ltac stateless :=
  repeat first
    [ apply stateless_ret | apply stateless_fail | apply stateless_mex_abort
    | apply stateless_lift | apply stateless_nargout
    | apply stateless_for_loop; intros
    | apply stateless_bind; [| intros ?]
    | case_match ].

(** ** The channel estimator binding *)

Section EstimatorProperties.
Import Prach Estimator ChannelEstimatorMex.
Context {lib : Library}.

Lemma stateless_check inputs : stateless (check_step_outputs_inputs inputs).
Proof. unfold check_step_outputs_inputs. stateless. Qed.

Lemma stateless_read_rx_ports in_cfg n : stateless (read_rx_ports in_cfg n).
Proof. unfold read_rx_ports, check_port_indices. stateless. Qed.

Lemma stateless_build_grid inputs in_cfg cfg : stateless (build_grid inputs in_cfg cfg).
Proof.
  unfold build_grid, fill_grid, read_rx_ports, check_port_indices. stateless.
  unfold fill_grid_symbol. stateless.
Qed.

Lemma stateless_build_pilots inputs p n : stateless (build_pilots inputs p n).
Proof. unfold build_pilots, check_pilots. stateless. Qed.

Lemma stateless_build_info ch n : stateless (build_info ch n).
Proof. unfold build_info. stateless. Qed.

Lemma keeps_run_estimator grid pilots cfg n : keeps_outputs (run_estimator grid pilots cfg n).
Proof. unfold run_estimator, estimate_port. keeps. Qed.

Lemma estimator_check_facts inputs (st : mex_state event) :
  fst (check_step_outputs_inputs inputs st) = Ok tt ->
  length (outputs st) = 2%nat /\
  (exists in1, arg inputs 1 = Ok in1 /\ getType in1 = COMPLEX_SINGLE) /\
  (exists in3, arg inputs 3 = Ok in3 /\ getType in3 = COMPLEX_SINGLE).
Proof.
  unfold check_step_outputs_inputs, mex_abort, fail, nargout. intros H.
  destruct (Nat.eqb (length inputs) NOF_INPUTS); simpl in H; [| discriminate H].
  rewrite bind_run, lift_run in H.
  destruct (arg inputs 1) as [in1|] eqn:Hin1; [| discriminate H].
  destruct (ArrayType_eqb (getType in1) COMPLEX_SINGLE) eqn:Hty1; simpl in H; [| discriminate H].
  destruct (Nat.ltb (length (getDimensions in1)) 2 || Nat.ltb 3 (length (getDimensions in1)));
    [discriminate H |].
  rewrite bind_run, lift_run in H.
  destruct (arg inputs 2) as [in2|]; [| discriminate H].
  destruct (negb (ArrayType_eqb (getType in2) DOUBLE) || negb (N.eqb (getNumberOfElements in2) 2));
    [discriminate H |].
  rewrite bind_run, lift_run in H.
  destruct (arg inputs 3) as [in3|] eqn:Hin3; [| discriminate H].
  destruct (ArrayType_eqb (getType in3) COMPLEX_SINGLE) eqn:Hty3; simpl in H; [| discriminate H].
  destruct (negb (N.eqb (dim 0 (getDimensions in3)) (getNumberOfElements in3)));
    [discriminate H |].
  rewrite bind_run, lift_run in H.
  destruct (arg inputs 4) as [in4|]; [| discriminate H].
  destruct (negb (ArrayType_eqb (getType in4) STRUCT) || N.ltb 1 (getNumberOfElements in4));
    [discriminate H |].
  rewrite bind_run in H.
  destruct (Nat.eqb (length (outputs st)) NOF_OUTPUTS) eqn:Hout; simpl in H; [| discriminate H].
  split; [apply Nat.eqb_eq, Hout | split].
  - exists in1. split; [reflexivity | apply ArrayType_eqb_eq, Hty1].
  - exists in3. split; [reflexivity | apply ArrayType_eqb_eq, Hty3].
Qed.

(** The stages of a call that returns normally. *)
Lemma method_step_ok_inv inputs (st st' : mex_state event) :
  method_step inputs st = (Ok tt, st') ->
  exists in_cfg cfg0 grid nof_rx_ports cfg pilots ch_estimate ch_est_out info_out st3,
    fst (check_step_outputs_inputs inputs st) = Ok tt /\
    read_configuration inputs = Ok (in_cfg, cfg0) /\
    build_grid inputs in_cfg cfg0 st = (Ok (grid, nof_rx_ports, cfg), st) /\
    build_pilots inputs (first_layer cfg) nof_rx_ports st = (Ok pilots, st) /\
    run_estimator grid pilots cfg nof_rx_ports st = (Ok (ch_estimate, ch_est_out), st3) /\
    build_info ch_estimate nof_rx_ports st3 = (Ok info_out, st3) /\
    outputs st3 = outputs st /\
    st' = MexState [Some ch_est_out; Some info_out] (trace st3).
Proof.
  unfold method_step. intros H.
  apply bind_ok_inv in H as ([] & s0 & Hcheck & H).
  pose proof (stateless_ok _ _ _ _ (stateless_check inputs) Hcheck) as ->.
  apply bind_ok_inv in H as ([in_cfg cfg0] & s1 & Hcfg & H).
  apply lift_ok_inv in Hcfg as [Hcfg ->].
  apply bind_ok_inv in H as ([[grid n] cfg] & s2 & Hgrid & H).
  pose proof (stateless_ok _ _ _ _ (stateless_build_grid _ _ _) Hgrid) as ->.
  apply bind_ok_inv in H as (pilots & s3 & Hpilots & H).
  pose proof (stateless_ok _ _ _ _ (stateless_build_pilots _ _ _) Hpilots) as ->.
  apply bind_ok_inv in H as ([ch out] & st3 & Hest & H).
  apply bind_ok_inv in H as (info & s4 & Hinfo & H).
  pose proof (stateless_ok _ _ _ _ (stateless_build_info _ _) Hinfo) as ->.
  pose proof (keeps_run_estimator grid pilots cfg n st) as Hkeep.
  rewrite Hest in Hkeep. simpl in Hkeep.
  assert (Hchk : fst (check_step_outputs_inputs inputs st) = Ok tt)
    by (rewrite Hcheck; reflexivity).
  destruct (estimator_check_facts _ _ Hchk) as (Hslots & _).
  exists in_cfg, cfg0, grid, n, cfg, pilots, ch, out, info, st3.
  repeat (split; [assumption |]).
  apply bind_ok_inv in H as ([] & s5 & Hset0 & Hset1).
  unfold set_output in Hset0, Hset1.
  rewrite <- Hkeep in Hslots.
  destruct (outputs st3) as [|o0 [|o1 [|o2 os]]] eqn:Hos; try discriminate Hslots.
  simpl in Hset0. injection Hset0 as <-. simpl in Hset1. injection Hset1 as <-.
  reflexivity.
Qed.

Lemma port_range_length n i : length (port_range n i) = n.
Proof. revert i. induction n as [|n IH]; intros i; simpl; [reflexivity | rewrite IH; reflexivity]. Qed.

Lemma port_range_lookup n i (k : nat) :
  (k < n)%nat -> port_range n i !! k = Some (i + N.of_nat k).
Proof.
  revert i k. induction n as [|n IH]; intros i k Hk; [lia |].
  destruct k as [|k]; simpl.
  - f_equal. lia.
  - rewrite IH by lia. f_equal. lia.
Qed.

(** The pilot loop: every slice it has passed holds the view, the slices
    before its start are as they were. *)
Lemma set_slice_loop (view : list cf_t) n :
  forall i (p p' : dmrs_symbol_list) (st st' : mex_state event),
    for_loop n i (fun i_port pilots => lift (set_slice pilots view i_port)) p st = (Ok p', st') ->
    length (slices p') = length (slices p) /\
    (forall j, i <= j < i + N.of_nat n -> slices p' !! N.to_nat j = Some view) /\
    (forall j, j < i -> slices p' !! N.to_nat j = slices p !! N.to_nat j).
Proof.
  induction n as [|n IH]; intros i p p' st st' Hrun.
  - injection Hrun as <- <-. split; [reflexivity | split]; [intros j Hj; lia | reflexivity].
  - rewrite for_loop_S in Hrun.
    apply bind_ok_inv in Hrun as (p1 & st1 & Hset & Hrest).
    apply lift_ok_inv in Hset as [Hset ->].
    unfold set_slice in Hset. case_match eqn:Hguard; [| discriminate Hset].
    injection Hset as <-.
    apply andb_prop in Hguard as [_ Hlt]. apply bool_decide_eq_true in Hlt.
    apply IH in Hrest as (Hlen & Hin & Hbefore). simpl in *.
    rewrite length_insert in Hlen.
    split; [exact Hlen | split].
    + intros j Hj. destruct (N.eq_dec j i) as [-> | Hne].
      * rewrite Hbefore by lia. apply list_lookup_insert_eq. exact Hlt.
      * apply Hin. lia.
    + intros j Hj. rewrite Hbefore by lia.
      apply list_lookup_insert_ne. lia.
Qed.

Lemma build_pilots_slices inputs p nof_rx_ports (st st' : mex_state event) pilots in3 ref_sym :
  build_pilots inputs p nof_rx_ports st = (Ok pilots, st') ->
  arg inputs 3 = Ok in3 ->
  as_complex_single_array in3 = Ok ref_sym ->
  forall i, i < nof_rx_ports -> get_slice pilots i = Some ref_sym.
Proof.
  unfold build_pilots. intros Hrun Hin3 Href i Hi.
  rewrite bind_run, lift_run, Hin3 in Hrun.
  rewrite bind_run, lift_run, Href in Hrun.
  apply bind_ok_inv in Hrun as ([] & st1 & _ & Hloop).
  apply set_slice_loop in Hloop as (_ & Hin & _).
  apply Hin. lia.
Qed.

(** The estimator loop: one [compute] per port, in port order, always on the
    same grid, pilots and configuration; the paths are copied one after the
    other from the iterator's position on. *)
Lemma splice_take (out view : list cf_t) pos :
  (pos + length view <= length out)%nat ->
  take (pos + length view) (take pos out ++ view ++ drop (pos + length view) out)
  = (take pos out ++ view)%list.
Proof.
  intros H. rewrite app_assoc. rewrite take_app_le.
  - apply take_ge. rewrite length_app, length_take. lia.
  - rewrite length_app, length_take. lia.
Qed.

Lemma splice_drop (out view : list cf_t) pos k :
  (pos + length view <= k)%nat -> (pos + length view <= length out)%nat ->
  drop k (take pos out ++ view ++ drop (pos + length view) out) = drop k out.
Proof.
  intros Hk H. rewrite app_assoc. rewrite drop_app_ge.
  - rewrite length_app, length_take, drop_drop. f_equal. lia.
  - rewrite length_app, length_take. lia.
Qed.

Lemma estimate_loop grid pilots cfg n :
  forall i e out pos e' out' pos' (st st' : mex_state event),
    (pos <= length out)%nat ->
    for_loop n i (estimate_port grid pilots cfg) (e, out, pos) st = (Ok (e', out', pos'), st') ->
    let written := fst (EstimatorVocabulary.estimated_paths grid pilots cfg n i e) in
    e' = snd (EstimatorVocabulary.estimated_paths grid pilots cfg n i e) /\
    (pos' = pos + length written)%nat /\
    (pos' <= length out)%nat /\
    out' = (take pos out ++ written ++ drop pos' out)%list /\
    trace st' = (trace st ++ map (fun j => Compute grid j pilots cfg) (port_range n i))%list.
Proof.
  induction n as [|n IH]; intros i e out pos e' out' pos' st st' Hpos Hrun.
  - injection Hrun as <- <- <- <-. simpl.
    rewrite Nat.add_0_r, take_drop. repeat split; first [assumption | rewrite app_nil_r; reflexivity].
  - rewrite for_loop_S in Hrun.
    apply bind_ok_inv in Hrun as ([[e1 out1] pos1] & st1 & Hport & Hrest).
    unfold estimate_port in Hport.
    apply bind_ok_inv in Hport as ([] & st0 & Hemit & Hport).
    injection Hemit as <-.
    apply bind_ok_inv in Hport as ([out2 pos2] & st2 & Hcopy & Hret).
    apply lift_ok_inv in Hcopy as [Hcopy ->].
    injection Hret as <- <- <- <-.
    unfold copy_n in Hcopy. case_match eqn:Hroom; [| discriminate Hcopy].
    apply bool_decide_eq_true in Hroom.
    injection Hcopy as <- <-.
    cbn [EstimatorVocabulary.estimated_paths].
    set (e1 := compute e grid i pilots cfg) in *.
    set (view := get_path_ch_estimate e1 i) in *.
    apply IH in Hrest as (He & Hp & Hle & Hout & Htrace).
    2:{ rewrite !length_app, length_take, length_drop. lia. }
    simpl in Htrace. simpl.
    destruct (EstimatorVocabulary.estimated_paths grid pilots cfg n (N.succ i) e1)
      as [rest e2] eqn:Hpaths.
    fold e1 in Hpaths. simpl in *. fold view.
    assert (Hlen1 : length (take pos out ++ view ++ drop (pos + length view) out) = length out)
      by (rewrite !length_app, length_take, length_drop; lia).
    rewrite Hlen1 in Hle.
    split; [exact He | split; [| split; [exact Hle | split]]].
    + rewrite Hp, length_app. lia.
    + rewrite Hout. rewrite splice_take by exact Hroom.
      rewrite splice_drop by lia. rewrite <- !app_assoc. reflexivity.
    + rewrite Htrace, <- app_assoc. reflexivity.
Qed.

Lemma complex_single_data a :
  getType a = COMPLEX_SINGLE -> exists data, as_complex_single_array a = Ok data.
Proof.
  unfold getType, as_complex_single_array.
  destruct (payload a); intros H; try discriminate H. eexists; reflexivity.
Qed.

Lemma count_le_size bits : count bits <= size bits.
Proof. unfold count, size. pose proof (length_filter (fun b => b = true) bits). lia. Qed.

Lemma bitset_field_bound in_cfg name capacity bits :
  bitset_field in_cfg name capacity = Ok bits -> size bits <= capacity.
Proof.
  unfold bitset_field. intros H.
  apply result_bind_ok_inv in H as (a & _ & H).
  apply result_bind_ok_inv in H as (l & _ & H).
  unfold bounded_bitset in H. case_match eqn:Hle; [| discriminate H].
  injection H as <-. apply N.leb_le in Hle. exact Hle.
Qed.

(** The DM-RS pattern a readable configuration carries: the three masks are
    the logical fields of the structure, each within its capacity. *)
Lemma read_configuration_pattern inputs in_cfg cfg0 :
  read_configuration inputs = Ok (in_cfg, cfg0) ->
  let p := first_layer cfg0 in
  bitset_field in_cfg "Symbols" MAX_NSYMB_PER_SLOT = Ok (symbols p) /\
  bitset_field in_cfg "RBMask" MAX_RB = Ok (rb_mask p) /\
  bitset_field in_cfg "REPattern" NRE = Ok (re_pattern p).
Proof.
  unfold read_configuration. intros H.
  apply result_bind_ok_inv in H as (in_cfg_array & _ & H).
  apply result_bind_ok_inv in H as (in_cfg' & _ & H).
  apply result_bind_ok_inv in H as (cp_field & _ & H).
  apply result_bind_ok_inv in H as (in_cp & _ & H).
  apply result_bind_ok_inv in H as (cfg_cp & _ & H).
  apply result_bind_ok_inv in H as (scs_field & _ & H).
  apply result_bind_ok_inv in H as (scs_value & _ & H).
  apply result_bind_ok_inv in H as (cfg_scs & _ & H).
  apply result_bind_ok_inv in H as (in2 & _ & H).
  apply result_bind_ok_inv in H as (in_allocation & _ & H).
  apply result_bind_ok_inv in H as (a0 & _ & H).
  apply result_bind_ok_inv in H as (first & _ & H).
  apply result_bind_ok_inv in H as (a1 & _ & H).
  apply result_bind_ok_inv in H as (nsym & _ & H).
  apply result_bind_ok_inv in H as (dmrs_symbols & Hsym & H).
  apply result_bind_ok_inv in H as (dmrs_rb_mask & Hrb & H).
  apply result_bind_ok_inv in H as (hop_field & _ & H).
  apply result_bind_ok_inv in H as (in_hop & _ & H).
  apply result_bind_ok_inv in H as ([hop mask2] & _ & H).
  apply result_bind_ok_inv in H as (dmrs_re_pattern & Hre & H).
  apply result_bind_ok_inv in H as (beta_field & _ & H).
  apply result_bind_ok_inv in H as (beta & _ & H).
  injection H as <- <-. simpl. repeat split; assumption.
Qed.

(** With the capacities of the library's bitsets the pilot counts do not
    wrap around in [unsigned]. *)
Lemma pilot_counts_exact inputs in_cfg cfg0 :
  read_configuration inputs = Ok (in_cfg, cfg0) ->
  MAX_RB * NRE * MAX_NSYMB_PER_SLOT < UNSIGNED_MODULUS ->
  let p := first_layer cfg0 in
  to_unsigned (nof_pilot_res_of p * nof_pilot_symbols_of p)
  = count (rb_mask p) * count (re_pattern p) * count (symbols p).
Proof.
  intros Hcfg Hcap p.
  destruct (read_configuration_pattern _ _ _ Hcfg) as (Hsym & Hrb & Hre).
  apply bitset_field_bound in Hsym, Hrb, Hre. fold p in Hsym, Hrb, Hre.
  pose proof (count_le_size (symbols p)). pose proof (count_le_size (rb_mask p)).
  pose proof (count_le_size (re_pattern p)).
  assert (Hres : count (rb_mask p) * count (re_pattern p) <= MAX_RB * NRE)
    by (apply N.mul_le_mono; lia).
  assert (Hall : count (rb_mask p) * count (re_pattern p) * count (symbols p)
                 <= MAX_RB * NRE * MAX_NSYMB_PER_SLOT)
    by (apply N.mul_le_mono; lia).
  unfold nof_pilot_res_of, nof_pilot_symbols_of.
  set (res := count (rb_mask p) * count (re_pattern p)) in *.
  set (syms := count (symbols p)) in *.
  destruct (N.eq_dec syms 0) as [Hz | Hnz].
  { rewrite Hz. rewrite (to_unsigned_small 0) by reflexivity.
    rewrite !N.mul_0_r. reflexivity. }
  destruct (N.eq_dec res 0) as [Hr | Hnr].
  { rewrite Hr. rewrite (to_unsigned_small 0) by reflexivity. reflexivity. }
  assert (Hres1 : res <= res * syms).
  { rewrite <- (N.mul_1_r res) at 1. apply N.mul_le_mono_l. lia. }
  assert (Hsym1 : syms <= res * syms).
  { rewrite <- (N.mul_1_l syms) at 1. apply N.mul_le_mono_r. lia. }
  rewrite (to_unsigned_small res) by lia.
  rewrite (to_unsigned_small syms) by lia.
  apply to_unsigned_small. lia.
Qed.

(** What a built grid says about the call. *)
Lemma build_grid_ok_inv inputs in_cfg cfg0 grid n cfg (st st' : mex_state event) :
  build_grid inputs in_cfg cfg0 st = (Ok (grid, n, cfg), st') ->
  exists in_grid port_field,
    arg inputs 1 = Ok in_grid /\
    n = grid_nof_rx_ports (getDimensions in_grid) /\
    field in_cfg "PortIndices" = Ok port_field /\
    to_unsigned (getNumberOfElements port_field) = n /\
    dmrs_pattern cfg = dmrs_pattern cfg0.
Proof.
  unfold build_grid. intros H.
  apply bind_ok_inv in H as (in_grid & st1 & Hin & H).
  apply lift_ok_inv in Hin as [Hin ->].
  apply bind_ok_inv in H as (data & st2 & Hdata & H).
  apply lift_ok_inv in Hdata as [Hdata ->].
  destruct (create_resource_grid _ _ _) as [grid0|]; [| discriminate H].
  apply bind_ok_inv in H as (ports & st3 & Hports & H).
  apply bind_ok_inv in H as (grid1 & st4 & Hfill & H).
  injection H as <- <- <- <-.
  unfold read_rx_ports in Hports.
  apply bind_ok_inv in Hports as (port_field & st5 & Hfield & Hports).
  apply lift_ok_inv in Hfield as [Hfield ->].
  apply bind_ok_inv in Hports as (in_port_indices & st6 & Hpi & Hports).
  apply bind_ok_inv in Hports as ([] & st7 & Hcheck & _).
  unfold check_port_indices in Hcheck. case_match eqn:Heq; [discriminate Hcheck |].
  apply negb_false_iff, N.eqb_eq in Heq.
  exists in_grid, port_field. repeat split; assumption.
Qed.

Lemma first_layer_kept cfg cfg0 :
  dmrs_pattern cfg = dmrs_pattern cfg0 -> first_layer cfg = first_layer cfg0.
Proof. unfold first_layer. intros ->. reflexivity. Qed.

Lemma method_step_from_grid inputs (st : mex_state event) in_cfg cfg0 :
  fst (check_step_outputs_inputs inputs st) = Ok tt ->
  read_configuration inputs = Ok (in_cfg, cfg0) ->
  method_step inputs st =
  (build_grid inputs in_cfg cfg0 ≫= fun '(grid, nof_rx_ports, cfg) =>
     build_pilots inputs (first_layer cfg) nof_rx_ports ≫= fun pilots =>
       run_estimator grid pilots cfg nof_rx_ports ≫= fun '(ch_estimate, ch_est_out) =>
         build_info ch_estimate nof_rx_ports ≫= fun info_out =>
           set_output 0 ch_est_out ≫= fun _ => set_output 1 info_out) st.
Proof.
  intros Hcheck Hcfg. unfold method_step.
  pose proof (stateless_run _ st (stateless_check inputs)) as Hrun.
  rewrite Hcheck in Hrun.
  rewrite (bind_ok _ _ _ _ _ Hrun).
  rewrite bind_run, lift_run, Hcfg. reflexivity.
Qed.

(** The two count checks on the counts as the code holds them.  With the
    arguments past the argument check, the configuration read and the grid
    created, a number of port indices (narrowed to
    [unsigned nof_port_indices]) other than the number of ports read from
    the grid (narrowed to [unsigned nof_rx_ports]) stops the call with the [mex_abort] "PortIndices and number of resource
    grid ports do not match", and, once the grid is built, a number of
    pilots other than (set bits of the RB mask x set bits of the RE pattern)
    x (set bits of the symbol mask) stops it with the [mex_abort]
    "Expected {} DM-RS symbols, received {}"; both are [InvalidArgument] and
    leave the call state as it was.  With equal counts the two checks pass,
    and a call that returns normally has passed both: its counts are equal.
    The capacities of the library's bitsets are taken small enough for the
    product of the three counts to fit an [unsigned]. *)
Theorem count_mismatches_are_rejected inputs (st : mex_state event)
    in_cfg cfg0 in_grid grid0 port_field port_data :
  fst (check_step_outputs_inputs inputs st) = Ok tt ->
  read_configuration inputs = Ok (in_cfg, cfg0) ->
  arg inputs 1 = Ok in_grid ->
  create_resource_grid (to_unsigned (dim 0 (getDimensions in_grid)))
    (to_unsigned (dim 1 (getDimensions in_grid)))
    (grid_nof_rx_ports (getDimensions in_grid)) = Some grid0 ->
  field in_cfg "PortIndices" = Ok port_field ->
  as_double_array port_field = Ok port_data ->
  MAX_RB * NRE * MAX_NSYMB_PER_SLOT < UNSIGNED_MODULUS ->
  let nof_rx_ports := grid_nof_rx_ports (getDimensions in_grid) in
  let nof_port_indices := to_unsigned (getNumberOfElements port_field) in
  let p := first_layer cfg0 in
  let expected := count (rb_mask p) * count (re_pattern p) * count (symbols p) in
  let port_abort := MexAbort PORT_MISMATCH_MESSAGE [ArgNum nof_port_indices; ArgNum nof_rx_ports] in
  let pilot_abort nof_pilots := MexAbort PILOT_MISMATCH_MESSAGE [ArgNum expected; ArgNum nof_pilots] in
  (nof_port_indices <> nof_rx_ports ->
   method_step inputs st = (Fail port_abort, st) /\
   spec_error_kind port_abort = Some InvalidArgument) /\
  (forall in3,
     is_ok (fst (build_grid inputs in_cfg cfg0 st)) = true ->
     arg inputs 3 = Ok in3 ->
     getNumberOfElements in3 <> expected ->
     method_step inputs st = (Fail (pilot_abort (getNumberOfElements in3)), st) /\
     spec_error_kind (pilot_abort (getNumberOfElements in3)) = Some InvalidArgument) /\
  (nof_port_indices = nof_rx_ports ->
   check_port_indices nof_port_indices nof_rx_ports st = (Ok tt, st)) /\
  (forall in3,
     arg inputs 3 = Ok in3 ->
     getNumberOfElements in3 = expected ->
     check_pilots (getNumberOfElements in3) (nof_pilot_res_of p) (nof_pilot_symbols_of p) st
     = (Ok tt, st)) /\
  (forall st',
     method_step inputs st = (Ok tt, st') ->
     nof_port_indices = nof_rx_ports /\
     exists in3, arg inputs 3 = Ok in3 /\ getNumberOfElements in3 = expected).
Proof.
  intros Hcheck Hcfg Hin Hgrid Hfield Hports Hcap nof_rx_ports nof_port_indices p expected
    port_abort pilot_abort.
  destruct (estimator_check_facts _ _ Hcheck) as (_ & (in1 & Hin1 & Hty1) & (in3' & Hin3' & Hty3)).
  rewrite Hin in Hin1. injection Hin1 as <-.
  destruct (complex_single_data _ Hty1) as [grid_data Hgrid_data].
  destruct (complex_single_data _ Hty3) as [ref_sym Href].
  pose proof (pilot_counts_exact _ _ _ Hcfg Hcap) as Hexact. cbv zeta in Hexact. fold p in Hexact.
  split; [| split; [| split; [| split]]].
  - intros Hne. split; [| reflexivity].
    rewrite (method_step_from_grid _ _ _ _ Hcheck Hcfg).
    apply bind_fail. unfold build_grid.
    rewrite bind_run, lift_run, Hin. rewrite bind_run, lift_run, Hgrid_data.
    cbv zeta. rewrite Hgrid.
    apply bind_fail. unfold read_rx_ports.
    rewrite bind_run, lift_run, Hfield. rewrite bind_run, lift_run, Hports.
    apply bind_fail. unfold check_port_indices.
    apply N.eqb_neq in Hne. fold nof_port_indices nof_rx_ports. rewrite Hne. reflexivity.
  - intros in3 Hbuilt Hin3 Hne. split; [| reflexivity].
    rewrite (stateless_run _ st (stateless_build_grid inputs in_cfg cfg0)) in Hbuilt.
    simpl in Hbuilt.
    destruct (fst (build_grid inputs in_cfg cfg0 st)) as [[[grid n] cfg] | f] eqn:Hfst;
      [clear Hbuilt | discriminate Hbuilt].
    pose proof (stateless_run _ st (stateless_build_grid inputs in_cfg cfg0)) as Hbuilt.
    rewrite Hfst in Hbuilt.
    rewrite Hin3' in Hin3. injection Hin3 as <-.
    destruct (build_grid_ok_inv _ _ _ _ _ _ _ _ Hbuilt) as (_ & _ & _ & _ & _ & _ & Hpat).
    rewrite (method_step_from_grid _ _ _ _ Hcheck Hcfg).
    rewrite (bind_ok _ _ _ _ _ Hbuilt). apply bind_fail.
    unfold build_pilots. rewrite bind_run, lift_run, Hin3'.
    rewrite bind_run, lift_run, Href.
    apply bind_fail. unfold check_pilots.
    rewrite (first_layer_kept _ _ Hpat). fold p. rewrite Hexact.
    apply N.eqb_neq in Hne. unfold expected in Hne. rewrite Hne. reflexivity.
  - intros Heq. unfold check_port_indices. apply N.eqb_eq in Heq. rewrite Heq. reflexivity.
  - intros in3 _ Heq. unfold check_pilots. rewrite Hexact.
    apply N.eqb_eq in Heq. unfold expected in Heq. rewrite Heq. reflexivity.
  - intros st' Hok.
    apply method_step_ok_inv in Hok
      as (in_cfg' & cfg0' & grid & n & cfg & pilots & ch & out & info & st3
          & _ & Hcfg' & Hbuilt & Hpilots & _).
    rewrite Hcfg in Hcfg'. injection Hcfg' as <- <-.
    destruct (build_grid_ok_inv _ _ _ _ _ _ _ _ Hbuilt)
      as (in_grid' & port_field' & Hin' & Hn & Hfield' & Hmatch & Hpat).
    rewrite Hin in Hin'. injection Hin' as <-.
    rewrite Hfield in Hfield'. injection Hfield' as <-.
    split; [unfold nof_port_indices, nof_rx_ports; congruence |].
    exists in3'. split; [exact Hin3' |].
    unfold build_pilots in Hpilots.
    rewrite bind_run, lift_run, Hin3' in Hpilots.
    rewrite bind_run, lift_run, Href in Hpilots.
    apply bind_ok_inv in Hpilots as ([] & st1 & Hchk & _).
    unfold check_pilots in Hchk. case_match eqn:Heq; [discriminate Hchk |].
    apply negb_false_iff, N.eqb_eq in Heq.
    rewrite (first_layer_kept _ _ Hpat) in Heq. fold p in Heq.
    rewrite Hexact in Heq. exact Heq.
Qed.

(** C9: in a call that returns normally the estimator is run once per
    receive port, in port order, each time on the same pilot list, and every
    slice of that list below the number of ports holds the elements of the
    input [refSym]. *)
Theorem same_pilots_for_every_port inputs (st st' : mex_state event) in3 ref_sym :
  method_step inputs st = (Ok tt, st') ->
  arg inputs 3 = Ok in3 ->
  as_complex_single_array in3 = Ok ref_sym ->
  exists in_grid grid pilots cfg,
    arg inputs 1 = Ok in_grid /\
    let nof_rx_ports := grid_nof_rx_ports (getDimensions in_grid) in
    trace st' =
      (trace st ++ map (fun i_port => Compute grid i_port pilots cfg)
                       (port_range (N.to_nat nof_rx_ports) 0))%list /\
    forall i_port, i_port < nof_rx_ports -> get_slice pilots i_port = Some ref_sym.
Proof.
  intros Hok Hin3 Href.
  apply method_step_ok_inv in Hok
    as (in_cfg & cfg0 & grid & n & cfg & pilots & ch & out & info & st3
        & _ & _ & Hbuilt & Hpilots & Hest & _ & _ & ->).
  destruct (build_grid_ok_inv _ _ _ _ _ _ _ _ Hbuilt) as (in_grid & _ & Hin & Hn & _).
  exists in_grid, grid, pilots, cfg. split; [exact Hin |]. cbv zeta. rewrite <- Hn.
  split.
  - unfold run_estimator in Hest.
    apply bind_ok_inv in Hest as ([[e' out'] pos'] & st4 & Hloop & Hret).
    injection Hret as <- <- <-.
    apply estimate_loop in Hloop as (_ & _ & _ & _ & Htrace); [exact Htrace | simpl; lia].
  - exact (build_pilots_slices _ _ _ _ _ _ _ _ Hpilots Hin3 Href).
Qed.

(** *** The metrics output *)

Lemma assign_middle (done rest : list Struct) fields fields' i name value :
  length done = N.to_nat i ->
  set_field name value fields = Some fields' ->
  assign (done ++ MkStruct fields :: rest) i name value = Ok (done ++ MkStruct fields' :: rest).
Proof.
  intros Hlen Hset. unfold assign.
  rewrite (list_lookup_middle done rest (MkStruct fields) (N.to_nat i)) by (symmetry; exact Hlen).
  rewrite Hset. f_equal.
  rewrite <- Hlen, <- (Nat.add_0_r (length done)), insert_app_r. reflexivity.
Qed.

Lemma port_info_middle ch i (done rest : list Struct) t :
  length done = N.to_nat i ->
  port_info ch i (done ++ EstimatorVocabulary.blank_record :: rest, t) =
  Ok (done ++ EstimatorVocabulary.port_record ch i :: rest,
      Totals (f32_add (total_noise_var t) (get_noise_variance ch i))
             (f32_add (total_rsrp t) (get_rsrp ch i))
             (f32_add (total_epre t) (get_epre ch i))
             (f64_add (total_time_alignment t) (to_seconds (get_time_alignment ch i)))).
Proof.
  intros Hlen. unfold port_info, EstimatorVocabulary.blank_record.
  repeat (erewrite assign_middle; [| exact Hlen | reflexivity]; cbn [mbind result_bind_inst result_bind]).
  reflexivity.
Qed.

Lemma global_info_middle n (done rest : list Struct) t :
  length done = N.to_nat n ->
  global_info n (done ++ EstimatorVocabulary.blank_record :: rest, t) =
  Ok (done ++
      MkStruct
        [ ("NoiseVar", double_scalar (f64_of_f32 (f32_div (total_noise_var t) (f32_of_unsigned n))));
          ("RSRP", double_scalar (f64_of_f32 (f32_div (total_rsrp t) (f32_of_unsigned n))));
          ("EPRE", double_scalar (f64_of_f32 (f32_div (total_epre t) (f32_of_unsigned n))));
          ("SINR", double_scalar f64_nan);
          ("TimeAlignment",
           double_scalar (f64_div (total_time_alignment t) (f64_of_unsigned n))) ] :: rest).
Proof.
  intros Hlen. unfold global_info, EstimatorVocabulary.blank_record.
  repeat (erewrite assign_middle; [| exact Hlen | reflexivity]; cbn [mbind result_bind_inst result_bind]).
  reflexivity.
Qed.

(** The loop over the ports fills one record per port and adds the metrics
    of the ports to the totals, from the left. *)
Lemma info_loop ch n :
  forall i (done rest : list Struct) t (st : mex_state event),
    length done = N.to_nat i ->
    for_loop n i (fun i_port s => lift (port_info ch i_port s))
      (done ++ replicate n EstimatorVocabulary.blank_record ++ rest, t) st =
    (Ok (done ++ map (EstimatorVocabulary.port_record ch) (port_range n i) ++ rest,
         Totals
           (fold_left f32_add (map (get_noise_variance ch) (port_range n i)) (total_noise_var t))
           (fold_left f32_add (map (get_rsrp ch) (port_range n i)) (total_rsrp t))
           (fold_left f32_add (map (get_epre ch) (port_range n i)) (total_epre t))
           (fold_left f64_add (map (fun j => to_seconds (get_time_alignment ch j)) (port_range n i))
              (total_time_alignment t))),
     st).
Proof.
  induction n as [|n IH]; intros i done rest t st Hlen.
  - destruct t. reflexivity.
  - rewrite for_loop_S, bind_run, lift_run. cbn [replicate app].
    rewrite (port_info_middle ch i done _ t Hlen).
    rewrite (cons_middle _ done), app_assoc.
    rewrite IH by (rewrite length_app; simpl; lia).
    cbn [port_range map fold_left total_noise_var total_rsrp total_epre total_time_alignment].
    rewrite <- app_assoc. reflexivity.
Qed.

Lemma build_info_run ch n (st : mex_state event) :
  n + 1 < UNSIGNED_MODULUS ->
  let ports := port_range (N.to_nat n) 0 in
  build_info ch n st =
  (Ok (MkArray [n + 1; 1]
         (PStruct (map (EstimatorVocabulary.port_record ch) ports
                   ++ [EstimatorVocabulary.mean_record ch ports]))), st).
Proof.
  intros Hn ports. subst ports. unfold build_info.
  rewrite (to_unsigned_small _ Hn).
  unfold createStructArray. fold EstimatorVocabulary.blank_record.
  replace (N.to_nat (n + 1)) with (N.to_nat n + 1)%nat by lia.
  rewrite replicate_add. cbn [replicate].
  rewrite bind_run.
  rewrite (info_loop ch (N.to_nat n) 0 [] [EstimatorVocabulary.blank_record] _ st eq_refl).
  cbn [app]. rewrite bind_run, lift_run.
  rewrite global_info_middle by (rewrite length_map, port_range_length; reflexivity).
  unfold EstimatorVocabulary.mean_record, f32_mean, f64_mean, f32_sum, f64_sum.
  rewrite !length_map, port_range_length, N2Nat.id.
  reflexivity.
Qed.

Lemma build_info_needs_room ch n (st st' : mex_state event) info :
  1 <= n -> n < UNSIGNED_MODULUS ->
  build_info ch n st = (Ok info, st') -> n + 1 < UNSIGNED_MODULUS.
Proof.
  intros Hpos Hlt Hrun.
  destruct (N.eq_dec (n + 1) UNSIGNED_MODULUS) as [Heq | Hne]; [| lia].
  exfalso. unfold build_info in Hrun.
  assert (Hz : to_unsigned (n + 1) = 0).
  { rewrite Heq. unfold to_unsigned. apply N.Div0.mod_same. }
  rewrite Hz in Hrun. unfold createStructArray in Hrun. cbn [N.to_nat replicate] in Hrun.
  destruct (N.to_nat n) as [|k] eqn:Hk; [lia |].
  rewrite for_loop_S in Hrun.
  apply bind_ok_inv in Hrun as (s & st1 & Hloop & _).
  apply bind_ok_inv in Hloop as (s1 & st2 & Hport & _).
  apply lift_ok_inv in Hport as [Hport _].
  unfold port_info, assign in Hport. cbn in Hport. discriminate Hport.
Qed.

Lemma grid_nof_rx_ports_bound dims : grid_nof_rx_ports dims < UNSIGNED_MODULUS.
Proof.
  unfold grid_nof_rx_ports. case_match; [apply to_unsigned_bound | reflexivity].
Qed.

(** *** The estimate output *)

Lemma run_estimator_ok grid pilots cfg n (st st' : mex_state event) ch out :
  run_estimator grid pilots cfg n st = (Ok (ch, out), st') ->
  let d := ch_est_dims_of (first_layer cfg) n in
  let paths :=
    EstimatorVocabulary.estimated_paths grid pilots cfg (N.to_nat n) 0 (new_channel_estimate d) in
  ch = snd paths /\
  exists data,
    out = MkArray (ch_est_out_dims d n) (PComplexSingle data) /\
    length data = N.to_nat (fold_right N.mul 1 (ch_est_out_dims d n)) /\
    data = fst paths ++ replicate (length data - length (fst paths)) cf_zero.
Proof.
  intros Hrun d paths. unfold run_estimator in Hrun.
  apply bind_ok_inv in Hrun as ([[e' out'] pos'] & st1 & Hloop & Hret).
  injection Hret as <- <- <-. simpl.
  apply estimate_loop in Hloop as (He & Hpos & Hle & Hout & _); [| apply Nat.le_0_l].
  fold d in He, Hpos, Hle, Hout. fold paths in He, Hpos, Hout.
  set (numel := N.to_nat (fold_right N.mul 1 (ch_est_out_dims d n))) in *.
  rewrite length_replicate in Hle. rewrite Nat.add_0_l in Hpos.
  rewrite take_0, drop_replicate, app_nil_l in Hout.
  split; [exact He |].
  exists out'. split; [reflexivity |].
  assert (Hlen : length out' = numel).
  { rewrite Hout, length_app, length_replicate. lia. }
  split; [exact Hlen |].
  rewrite Hlen. rewrite Hout at 1. rewrite Hpos. reflexivity.
Qed.

Lemma ch_est_out_dims_exact inputs in_cfg cfg0 n :
  read_configuration inputs = Ok (in_cfg, cfg0) ->
  MAX_RB * NRE < UNSIGNED_MODULUS ->
  MAX_NSYMB_PER_SLOT < UNSIGNED_MODULUS ->
  let p := first_layer cfg0 in
  ch_est_dims_of p n = ChEstDims (size (rb_mask p)) (size (symbols p)) n 1 /\
  ch_est_out_dims (ch_est_dims_of p n) n = [size (rb_mask p) * NRE; size (symbols p); n].
Proof.
  intros Hcfg Hrb Hsym p.
  destruct (read_configuration_pattern _ _ _ Hcfg) as (Hs & Hr & _).
  apply bitset_field_bound in Hs, Hr. fold p in Hs, Hr.
  assert (Hnre : NRE = 12) by reflexivity.
  assert (H1 : size (rb_mask p) * NRE < UNSIGNED_MODULUS).
  { eapply N.le_lt_trans; [| exact Hrb]. apply N.mul_le_mono_r. exact Hr. }
  assert (H2 : size (rb_mask p) < UNSIGNED_MODULUS) by lia.
  unfold ch_est_dims_of, ch_est_out_dims. simpl.
  rewrite (to_unsigned_small (size (rb_mask p))) by exact H2.
  rewrite (to_unsigned_small (size (symbols p))) by lia.
  rewrite (to_unsigned_small _ H1). split; reflexivity.
Qed.

Lemma estimated_paths_concat grid pilots cfg n :
  forall i e,
    fst (EstimatorVocabulary.estimated_paths grid pilots cfg n i e)
    = concat (EstimatorVocabulary.estimated_path_list grid pilots cfg n i e).
Proof.
  induction n as [|n IH]; intros i e; simpl; [reflexivity |].
  rewrite <- IH.
  destruct (EstimatorVocabulary.estimated_paths grid pilots cfg n (N.succ i)
              (compute e grid i pilots cfg)) as [rest e2].
  reflexivity.
Qed.

Lemma estimated_path_list_length grid pilots cfg n :
  forall i e, length (EstimatorVocabulary.estimated_path_list grid pilots cfg n i e) = n.
Proof.
  induction n as [|n IH]; intros i e; simpl; [reflexivity | rewrite IH; reflexivity].
Qed.

Lemma length_concat_uniform {A} k (l : list (list A)) :
  Forall (fun x => length x = k) l -> length (concat l) = (length l * k)%nat.
Proof.
  induction 1 as [|x l Hx _ IH]; simpl; [reflexivity |].
  rewrite length_app, IH, Hx. reflexivity.
Qed.

(** In a concatenation of lists of one length, the lists are found again
    at the multiples of that length. *)
Lemma concat_slot {A} k (l : list (list A)) :
  Forall (fun x => length x = k) l ->
  forall (i : nat) x, l !! i = Some x -> take k (drop (i * k) (concat l)) = x.
Proof.
  induction 1 as [|y l Hy _ IH]; intros [|i] x Hx; simpl in Hx |- *;
    try discriminate Hx.
  - injection Hx as <-. apply take_app_length'. symmetry. exact Hy.
  - rewrite <- (drop_drop _ (i * k) k).
    rewrite (drop_app_length' _ _ k) by (symmetry; exact Hy).
    apply IH. exact Hx.
Qed.

(** C8, as amended: in a call that returns normally, on a grid whose number
    of ports (its third dimension, or 1 for a two-dimensional grid) is the
    one the grid stage worked with, the first output is a complex array of
    dimensions (number of entries of the RB mask, set or not, x 12) by
    (number of entries of the symbol mask) by (number of receive ports of
    the grid).  The grid, the configuration and the pilots are those the
    call built from its inputs.  Where the estimator returns for every port
    a path of the size of one port of the array, the array holds exactly
    those paths of the single transmit layer: port [i] of the array is the
    path read right after port [i] was estimated.  The capacities of the
    library's bitsets are taken small enough for the dimensions to fit an
    [unsigned]. *)
Theorem estimate_output_shape inputs (st st' : mex_state event) in_cfg cfg0 in_grid
    grid cfg pilots :
  method_step inputs st = (Ok tt, st') ->
  read_configuration inputs = Ok (in_cfg, cfg0) ->
  arg inputs 1 = Ok in_grid ->
  MAX_RB * NRE < UNSIGNED_MODULUS ->
  MAX_NSYMB_PER_SLOT < UNSIGNED_MODULUS ->
  let p := first_layer cfg0 in
  let grid_dims := getDimensions in_grid in
  let n := if Nat.eqb (length grid_dims) 3 then dim 2 grid_dims else 1 in
  fst (build_grid inputs in_cfg cfg0 st) = Ok (grid, n, cfg) ->
  fst (build_pilots inputs p n st) = Ok pilots ->
  let slot := N.to_nat (size (rb_mask p) * NRE * size (symbols p)) in
  let paths :=
    EstimatorVocabulary.estimated_path_list grid pilots cfg (N.to_nat n) 0
      (new_channel_estimate (ChEstDims (size (rb_mask p)) (size (symbols p)) n 1)) in
  Forall (fun path => length path = slot) paths ->
  exists data,
    outputs st' !! 0%nat =
      Some (Some (MkArray [size (rb_mask p) * NRE; size (symbols p); n] (PComplexSingle data))) /\
    length data = (N.to_nat n * slot)%nat /\
    data = concat paths /\
    forall (i : nat) path, paths !! i = Some path -> take slot (drop (i * slot) data) = path.
Proof.
  intros Hok Hcfg Hin Hrb Hsym p grid_dims n Hgrid Hpilots slot paths Hpaths.
  apply method_step_ok_inv in Hok
    as (in_cfg' & cfg0' & grid' & n' & cfg' & pilots' & ch & out & info & st3
        & _ & Hcfg' & Hbuilt & Hpil & Hest & _ & _ & ->).
  rewrite Hcfg in Hcfg'. injection Hcfg' as <- <-.
  destruct (build_grid_ok_inv _ _ _ _ _ _ _ _ Hbuilt)
    as (in_grid' & _ & Hin' & Hn' & _ & _ & Hpat).
  rewrite Hin in Hin'. injection Hin' as <-.
  rewrite Hbuilt in Hgrid. simpl in Hgrid. injection Hgrid as Hg Hnn Hc.
  subst grid' cfg' n'.
  rewrite (first_layer_kept _ _ Hpat) in Hpil. fold p in Hpil.
  rewrite Hpil in Hpilots. simpl in Hpilots. injection Hpilots as Hp. subst pilots'.
  apply run_estimator_ok in Hest as (_ & data & -> & Hlen & Hdata).
  rewrite (first_layer_kept _ _ Hpat) in Hlen, Hdata. fold p in Hlen, Hdata.
  destruct (ch_est_out_dims_exact _ _ _ n Hcfg Hrb Hsym) as (Hdims & Hout).
  fold p in Hdims, Hout.
  rewrite (first_layer_kept _ _ Hpat). fold p.
  rewrite Hout in Hlen. rewrite Hdims in Hdata. rewrite Hout.
  rewrite estimated_paths_concat in Hdata. fold paths in Hdata.
  assert (Hsize : length (concat paths) = (N.to_nat n * slot)%nat).
  { rewrite (length_concat_uniform slot paths Hpaths). unfold paths.
    rewrite estimated_path_list_length. reflexivity. }
  assert (Hlen' : length data = (N.to_nat n * slot)%nat).
  { rewrite Hlen. unfold slot. simpl. lia. }
  assert (Hall : data = concat paths).
  { rewrite Hdata, Hlen', Hsize, Nat.sub_diag. simpl. apply app_nil_r. }
  exists data. split; [reflexivity |]. split; [exact Hlen' |]. split; [exact Hall |].
  intros i path Hi. rewrite Hall. exact (concat_slot slot paths Hpaths i path Hi).
Qed.

(** C6: in a call that returns normally on a grid of n >= 1 receive ports
    the second output has n + 1 records: one per port, holding the metrics
    of that port in the estimate the estimator left after its last port, and
    a last one holding, for NoiseVar, RSRP and EPRE, the mean of the n port
    values computed in [float] (sum from the left divided by n) and widened
    to [double], for TimeAlignment the mean of the n port values in seconds
    computed in [double], and for SINR not-a-number. *)
Theorem global_record_holds_port_means inputs (st st' : mex_state event) in_grid :
  method_step inputs st = (Ok tt, st') ->
  arg inputs 1 = Ok in_grid ->
  1 <= grid_nof_rx_ports (getDimensions in_grid) ->
  let n := grid_nof_rx_ports (getDimensions in_grid) in
  let ports := port_range (N.to_nat n) 0 in
  exists grid pilots cfg records,
    let ch :=
      snd (EstimatorVocabulary.estimated_paths grid pilots cfg (N.to_nat n) 0
             (new_channel_estimate (ch_est_dims_of (first_layer cfg) n))) in
    outputs st' !! 1%nat = Some (Some (MkArray [n + 1; 1] (PStruct records))) /\
    length records = S (N.to_nat n) /\
    (forall i, i < n ->
       records !! N.to_nat i = Some (EstimatorVocabulary.port_record ch i)) /\
    last records = Some (EstimatorVocabulary.mean_record ch ports) /\
    lookup_field "SINR"
      (match EstimatorVocabulary.mean_record ch ports with MkStruct fields => fields end)
    = Some (double_scalar f64_nan).
Proof.
  intros Hok Hin Hpos n ports.
  apply method_step_ok_inv in Hok
    as (in_cfg & cfg0 & grid & n' & cfg & pilots & ch & out & info & st3
        & _ & _ & Hbuilt & _ & Hest & Hinfo & _ & ->).
  destruct (build_grid_ok_inv _ _ _ _ _ _ _ _ Hbuilt) as (in_grid' & _ & Hin' & Hn & _).
  rewrite Hin in Hin'. injection Hin' as <-. fold n in Hn. subst n'.
  apply run_estimator_ok in Hest as (Hch & _).
  pose proof (grid_nof_rx_ports_bound (getDimensions in_grid)) as Hlt. fold n in Hlt.
  pose proof (build_info_needs_room _ _ _ _ _ Hpos Hlt Hinfo) as Hroom.
  rewrite (build_info_run ch n st3 Hroom) in Hinfo. injection Hinfo as <-.
  exists grid, pilots, cfg. eexists. cbv zeta. rewrite <- Hch.
  split; [reflexivity |].
  split; [rewrite length_app, length_map, port_range_length; simpl; lia |].
  split; [| split; [apply last_snoc | reflexivity]].
  intros i Hi. rewrite lookup_app_l by (rewrite length_map, port_range_length; lia).
  rewrite list_lookup_fmap, port_range_lookup by lia.
  simpl. rewrite N2Nat.id. reflexivity.
Qed.

End EstimatorProperties.

(** *** The estimator binding on sample calls *)

Section EstimatorRuns.
Import Prach Estimator ChannelEstimatorMex EstimatorSamples.

Lemma ok_run {A} (m : M event A) st a : fst (m st) = Ok a -> m st = (Ok a, snd (m st)).
Proof. destruct (m st) as [r st1]. simpl. intros ->. reflexivity. Qed.

Lemma two_port_call_returns :
  fst (method_step (lib := sample_library) two_port_call fresh) = Ok tt.
Proof. vm_compute. reflexivity. Qed.

Lemma count_mismatches_are_rejected_witness :
  let lib := sample_library in
  let three_indices :=
    call (rx_grid 24 14 2) (replicate 6 unit_sample)
      (config_struct symbols_mask rb_mask_10 even_res [0; 1; 2]) in
  let five_pilots :=
    call (rx_grid 24 14 2) (replicate 5 unit_sample)
      (config_struct symbols_mask rb_mask_10 even_res [0; 1]) in
  method_step three_indices fresh =
    (Fail (MexAbort PORT_MISMATCH_MESSAGE [ArgNum 3; ArgNum 2]), fresh) /\
  method_step five_pilots fresh =
    (Fail (MexAbort PILOT_MISMATCH_MESSAGE [ArgNum 6; ArgNum 5]), fresh).
Proof.
  intros lib three_indices five_pilots. split.
  - refine (proj1 (proj1 (count_mismatches_are_rejected (lib := lib) three_indices fresh
                            _ _ _ _ _ _ eq_refl eq_refl eq_refl eq_refl eq_refl eq_refl eq_refl)
                     _)).
    discriminate.
  - refine (proj1 (proj1 (proj2 (count_mismatches_are_rejected (lib := lib) five_pilots fresh
                                   _ _ _ _ _ _
                                   eq_refl eq_refl eq_refl eq_refl eq_refl eq_refl eq_refl))
                     _ _ eq_refl _)).
    + vm_compute. reflexivity.
    + discriminate.
Defined.

Lemma same_pilots_for_every_port_witness :
  let lib := sample_library in
  exists grid pilots cfg,
    trace (snd (method_step two_port_call fresh)) =
      [Compute grid 0 pilots cfg; Compute grid 1 pilots cfg] /\
    get_slice pilots 0 = Some (replicate 6 unit_sample) /\
    get_slice pilots 1 = Some (replicate 6 unit_sample).
Proof.
  intros lib.
  destruct (same_pilots_for_every_port (lib := lib) two_port_call fresh _ _
              (replicate 6 unit_sample) (ok_run _ _ _ two_port_call_returns) eq_refl eq_refl)
    as (in_grid & grid & pilots & cfg & Hin & Htrace & Hslices).
  injection Hin as <-.
  exists grid, pilots, cfg. split; [exact Htrace | split; apply Hslices; reflexivity].
Defined.

Lemma estimate_output_shape_witness :
  let lib := sample_library in
  let in_cfg := EstimatorSmallSamples.first_element EstimatorSmallSamples.two_port_config in
  let cfg0 := EstimatorSmallSamples.two_port_cfg0 in
  let grid := ResourceGrid 24 14 2 (replicate 672 unit_sample) in
  let cfg := Configuration kHz15 NORMAL 0 14 (dmrs_pattern cfg0) [0; 1] (scaling cfg0) in
  let pilots :=
    DmrsSymbolList (ReDims 6 1 2) [replicate 6 unit_sample; replicate 6 unit_sample] in
  fst (build_grid two_port_call in_cfg cfg0 fresh) = Ok (grid, 2, cfg) /\
  fst (build_pilots two_port_call (first_layer cfg0) 2 fresh) = Ok pilots /\
  exists data,
    outputs (snd (method_step two_port_call fresh)) !! 0%nat =
      Some (Some (MkArray [24; 14; 2] (PComplexSingle data))) /\
    length data = 672%nat /\
    take 336 data = replicate 336 (f32_of_unsigned 1, f32_zero) /\
    take 336 (drop 336 data) = replicate 336 (f32_of_unsigned 2, f32_zero).
Proof.
  intros lib in_cfg cfg0 grid cfg pilots.
  assert (Hgrid : fst (build_grid two_port_call in_cfg cfg0 fresh) = Ok (grid, 2, cfg))
    by (vm_compute; reflexivity).
  assert (Hpilots : fst (build_pilots two_port_call (first_layer cfg0) 2 fresh) = Ok pilots)
    by (vm_compute; reflexivity).
  split; [exact Hgrid |]. split; [exact Hpilots |].
  assert (Hcfg : read_configuration two_port_call = Ok (in_cfg, cfg0))
    by (vm_compute; reflexivity).
  destruct (estimate_output_shape (lib := lib) two_port_call fresh _ in_cfg cfg0
              (rx_grid 24 14 2) grid cfg pilots
              (ok_run _ _ _ two_port_call_returns) Hcfg eq_refl eq_refl eq_refl
              Hgrid Hpilots)
    as (data & Hout & Hlen & _ & Hslot).
  { vm_compute. repeat constructor. }
  exists data. split; [exact Hout |]. split; [exact Hlen |]. split.
  - apply (Hslot 0%nat). vm_compute. reflexivity.
  - apply (Hslot 1%nat). vm_compute. reflexivity.
Defined.

Lemma global_record_holds_port_means_witness :
  let lib := sample_library in
  exists records fields,
    outputs (snd (method_step two_port_call fresh)) !! 1%nat =
      Some (Some (MkArray [3; 1] (PStruct records))) /\
    length records = 3%nat /\
    last records = Some (MkStruct fields) /\
    lookup_field "SINR" fields = Some (double_scalar f64_nan).
Proof.
  intros lib.
  destruct (global_record_holds_port_means (lib := lib) two_port_call fresh _ _
              (ok_run _ _ _ two_port_call_returns) eq_refl ltac:(discriminate))
    as (grid & pilots & cfg & records & Hout & Hlen & _ & Hlast & Hsinr).
  exists records. eexists. split; [exact Hout | split; [exact Hlen | split; [exact Hlast |]]].
  exact Hsinr.
Defined.

(** C8, as stated, fails on the sample call: its RB mask has two entries of
    which one is set, and the first dimension of the estimate output is 24,
    two blocks of 12 subcarriers, not the 12 subcarriers of the one allocated
    block. *)
Lemma estimate_is_not_sized_by_allocated_blocks :
  let lib := sample_library in
  let run := method_step two_port_call fresh in
  let allocated_blocks :=
    match read_configuration two_port_call with
    | Ok (_, cfg0) => count (rb_mask (first_layer cfg0))
    | Fail _ => 0
    end in
  let first_dimension :=
    match outputs (snd run) !! 0%nat with
    | Some (Some ch_est_out) => dim 0 (getDimensions ch_est_out)
    | _ => 0
    end in
  fst run = Ok tt /\
  allocated_blocks = 1 /\
  first_dimension = 24 /\
  first_dimension <> allocated_blocks * NRE.
Proof.
  intros lib run allocated_blocks first_dimension.
  split; [exact two_port_call_returns |].
  assert (Ha : allocated_blocks = 1) by (vm_compute; reflexivity).
  assert (Hd : first_dimension = 24) by (vm_compute; reflexivity).
  split; [exact Ha | split; [exact Hd |]].
  rewrite Ha, Hd. discriminate.
Qed.

End EstimatorRuns.

(* ===================================================================== *)
(** * Further properties of the bindings *)
(* ===================================================================== *)

Lemma ArrayType_eqb_refl (a : ArrayType) : ArrayType_eqb a a = true.
Proof. destruct a; reflexivity. Qed.

Lemma ArrayType_eqb_neq (a b : ArrayType) : a <> b -> ArrayType_eqb a b = false.
Proof.
  intros H. destruct (ArrayType_eqb a b) eqn:E; [| reflexivity].
  apply ArrayType_eqb_eq in E. contradiction.
Qed.

(** Indexing the first element of an array without elements is refused. *)
Lemma linear_index_of_nothing dims :
  fold_right N.mul 1 dims = 0 ->
  linear_index dims [0] = Fail (MatlabException InvalidArrayIndexException).
Proof.
  destruct dims as [|d rest]; simpl; intros H; [discriminate H |].
  destruct (N.ltb_spec 0 d) as [Hd | Hd]; [| reflexivity].
  assert (Hrest : fold_right N.mul 1 rest = 0) by nia.
  assert (Hall : forallb (N.eqb 1) rest = false).
  { clear -Hrest. induction rest as [|x rest IH]; cbn [forallb fold_right] in *;
      [discriminate Hrest |].
    destruct (N.eqb_spec 1 x) as [<- | Hx]; [| reflexivity].
    cbn [andb]. apply IH. lia. }
  destruct rest as [|x rest']; [discriminate Hall |].
  cbn [linear_index]. rewrite Hall. reflexivity.
Qed.

(** ** The PRACH detector binding *)

Section PrachFurther.
Import Prach PrachDetectorMex PrachVocabulary.
Context {lib : Library}.

(** Everything a passed argument check says. *)
Lemma prach_check_inv inputs (st : mex_state event) :
  fst (check_step_outputs_inputs inputs st) = Ok tt ->
  exists in0 in1 in2,
    inputs = [in0; in1; in2] /\
    getType in1 = COMPLEX_DOUBLE /\ getType in2 = STRUCT /\
    getNumberOfElements in2 <= 1 /\ length (outputs st) = 1%nat.
Proof.
  unfold check_step_outputs_inputs, mex_abort, fail, nargout. intros H.
  destruct inputs as [|in0 [|in1 [|in2 [|in3 rest]]]]; try discriminate H.
  simpl in H. rewrite bind_run, lift_run in H. simpl in H.
  destruct (ArrayType_eqb (getType in1) COMPLEX_DOUBLE) eqn:Hty1; simpl in H; [| discriminate H].
  rewrite bind_run, lift_run in H. simpl in H.
  destruct (ArrayType_eqb (getType in2) STRUCT) eqn:Hty2; simpl in H; [| discriminate H].
  destruct (N.ltb_spec 1 (getNumberOfElements in2)) as [Hn | Hn]; simpl in H; [discriminate H |].
  rewrite bind_run in H.
  destruct (Nat.eqb (length (outputs st)) 1) eqn:Hout; simpl in H; [| discriminate H].
  exists in0, in1, in2. repeat split.
  - apply ArrayType_eqb_eq, Hty1.
  - apply ArrayType_eqb_eq, Hty2.
  - exact Hn.
  - apply Nat.eqb_eq, Hout.
Qed.

(** X1: the argument check of the PRACH binding passes exactly for three
    inputs of which the second is a complex double array and the third a
    structure array of at most one element, with one output; every
    rejection is a [mex_abort] without arguments, and the check leaves the
    call state as it is. *)
Theorem prach_check_passes_iff inputs (st : mex_state event) :
  (fst (check_step_outputs_inputs inputs st) = Ok tt <->
   exists in0 in1 in2,
     inputs = [in0; in1; in2] /\
     getType in1 = COMPLEX_DOUBLE /\ getType in2 = STRUCT /\
     getNumberOfElements in2 <= 1 /\ length (outputs st) = 1%nat) /\
  (forall f, fst (check_step_outputs_inputs inputs st) = Fail f -> exists msg, f = MexAbort msg []) /\
  snd (check_step_outputs_inputs inputs st) = st.
Proof.
  split; [split; [apply prach_check_inv |] | split; [| apply check_state]].
  - intros (in0 & in1 & in2 & -> & Hty1 & Hty2 & Hn & Hout).
    unfold check_step_outputs_inputs, nargout. simpl.
    rewrite bind_run, lift_run. simpl. rewrite Hty1. simpl.
    rewrite bind_run, lift_run. simpl. rewrite Hty2. simpl.
    apply N.ltb_ge in Hn. rewrite Hn. rewrite bind_run. rewrite Hout. reflexivity.
  - intros f. unfold check_step_outputs_inputs, mex_abort, fail, nargout.
    destruct inputs as [|in0 [|in1 [|in2 [|in3 rest]]]]; simpl;
      try (intros H; injection H as <-; eexists; reflexivity).
    rewrite bind_run, lift_run. simpl.
    destruct (ArrayType_eqb (getType in1) COMPLEX_DOUBLE); simpl;
      [| intros H; injection H as <-; eexists; reflexivity].
    rewrite bind_run, lift_run. simpl.
    destruct (negb (ArrayType_eqb (getType in2) STRUCT) || N.ltb 1 (getNumberOfElements in2));
      [intros H; injection H as <-; eexists; reflexivity |].
    rewrite bind_run.
    destruct (Nat.eqb (length (outputs st)) 1); simpl; intros H;
      [discriminate H | injection H as <-; eexists; reflexivity].
Qed.

Lemma struct_data a : getType a = STRUCT -> exists l, as_struct_array a = Ok l.
Proof.
  unfold getType, as_struct_array.
  destruct (payload a); intros H; try discriminate H. eexists; reflexivity.
Qed.

Lemma complex_double_data a :
  getType a = COMPLEX_DOUBLE -> exists data, as_complex_double_array a = Ok data.
Proof.
  unfold getType, as_complex_double_array.
  destruct (payload a); intros H; try discriminate H. eexists; reflexivity.
Qed.

Lemma struct_element_of_nothing a :
  getType a = STRUCT -> getNumberOfElements a = 0 ->
  struct_element a 0 = Fail (MatlabException InvalidArrayIndexException).
Proof.
  intros Hty Hn. unfold struct_element.
  destruct (struct_data _ Hty) as [l ->]. simpl. unfold element.
  rewrite (linear_index_of_nothing _ Hn). reflexivity.
Qed.

Lemma method_step_restricted_set_failure inputs (st : mex_state event) f :
  fst (check_step_outputs_inputs inputs st) = Ok tt ->
  read_restricted_set inputs = Fail f ->
  method_step inputs st = (Fail f, st).
Proof.
  intros Hcheck Hrs. unfold method_step.
  rewrite (bind_ok _ _ _ _ _ (check_run _ _ Hcheck)).
  rewrite bind_run, lift_run, Hrs. reflexivity.
Qed.

(** X2: a configuration structure array without elements passes the
    argument check, which only refuses more than one element; the call
    then stops at [in_struct_array[0]] with the index exception of the
    MATLAB Data API, the call state as it was. *)
Theorem prach_empty_config_is_an_index_error inputs (st : mex_state event) in2 :
  fst (check_step_outputs_inputs inputs st) = Ok tt ->
  arg inputs 2 = Ok in2 ->
  getNumberOfElements in2 = 0 ->
  method_step inputs st = (Fail (MatlabException InvalidArrayIndexException), st).
Proof.
  intros Hcheck Hin2 Hn.
  destruct (prach_check_inv _ _ Hcheck) as (in0 & in1 & in2' & -> & _ & Hty2 & _ & _).
  injection Hin2 as <-.
  apply (method_step_restricted_set_failure _ _ _ Hcheck).
  unfold read_restricted_set. simpl.
  rewrite (struct_element_of_nothing _ Hty2 Hn). reflexivity.
Qed.

(** X3: a restricted-set name that is none of the three names the
    conversion knows ends the call in [srsran_terminate] with that name,
    before the buffer is looked at: nothing is printed, no detector runs,
    no output is written. *)
Theorem prach_unknown_restricted_set_terminates inputs (st : mex_state event)
    in2 in_det_cfg restricted_set_field name :
  fst (check_step_outputs_inputs inputs st) = Ok tt ->
  arg inputs 2 = Ok in2 ->
  struct_element in2 0 = Ok in_det_cfg ->
  field in_det_cfg "restricted_set" = Ok restricted_set_field ->
  as_char_array restricted_set_field = Ok name ->
  ~ In name restricted_set_names ->
  method_step inputs st = (Fail (Terminate "Unknown restricted set {}." [ArgStr name]), st).
Proof.
  intros Hcheck Hin2 Hcfg Hfield Hname Hnot.
  apply (method_step_restricted_set_failure _ _ _ Hcheck).
  unfold read_restricted_set.
  rewrite Hin2. cbn [mbind result_bind_inst result_bind].
  rewrite Hcfg. cbn [mbind result_bind_inst result_bind].
  rewrite Hfield. cbn [mbind result_bind_inst result_bind].
  rewrite Hname. cbn [mbind result_bind_inst result_bind].
  rewrite (restricted_set_unknown _ Hnot). reflexivity.
Qed.

(** The unrestricted branch up to the creation of the buffer. *)
Lemma prepare_from_dimensions inputs (st : mex_state event) in_det_cfg rs cfg in1 data :
  read_detector_config in_det_cfg rs = Ok cfg ->
  arg inputs 1 = Ok in1 ->
  as_complex_double_array in1 = Ok data ->
  length (getDimensions in1) = 2%nat ->
  let dims := getDimensions in1 in
  prepare inputs in_det_cfg rs st =
  (create_buffer dims (nof_samples_of dims) (nof_symbols_of dims) ≫= fun buffer =>
     fill_buffer in1 data (nof_samples_of dims) (nof_symbols_of dims) buffer ≫= fun b' =>
       ret (b', cfg))
    (MexState (outputs st) (trace st ++ [dimensions_line dims])).
Proof.
  intros Hcfg Hin1 Hdata Hdims dims. unfold prepare.
  rewrite bind_run, lift_run, Hcfg. rewrite bind_run, lift_run, Hin1.
  rewrite bind_run, lift_run, Hdata. rewrite Hdims. simpl. rewrite bind_run. reflexivity.
Qed.

(** X4: on the unrestricted set a buffer whose number of dimensions is not
    two stops the call with the [mex_abort] "Invalid number of dimensions",
    which carries that number; the call state is as it was, the dimensions
    are not printed. *)
Theorem prach_buffer_must_be_two_dimensional inputs (st : mex_state event)
    in_det_cfg cfg in1 :
  fst (check_step_outputs_inputs inputs st) = Ok tt ->
  read_restricted_set inputs = Ok (in_det_cfg, UNRESTRICTED) ->
  read_detector_config in_det_cfg UNRESTRICTED = Ok cfg ->
  arg inputs 1 = Ok in1 ->
  length (getDimensions in1) <> 2%nat ->
  method_step inputs st =
  (Fail (MexAbort "Invalid number of dimensions (i.e., {})."
           [ArgNum (N.of_nat (length (getDimensions in1)))]), st).
Proof.
  intros Hcheck Hrs Hcfg Hin1 Hdims.
  destruct (prach_check_inv _ _ Hcheck) as (in0 & in1' & in2 & -> & Hty1 & _).
  injection Hin1 as <-.
  destruct (complex_double_data _ Hty1) as [data Hdata].
  rewrite (method_step_unrestricted _ _ _ Hcheck Hrs).
  apply bind_fail. unfold prepare.
  rewrite bind_run, lift_run, Hcfg. rewrite bind_run, lift_run. simpl.
  rewrite bind_run, lift_run, Hdata.
  apply Nat.eqb_neq in Hdims. rewrite Hdims. reflexivity.
Qed.

(** X5: when the factory of the selected path returns no buffer the call
    stops with the [mex_abort] "Cannot create srsran PRACH buffer long.",
    on the short path too, having printed the dimensions only. *)
Theorem prach_missing_buffer_aborts inputs (st : mex_state event) in_det_cfg cfg in1 :
  fst (check_step_outputs_inputs inputs st) = Ok tt ->
  read_restricted_set inputs = Ok (in_det_cfg, UNRESTRICTED) ->
  read_detector_config in_det_cfg UNRESTRICTED = Ok cfg ->
  arg inputs 1 = Ok in1 ->
  length (getDimensions in1) = 2%nat ->
  let dims := getDimensions in1 in
  (nof_samples_of dims = LONG_SEQUENCE_LENGTH /\
   create_prach_buffer_long (nof_symbols_of dims) = None) \/
  (nof_samples_of dims <> LONG_SEQUENCE_LENGTH /\
   nof_samples_of dims = SHORT_SEQUENCE_LENGTH /\
   create_prach_buffer_short 1 1 = None) ->
  method_step inputs st =
  (Fail (MexAbort "Cannot create srsran PRACH buffer long." []),
   MexState (outputs st) (trace st ++ [dimensions_line dims])).
Proof.
  intros Hcheck Hrs Hcfg Hin1 Hdims dims Hnone.
  destruct (prach_check_inv _ _ Hcheck) as (in0 & in1' & in2 & -> & Hty1 & _).
  injection Hin1 as <-.
  destruct (complex_double_data _ Hty1) as [data Hdata].
  rewrite (method_step_unrestricted _ _ _ Hcheck Hrs).
  apply bind_fail.
  rewrite (prepare_from_dimensions [in0; in1'; in2] st _ _ _ in1' _ Hcfg eq_refl Hdata Hdims).
  apply bind_fail. unfold create_buffer, select_buffer. fold dims.
  destruct Hnone as [[Hlong Hnull] | (Hlong & Hshort & Hnull)].
  - apply N.eqb_eq in Hlong. rewrite Hlong, bind_run. unfold ret. rewrite Hnull. reflexivity.
  - apply N.eqb_neq in Hlong. apply N.eqb_eq in Hshort. rewrite Hlong, Hshort, bind_run.
    unfold ret. rewrite Hnull. reflexivity.
Qed.

(** *** What a call prints and runs *)

Lemma op_ret {A} (a : A) : only_prints (ret a).
Proof. intros st. exists []. rewrite app_nil_r. split; [reflexivity | constructor]. Qed.

Lemma op_fail {A} f : only_prints (fail (A := A) f).
Proof. intros st. exists []. rewrite app_nil_r. split; [reflexivity | constructor]. Qed.

Lemma op_lift {A} (r : result A) : only_prints (lift r).
Proof. intros st. exists []. rewrite app_nil_r. split; [reflexivity | constructor]. Qed.

Lemma op_print fmt args : only_prints (emit (Print fmt args)).
Proof. intros st. exists [Print fmt args]. split; [reflexivity | repeat constructor]. Qed.

Lemma op_bind {A B} (m : M event A) (k : A -> M event B) :
  only_prints m -> (forall a, only_prints (k a)) -> only_prints (m ≫= k).
Proof.
  intros Hm Hk st. rewrite bind_run. destruct (Hm st) as (p1 & Ht1 & Hp1).
  destruct (m st) as [[a|f] st1]; simpl in *.
  - destruct (Hk a st1) as (p2 & Ht2 & Hp2). exists (p1 ++ p2).
    rewrite Ht2, Ht1, app_assoc. split; [reflexivity | apply Forall_app; split; assumption].
  - exists p1. split; assumption.
Qed.

Lemma op_for_loop {S} (body : N -> S -> M event S) n :
  (forall j t, only_prints (body j t)) -> forall i s, only_prints (for_loop n i body s).
Proof.
  intros Hbody. induction n as [|n IH]; intros i s.
  - apply op_ret.
  - rewrite for_loop_S. apply op_bind; [apply Hbody | intros a; apply IH].
Qed.

Lemma only_prints_prepare inputs in_det_cfg rs : only_prints (prepare inputs in_det_cfg rs).
Proof.
  unfold prepare, create_buffer, select_buffer, fill_buffer, fill_symbol, fill_sample, mex_abort.
  repeat first
    [ apply op_ret | apply op_fail | apply op_lift | apply op_print
    | apply op_for_loop; intros | apply op_bind; [| intros ?] | case_match ].
Qed.

(** The configuration the detector is given. *)
Lemma prepared_configuration inputs in_det_cfg rs (st st1 : mex_state event) buffer cfg :
  prepare inputs in_det_cfg rs st = (Ok (buffer, cfg), st1) ->
  restricted_set cfg = rs /\ start_preamble_index cfg = 0 /\ nof_preamble_indices cfg = 64.
Proof.
  unfold prepare. intros H.
  apply bind_ok_inv in H as (c & s0 & Hc & H).
  apply lift_ok_inv in Hc as [Hc _].
  apply bind_ok_inv in H as (in1 & s1 & _ & H).
  apply bind_ok_inv in H as (data & s2 & _ & H).
  destruct (negb (Nat.eqb (length (getDimensions in1)) 2)); [discriminate H |].
  apply bind_ok_inv in H as ([] & s3 & _ & H).
  apply bind_ok_inv in H as (b0 & s4 & _ & H).
  apply bind_ok_inv in H as (b1 & s5 & _ & H).
  injection H as _ <- _.
  unfold read_detector_config in Hc.
  apply result_bind_ok_inv in Hc as (x1 & _ & Hc).
  apply result_bind_ok_inv in Hc as (x2 & _ & Hc).
  apply result_bind_ok_inv in Hc as (x3 & _ & Hc).
  apply result_bind_ok_inv in Hc as (x4 & _ & Hc).
  apply result_bind_ok_inv in Hc as (x5 & _ & Hc).
  apply result_bind_ok_inv in Hc as (x6 & _ & Hc).
  injection Hc as <-. repeat split.
Qed.

(** X6: whatever the arguments and however the call ends, what it adds to
    the trace is a run of printed lines followed by at most one run of the
    detector, which is then the last thing the call did; the detector is
    only ever given the unrestricted set and the preamble range that starts
    at 0 and has 64 indices. *)
Theorem detector_runs_at_most_once inputs (st : mex_state event) :
  exists prints tail,
    trace (snd (method_step inputs st)) = trace st ++ prints ++ tail /\
    Forall (fun e => is_print e = true) prints /\
    (tail = [] \/
     exists buffer cfg,
       tail = [Detect buffer cfg] /\
       restricted_set cfg = UNRESTRICTED /\
       start_preamble_index cfg = 0 /\ nof_preamble_indices cfg = 64).
Proof.
  unfold method_step. rewrite bind_run.
  pose proof (check_state inputs st) as Hst.
  destruct (check_step_outputs_inputs inputs st) as [[[]|f] st0]; simpl in Hst; subst st0.
  2:{ exists [], []. simpl. rewrite app_nil_r. repeat split; [constructor | left; reflexivity]. }
  rewrite bind_run, lift_run.
  destruct (read_restricted_set inputs) as [[in_det_cfg rs]|f].
  2:{ exists [], []. simpl. rewrite app_nil_r. repeat split; [constructor | left; reflexivity]. }
  destruct (restricted_set_eqb rs UNRESTRICTED) eqn:Hrs.
  2:{ exists [Print SKIP_MESSAGE []], []. simpl.
      repeat split; [repeat constructor | left; reflexivity]. }
  assert (rs = UNRESTRICTED) as -> by (destruct rs; first [reflexivity | discriminate Hrs]).
  rewrite bind_run.
  destruct (only_prints_prepare inputs in_det_cfg UNRESTRICTED st) as (prints & Htrace & Hprints).
  destruct (prepare inputs in_det_cfg UNRESTRICTED st) as [[[buffer cfg]|f] st1] eqn:Hprep;
    simpl in Htrace.
  2:{ exists prints, []. simpl. rewrite app_nil_r. repeat split; [assumption.. | left; reflexivity]. }
  exists prints, [Detect buffer cfg].
  split; [| split; [exact Hprints | right; exists buffer, cfg; split; [reflexivity |]]].
  - unfold run_detector, report. rewrite !bind_run. simpl.
    destruct (N.eqb _ 0); simpl; [rewrite Htrace, app_assoc; reflexivity |].
    destruct (last (preambles (detect buffer cfg))); simpl;
      [| rewrite Htrace, app_assoc; reflexivity].
    unfold set_output. simpl. case_match; simpl; rewrite Htrace, app_assoc; reflexivity.
  - exact (prepared_configuration _ _ _ _ _ _ _ Hprep).
Qed.

(** *** What the fill loop writes *)

Lemma same_frame_refl b : same_frame b b.
Proof. repeat split. Qed.

Lemma same_frame_trans b1 b2 b3 : same_frame b1 b2 -> same_frame b2 b3 -> same_frame b1 b3.
Proof.
  unfold same_frame. intros (? & ? & ? & ? & ? & ?) (? & ? & ? & ? & ? & ?).
  repeat split; congruence.
Qed.

Lemma span_write_inv b view i v b' :
  span_write b view i v = Ok b' ->
  i < span_size view /\ (N.to_nat (span_offset view + i) < length (samples b))%nat /\
  same_frame b b' /\ samples b' = <[N.to_nat (span_offset view + i) := v]> (samples b).
Proof.
  unfold span_write. intros H.
  destruct (N.ltb i (span_size view)) eqn:Hlt; [| discriminate H].
  destruct (bool_decide _) eqn:Hin; [| discriminate H].
  apply N.ltb_lt in Hlt. apply bool_decide_eq_true in Hin.
  injection H as <-. repeat split; try assumption. simpl. apply length_insert.
Qed.

Lemma get_symbol_inv b i view :
  get_symbol b 0 0 0 i = Ok view ->
  i < max_nof_symbols b /\ view = Span (sequence_length b * i) (sequence_length b).
Proof.
  unfold get_symbol. intros H.
  destruct (N.ltb i (max_nof_symbols b)) eqn:Hlt;
    [| rewrite andb_false_r in H; discriminate H].
  apply N.ltb_lt in Hlt. split; [exact Hlt |].
  case_match; [| discriminate H]. injection H as <-.
  f_equal. lia.
Qed.

(** The sample loop on one view: it writes the converted elements
    [in_cft_array[i_symbol][j]] at offsets [j] of the view, for the [j] it
    runs over, and nothing else. *)
Lemma fill_sample_loop in_cft_array data view i_symbol n :
  forall j0 b b' (st st' : mex_state event),
    for_loop n j0 (fill_sample in_cft_array data view i_symbol) b st = (Ok b', st') ->
    same_frame b b' /\
    (n = 0%nat \/ j0 + N.of_nat n <= span_size view) /\
    (forall j, j0 <= j < j0 + N.of_nat n ->
       exists z, element (getDimensions in_cft_array) data [i_symbol; j] = Ok z /\
                 samples b' !! N.to_nat (span_offset view + j) = Some (cf_of_cd z)) /\
    (forall k, k < span_offset view + j0 \/ span_offset view + j0 + N.of_nat n <= k ->
       samples b' !! N.to_nat k = samples b !! N.to_nat k).
Proof.
  induction n as [|n IH]; intros j0 b b' st st' Hrun.
  - injection Hrun as <- _.
    split; [apply same_frame_refl |]. split; [left; reflexivity |].
    split; [intros j Hj; lia | reflexivity].
  - rewrite for_loop_S in Hrun.
    apply bind_ok_inv in Hrun as (b1 & st1 & Hsample & Hrest).
    unfold fill_sample in Hsample.
    apply bind_ok_inv in Hsample as (z & st2 & Hz & Hwrite).
    apply lift_ok_inv in Hz as [Hz _]. apply lift_ok_inv in Hwrite as [Hwrite _].
    apply span_write_inv in Hwrite as (Hlt & Hin & Hframe1 & Hsamples).
    apply IH in Hrest as (Hframe & Hroom & Hset & Hkeep).
    split; [exact (same_frame_trans _ _ _ Hframe1 Hframe) |].
    split; [right; destruct Hroom as [-> | Hroom]; lia |].
    split.
    + intros j Hj. destruct (N.eq_dec j j0) as [-> | Hne].
      * exists z. split; [exact Hz |].
        rewrite Hkeep by lia. rewrite Hsamples. apply list_lookup_insert_eq. exact Hin.
      * apply Hset. lia.
    + intros k Hk. rewrite Hkeep by lia. rewrite Hsamples.
      apply list_lookup_insert_ne. lia.
Qed.

(** The symbol loop: symbol [i] of the buffer receives row [i] of the
    input, and the samples of other symbols, or past [nof_samples] in a
    symbol, stay as they were. *)
Lemma fill_symbol_loop in_cft_array data nof_samples n :
  forall i0 b b' (st st' : mex_state event),
    for_loop n i0 (fill_symbol in_cft_array data nof_samples) b st = (Ok b', st') ->
    same_frame b b' /\
    (n = 0%nat \/
     i0 + N.of_nat n <= max_nof_symbols b /\
     (nof_samples = 0 \/ nof_samples <= sequence_length b)) /\
    (forall i j, i0 <= i < i0 + N.of_nat n -> j < nof_samples ->
       exists z, element (getDimensions in_cft_array) data [i; j] = Ok z /\
                 samples b' !! sample_position b i j = Some (cf_of_cd z)) /\
    (forall k, (forall i, i0 <= i < i0 + N.of_nat n ->
                  k < sequence_length b * i \/ sequence_length b * i + nof_samples <= k) ->
       samples b' !! N.to_nat k = samples b !! N.to_nat k).
Proof.
  induction n as [|n IH]; intros i0 b b' st st' Hrun.
  - injection Hrun as <- _.
    split; [apply same_frame_refl |]. split; [left; reflexivity |].
    split; [intros i j Hi; lia | reflexivity].
  - rewrite for_loop_S in Hrun.
    apply bind_ok_inv in Hrun as (b1 & st1 & Hsymbol & Hrest).
    unfold fill_symbol in Hsymbol.
    apply bind_ok_inv in Hsymbol as ([] & st2 & _ & Hsymbol).
    apply bind_ok_inv in Hsymbol as (view & st3 & Hview & Hsamples).
    apply lift_ok_inv in Hview as [Hview _].
    apply get_symbol_inv in Hview as [Hlt ->].
    apply fill_sample_loop in Hsamples as (Hframe1 & Hroom1 & Hset1 & Hkeep1).
    cbn [span_offset span_size] in *.
    apply IH in Hrest as (Hframe & Hroom & Hset & Hkeep).
    pose proof Hframe1 as (_ & _ & _ & Hsym & Hlen & _).
    rewrite Hsym, Hlen in *. unfold sample_position in *. rewrite Hlen in *.
    assert (Hfit : nof_samples = 0 \/ nof_samples <= sequence_length b).
    { destruct Hroom1 as [Hz | Hle]; lia. }
    split; [exact (same_frame_trans _ _ _ Hframe1 Hframe) |].
    split; [right; split; [destruct Hroom as [-> | [Hroom _]]; lia | exact Hfit] |].
    split.
    + intros i j Hi Hj. destruct (N.eq_dec i i0) as [-> | Hne].
      * destruct (Hset1 j ltac:(lia)) as (z & Hz & Hat). exists z. split; [exact Hz |].
        rewrite Hkeep; [exact Hat |].
        intros i Hi'. left.
        assert (sequence_length b * (i0 + 1) <= sequence_length b * i)
          by (apply N.mul_le_mono_l; lia).
        lia.
      * apply Hset; lia.
    + intros k Hk. rewrite Hkeep by (intros i Hi; apply Hk; lia).
      apply Hkeep1. specialize (Hk i0 ltac:(lia)). lia.
Qed.

Lemma linear_index_two d0 d1 i j r :
  linear_index [d0; d1] [i; j] = Ok r -> i < d0 /\ j < d1 /\ r = i + d0 * j.
Proof.
  cbn [linear_index]. intros H.
  destruct (N.ltb_spec i d0) as [Hi | _]; [| discriminate H].
  destruct (N.ltb_spec j d1) as [Hj | _]; [| discriminate H].
  cbn in H. injection H as <-. repeat split; [assumption.. | lia].
Qed.

(** X7: when the fill loop comes to its end, the buffer has the frame it
    had, symbol [i] of the buffer holds in its first [nof_samples] samples
    the elements [in_cft_array[i][0..nof_samples)] of the input (row [i],
    not column [i]) narrowed to single precision, for every
    [i < nof_symbols], and every other sample of the buffer is as it was. *)
Theorem fill_buffer_copies_rows in_cft_array data nof_samples nof_symbols b b'
    (st st' : mex_state event) :
  fill_buffer in_cft_array data nof_samples nof_symbols b st = (Ok b', st') ->
  same_frame b b' /\
  (forall i j, i < nof_symbols -> j < nof_samples ->
     exists z, element (getDimensions in_cft_array) data [i; j] = Ok z /\
               samples b' !! sample_position b i j = Some (cf_of_cd z)) /\
  (forall k, (forall i, i < nof_symbols ->
                k < sequence_length b * i \/ sequence_length b * i + nof_samples <= k) ->
     samples b' !! N.to_nat k = samples b !! N.to_nat k).
Proof.
  unfold fill_buffer. intros Hrun.
  apply fill_symbol_loop in Hrun as (Hframe & _ & Hset & Hkeep).
  split; [exact Hframe |]. split.
  - intros i j Hi Hj. apply Hset; lia.
  - intros k Hk. apply Hkeep. intros i Hi. apply Hk. lia.
Qed.

(** X8: the unrestricted branch gets past the fill loop with a non-empty
    two-dimensional buffer (dimensions below 2^32) only if the buffer is
    square: the loop reads [in_cft_array[i_symbol][i_sample]] with
    [i_symbol] below the second dimension and [i_sample] below the first,
    so each dimension has to be at least the other.  The common dimension
    is also at most the number of symbols and the sequence length of the
    buffer the detector is given. *)
Theorem detector_input_is_square inputs in_det_cfg rs (st st1 : mex_state event)
    buffer cfg in1 d0 d1 :
  prepare inputs in_det_cfg rs st = (Ok (buffer, cfg), st1) ->
  arg inputs 1 = Ok in1 ->
  getDimensions in1 = [d0; d1] ->
  0 < d0 < UNSIGNED_MODULUS -> 0 < d1 < UNSIGNED_MODULUS ->
  d0 = d1 /\ d1 <= max_nof_symbols buffer /\ d0 <= sequence_length buffer.
Proof.
  intros Hprep Hin1 Hdims Hd0 Hd1.
  unfold prepare in Hprep.
  apply bind_ok_inv in Hprep as (c & s0 & _ & H).
  apply bind_ok_inv in H as (in1' & s1 & Hin & H).
  apply lift_ok_inv in Hin as [Hin _]. rewrite Hin1 in Hin. injection Hin as <-.
  apply bind_ok_inv in H as (data & s2 & _ & H).
  rewrite Hdims in H. cbn [length Nat.eqb negb] in H.
  apply bind_ok_inv in H as ([] & s3 & _ & H).
  apply bind_ok_inv in H as (b0 & s4 & _ & H).
  apply bind_ok_inv in H as (b1 & s5 & Hfill & H).
  injection H as <- _ _.
  unfold nof_samples_of, nof_symbols_of in Hfill.
  change (dim 0 [d0; d1]) with d0 in Hfill. change (dim 1 [d0; d1]) with d1 in Hfill.
  rewrite (to_unsigned_small d0), (to_unsigned_small d1) in Hfill by lia.
  unfold fill_buffer in Hfill.
  apply fill_symbol_loop in Hfill as (Hframe & Hroom & Hset & _).
  destruct Hframe as (_ & _ & _ & Hsym & Hlen & _).
  destruct (Hset (d1 - 1) (d0 - 1) ltac:(lia) ltac:(lia)) as (z & Hz & _).
  rewrite Hdims in Hz. unfold element in Hz.
  apply result_bind_ok_inv in Hz as (r & Hr & _).
  apply linear_index_two in Hr as (Hrow & Hcol & _).
  rewrite Hsym, Hlen.
  destruct Hroom as [Hz0 | [Hroom Hfit]]; [lia |].
  split; [lia |]. split; lia.
Qed.

(** X9: a call that fails, for whatever reason, leaves the output slots as
    they were; the outputs change only in a call that returns normally. *)
Theorem prach_failure_assigns_nothing inputs (st : mex_state event) :
  is_ok (fst (method_step inputs st)) = false ->
  outputs (snd (method_step inputs st)) = outputs st.
Proof.
  unfold method_step. rewrite bind_run.
  pose proof (check_state inputs st) as Hst.
  destruct (check_step_outputs_inputs inputs st) as [[[]|f] st0]; simpl in Hst; subst st0;
    [| reflexivity].
  rewrite bind_run, lift_run.
  destruct (read_restricted_set inputs) as [[in_det_cfg rs]|f]; [| reflexivity].
  destruct (restricted_set_eqb rs UNRESTRICTED); [| simpl; intros Hbad; discriminate Hbad].
  rewrite bind_run. pose proof (keeps_prepare inputs in_det_cfg rs st) as Hkeep.
  destruct (prepare inputs in_det_cfg rs st) as [[[buffer cfg]|f] st1]; simpl in Hkeep;
    [| intros _; exact Hkeep].
  unfold run_detector, report. rewrite !bind_run. simpl.
  destruct (N.eqb _ 0); simpl; [intros _; exact Hkeep |].
  destruct (last (preambles (detect buffer cfg))); simpl; [| intros _; exact Hkeep].
  unfold set_output. simpl. case_match; simpl; [simpl; intros Hbad; discriminate Hbad | intros _; exact Hkeep].
Qed.

End PrachFurther.

(** *** The further properties on sample calls *)

Section PrachFurtherRuns.
Import Prach PrachDetectorMex PrachSamples PrachSmallSamples PrachVocabulary.

Lemma prach_check_passes_iff_witness :
  let inputs := call (zero_symbols 100 7) (config_struct "UnrestrictedSet" "0") in
  fst (check_step_outputs_inputs inputs fresh) = Ok tt.
Proof.
  intros inputs.
  apply (proj2 (proj1 (prach_check_passes_iff inputs fresh))).
  exists step_tag, (zero_symbols 100 7), (config_struct "UnrestrictedSet" "0").
  repeat split. vm_compute. discriminate.
Defined.

Lemma prach_empty_config_is_an_index_error_witness :
  let lib := sample_library silent_detector in
  let inputs := call (zero_symbols 839 0) empty_config in
  fst (check_step_outputs_inputs inputs fresh) = Ok tt /\
  method_step inputs fresh = (Fail (MatlabException InvalidArrayIndexException), fresh).
Proof.
  intros lib inputs. split; [reflexivity |].
  apply (prach_empty_config_is_an_index_error (lib := lib) inputs fresh empty_config);
    reflexivity.
Defined.

Lemma prach_unknown_restricted_set_terminates_witness :
  let lib := sample_library silent_detector in
  let inputs := call (zero_symbols 839 0) (config_struct "RestrictedSetTypeC" "0") in
  fst (check_step_outputs_inputs inputs fresh) = Ok tt /\
  method_step inputs fresh =
  (Fail (Terminate "Unknown restricted set {}." [ArgStr "RestrictedSetTypeC"]), fresh).
Proof.
  intros lib inputs. split; [reflexivity |].
  eapply (prach_unknown_restricted_set_terminates (lib := lib) inputs fresh);
    [reflexivity | reflexivity | reflexivity | reflexivity | reflexivity |].
  not_listed.
Defined.

Lemma prach_buffer_must_be_two_dimensional_witness :
  let lib := sample_library silent_detector in
  let inputs := call cube_symbols (config_struct "UnrestrictedSet" "0") in
  fst (check_step_outputs_inputs inputs fresh) = Ok tt /\
  method_step inputs fresh =
  (Fail (MexAbort "Invalid number of dimensions (i.e., {})." [ArgNum 3]), fresh).
Proof.
  intros lib inputs. split; [reflexivity |].
  eapply (prach_buffer_must_be_two_dimensional (lib := lib) inputs fresh _ _ cube_symbols);
    [reflexivity | reflexivity | reflexivity | reflexivity |].
  simpl. lia.
Defined.

Lemma prach_missing_buffer_aborts_witness :
  let lib := no_buffer_library in
  let inputs := call (zero_symbols 839 2) (config_struct "UnrestrictedSet" "0") in
  fst (check_step_outputs_inputs inputs fresh) = Ok tt /\
  method_step inputs fresh =
  (Fail (MexAbort "Cannot create srsran PRACH buffer long." []),
   MexState [None] [dimensions_line [839; 2]]).
Proof.
  intros lib inputs. split; [reflexivity |].
  eapply (prach_missing_buffer_aborts (lib := lib) inputs fresh _ _ (zero_symbols 839 2));
    [reflexivity | reflexivity | reflexivity | reflexivity | reflexivity |].
  left. split; reflexivity.
Defined.

Lemma fill_buffer_copies_rows_witness :
  let data := [real_sample 1; real_sample 2; real_sample 3; real_sample 4] in
  let b := zeroed_buffer 1 1 1 2 2 in
  let b' := PrachBuffer 1 1 1 2 2
              (map cf_of_cd [real_sample 1; real_sample 3; real_sample 2; real_sample 4]) in
  let st' := MexState [None] [symbol_line 0; symbol_line 1] in
  fill_buffer square_symbols data 2 2 b fresh = (Ok b', st') /\
  same_frame b b' /\
  (forall i j, i < 2 -> j < 2 ->
     exists z, element [2; 2] data [i; j] = Ok z /\
               samples b' !! sample_position b i j = Some (cf_of_cd z)) /\
  (forall k, (forall i, i < 2 -> k < 2 * i \/ 2 * i + 2 <= k) ->
     samples b' !! N.to_nat k = samples b !! N.to_nat k).
Proof.
  intros data b b' st'.
  assert (Hrun : fill_buffer square_symbols data 2 2 b fresh = (Ok b', st'))
    by (vm_compute; reflexivity).
  split; [exact Hrun |].
  exact (fill_buffer_copies_rows square_symbols data 2 2 b b' fresh st' Hrun).
Defined.

Lemma detector_input_is_square_witness :
  let lib := small_library in
  let inputs := call square_symbols (config_struct "UnrestrictedSet" "0") in
  let in_det_cfg := config_element "UnrestrictedSet" "0" in
  let buffer := PrachBuffer 1 1 2 4 2
                  (map cf_of_cd [real_sample 1; real_sample 3; real_sample 2; real_sample 4]
                   ++ replicate 12 cf_zero) in
  let cfg := Prach.Configuration 1 FORMAT0 UNRESTRICTED 0 0 64 in
  let st1 := MexState [None] [dimensions_line [2; 2]; symbol_line 0; symbol_line 1] in
  prepare inputs in_det_cfg UNRESTRICTED fresh = (Ok (buffer, cfg), st1) /\
  (2 = 2 /\ 2 <= max_nof_symbols buffer /\ 2 <= sequence_length buffer).
Proof.
  intros lib inputs in_det_cfg buffer cfg st1.
  assert (Hrun : prepare inputs in_det_cfg UNRESTRICTED fresh = (Ok (buffer, cfg), st1))
    by (vm_compute; reflexivity).
  split; [exact Hrun |].
  apply (detector_input_is_square (lib := lib) inputs in_det_cfg UNRESTRICTED fresh st1
           buffer cfg square_symbols 2 2 Hrun);
    [reflexivity | reflexivity | vm_compute; split; reflexivity
    | vm_compute; split; reflexivity].
Defined.

Lemma prach_failure_assigns_nothing_witness :
  let lib := sample_library silent_detector in
  let inputs := call (zero_symbols 100 7) (config_struct "UnrestrictedSet" "0") in
  is_ok (fst (method_step inputs fresh)) = false /\
  outputs (snd (method_step inputs fresh)) = [None].
Proof.
  intros lib inputs.
  assert (Hfail : is_ok (fst (method_step inputs fresh)) = false) by (vm_compute; reflexivity).
  split; [exact Hfail |].
  exact (prach_failure_assigns_nothing (lib := lib) inputs fresh Hfail).
Defined.

End PrachFurtherRuns.

(** ** The channel estimator binding *)

Section EstimatorFurther.
Import Prach Estimator ChannelEstimatorMex.
Context {lib : Library}.


(** Everything a passed argument check says. *)
Lemma estimator_check_inv inputs (st : mex_state event) :
  fst (check_step_outputs_inputs inputs st) = Ok tt ->
  exists in0 in1 in2 in3 in4,
    inputs = [in0; in1; in2; in3; in4] /\
    getType in1 = COMPLEX_SINGLE /\
    (2 <= length (getDimensions in1) <= 3)%nat /\
    getType in2 = DOUBLE /\ getNumberOfElements in2 = 2 /\
    getType in3 = COMPLEX_SINGLE /\
    dim 0 (getDimensions in3) = getNumberOfElements in3 /\
    getType in4 = STRUCT /\ getNumberOfElements in4 <= 1 /\
    length (outputs st) = 2%nat.
Proof.
  unfold check_step_outputs_inputs, mex_abort, fail, nargout, NOF_INPUTS, NOF_OUTPUTS.
  intros H.
  destruct inputs as [|in0 [|in1 [|in2 [|in3 [|in4 [|in5 rest]]]]]]; try discriminate H.
  simpl in H. rewrite bind_run, lift_run in H. simpl in H.
  destruct (ArrayType_eqb (getType in1) COMPLEX_SINGLE) eqn:Hty1; simpl in H; [| discriminate H].
  destruct (Nat.ltb_spec (length (getDimensions in1)) 2) as [Hlo | Hlo]; simpl in H;
    [discriminate H |].
  destruct (Nat.ltb_spec 3 (length (getDimensions in1))) as [Hhi | Hhi]; simpl in H;
    [discriminate H |].
  rewrite bind_run, lift_run in H. simpl in H.
  destruct (ArrayType_eqb (getType in2) DOUBLE) eqn:Hty2; simpl in H; [| discriminate H].
  destruct (N.eqb_spec (getNumberOfElements in2) 2) as [Hn2 | Hn2]; simpl in H;
    [| discriminate H].
  rewrite bind_run, lift_run in H. simpl in H.
  destruct (ArrayType_eqb (getType in3) COMPLEX_SINGLE) eqn:Hty3; simpl in H; [| discriminate H].
  destruct (N.eqb_spec (dim 0 (getDimensions in3)) (getNumberOfElements in3)) as [Hn3 | Hn3];
    simpl in H; [| discriminate H].
  rewrite bind_run, lift_run in H. simpl in H.
  destruct (ArrayType_eqb (getType in4) STRUCT) eqn:Hty4; simpl in H; [| discriminate H].
  destruct (N.ltb_spec 1 (getNumberOfElements in4)) as [Hn4 | Hn4]; simpl in H;
    [discriminate H |].
  rewrite bind_run in H.
  destruct (Nat.eqb (length (outputs st)) 2) eqn:Hout; simpl in H; [| discriminate H].
  exists in0, in1, in2, in3, in4.
  repeat split; try assumption; try (apply ArrayType_eqb_eq; assumption).
  apply Nat.eqb_eq, Hout.
Qed.

Lemma estimator_check_failure inputs (st : mex_state event) f :
  fst (check_step_outputs_inputs inputs st) = Fail f -> exists msg args, f = MexAbort msg args.
Proof.
  unfold check_step_outputs_inputs, mex_abort, fail, nargout, NOF_INPUTS, NOF_OUTPUTS.
  destruct inputs as [|in0 [|in1 [|in2 [|in3 [|in4 [|in5 rest]]]]]]; simpl;
    try (intros H; injection H as <-; eexists _, _; reflexivity).
  rewrite bind_run, lift_run. simpl.
  destruct (negb (ArrayType_eqb (getType in1) COMPLEX_SINGLE)
            || Nat.ltb (length (getDimensions in1)) 2 || Nat.ltb 3 (length (getDimensions in1)));
    [intros H; injection H as <-; eexists _, _; reflexivity |].
  rewrite bind_run, lift_run. simpl.
  destruct (negb (ArrayType_eqb (getType in2) DOUBLE) || negb (N.eqb (getNumberOfElements in2) 2));
    [intros H; injection H as <-; eexists _, _; reflexivity |].
  rewrite bind_run, lift_run. simpl.
  destruct (negb (ArrayType_eqb (getType in3) COMPLEX_SINGLE)
            || negb (N.eqb (dim 0 (getDimensions in3)) (getNumberOfElements in3)));
    [intros H; injection H as <-; eexists _, _; reflexivity |].
  rewrite bind_run, lift_run. simpl.
  destruct (negb (ArrayType_eqb (getType in4) STRUCT) || N.ltb 1 (getNumberOfElements in4));
    [intros H; injection H as <-; eexists _, _; reflexivity |].
  rewrite bind_run.
  destruct (Nat.eqb (length (outputs st)) 2); simpl; intros H;
    [discriminate H | injection H as <-; eexists _, _; reflexivity].
Qed.

(** X10: the argument check of the estimator binding passes exactly for
    five inputs of which the second is a complex single array of two or
    three dimensions, the third a double array of two elements, the fourth
    a complex single array whose first dimension is its number of elements
    (a column) and the fifth a structure array of at most one element,
    with two outputs; every rejection is a [mex_abort], and the check
    leaves the call state as it is. *)
Theorem estimator_check_passes_iff inputs (st : mex_state event) :
  (fst (check_step_outputs_inputs inputs st) = Ok tt <->
   exists in0 in1 in2 in3 in4,
     inputs = [in0; in1; in2; in3; in4] /\
     getType in1 = COMPLEX_SINGLE /\
     (2 <= length (getDimensions in1) <= 3)%nat /\
     getType in2 = DOUBLE /\ getNumberOfElements in2 = 2 /\
     getType in3 = COMPLEX_SINGLE /\
     dim 0 (getDimensions in3) = getNumberOfElements in3 /\
     getType in4 = STRUCT /\ getNumberOfElements in4 <= 1 /\
     length (outputs st) = 2%nat) /\
  (forall f, fst (check_step_outputs_inputs inputs st) = Fail f ->
     exists msg args, f = MexAbort msg args) /\
  snd (check_step_outputs_inputs inputs st) = st.
Proof.
  split; [split; [apply estimator_check_inv |]
         | split; [apply estimator_check_failure | apply stateless_check]].
  intros (in0 & in1 & in2 & in3 & in4 & -> & Hty1 & [Hlo Hhi] & Hty2 & Hn2 & Hty3 & Hn3
          & Hty4 & Hn4 & Hout).
  unfold check_step_outputs_inputs, nargout, NOF_INPUTS, NOF_OUTPUTS. simpl.
  rewrite bind_run, lift_run. simpl. rewrite Hty1. simpl.
  destruct (Nat.ltb_spec (length (getDimensions in1)) 2) as [Hbad | _]; [lia |].
  destruct (Nat.ltb_spec 3 (length (getDimensions in1))) as [Hbad | _]; [lia |]. simpl.
  rewrite bind_run, lift_run. simpl. rewrite Hty2, Hn2. simpl.
  rewrite bind_run, lift_run. simpl. rewrite Hty3, Hn3, N.eqb_refl. simpl.
  rewrite bind_run, lift_run. simpl. rewrite Hty4. simpl.
  apply N.ltb_ge in Hn4. rewrite Hn4. rewrite bind_run. rewrite Hout. reflexivity.
Qed.

(** X11: the two outputs are assigned together or not at all: a call that
    returns normally has assigned both output slots, and a call that
    fails, at whatever stage, leaves the output slots as they were. *)
Theorem estimator_outputs_all_or_nothing inputs (st : mex_state event) :
  match fst (method_step inputs st) with
  | Ok _ => exists ch_est_out info_out,
      outputs (snd (method_step inputs st)) = [Some ch_est_out; Some info_out]
  | Fail _ => outputs (snd (method_step inputs st)) = outputs st
  end.
Proof.
  destruct (method_step inputs st) as [[[]|f] st'] eqn:H; simpl.
  - apply method_step_ok_inv in H
      as (in_cfg & cfg0 & grid & n & cfg & pilots & ch & out & info & st3 & H).
    destruct H as (_ & _ & _ & _ & _ & _ & _ & ->). exists out, info. reflexivity.
  - unfold method_step in H. rewrite bind_run in H.
    rewrite (stateless_run _ st (stateless_check inputs)) in H.
    destruct (fst (check_step_outputs_inputs inputs st)) as [[]|f0] eqn:Hcheck;
      [| injection H as _ <-; reflexivity].
    rewrite bind_run, lift_run in H.
    destruct (read_configuration inputs) as [[in_cfg cfg0]|f0];
      [| injection H as _ <-; reflexivity].
    rewrite bind_run in H.
    rewrite (stateless_run _ st (stateless_build_grid inputs in_cfg cfg0)) in H.
    destruct (fst (build_grid inputs in_cfg cfg0 st)) as [[[grid n] cfg]|f0];
      [| injection H as _ <-; reflexivity].
    rewrite bind_run in H.
    rewrite (stateless_run _ st (stateless_build_pilots inputs (first_layer cfg) n)) in H.
    destruct (fst (build_pilots inputs (first_layer cfg) n st)) as [pilots|f0];
      [| injection H as _ <-; reflexivity].
    rewrite bind_run in H.
    pose proof (keeps_run_estimator grid pilots cfg n st) as Hkeep.
    destruct (run_estimator grid pilots cfg n st) as [[[ch out]|f0] st3]; simpl in Hkeep;
      [| injection H as _ <-; exact Hkeep].
    rewrite bind_run in H.
    rewrite (stateless_run _ st3 (stateless_build_info ch n)) in H.
    destruct (fst (build_info ch n st3)) as [info|f0];
      [| injection H as _ <-; exact Hkeep].
    exfalso. destruct (estimator_check_facts _ _ Hcheck) as (Hslots & _).
    rewrite <- Hkeep in Hslots. rewrite bind_run in H. unfold set_output in H.
    destruct (outputs st3) as [|o0 [|o1 [|o2 os]]]; try discriminate Hslots.
    simpl in H. discriminate H.
Qed.

(** The estimation loop adds to the trace one [Compute] per port it gets
    to, in port order, all on the same grid, pilots and configuration. *)
Lemma estimate_loop_trace grid pilots cfg n :
  forall i s (st : mex_state event),
    exists k, (k <= n)%nat /\ (n <> 0%nat -> k <> 0%nat) /\
      trace (snd (for_loop n i (estimate_port grid pilots cfg) s st)) =
      trace st ++ map (fun j => Compute grid j pilots cfg) (port_range k i).
Proof.
  induction n as [|n IH]; intros i s st.
  - exists 0%nat. simpl. rewrite app_nil_r. repeat split; [lia | intros H; exact H].
  - rewrite for_loop_S, bind_run. destruct s as [[e out] pos].
    unfold estimate_port at 1. rewrite bind_run. simpl. rewrite bind_run, lift_run.
    destruct (copy_n _ out pos) as [[out' pos']|f]; simpl.
    + destruct (IH (N.succ i)
                  (compute e grid i pilots cfg, out', pos')
                  (MexState (outputs st) (trace st ++ [Compute grid i pilots cfg])))
        as (k & Hk & _ & Htrace).
      exists (S k). split; [lia | split; [discriminate |]].
      rewrite Htrace. simpl. rewrite <- app_assoc. reflexivity.
    + exists 1%nat. split; [lia | split; [discriminate | reflexivity]].
Qed.

Lemma run_estimator_trace grid pilots cfg n (st : mex_state event) :
  exists k, (k <= N.to_nat n)%nat /\ (N.to_nat n <> 0%nat -> k <> 0%nat) /\
    trace (snd (run_estimator grid pilots cfg n st)) =
    trace st ++ map (fun j => Compute grid j pilots cfg) (port_range k 0).
Proof.
  unfold run_estimator. rewrite bind_run.
  match goal with
  | |- context [for_loop ?m 0 ?body ?s st] =>
      destruct (estimate_loop_trace grid pilots cfg m 0 s st) as (k & Hk & Hpos & Htrace);
      destruct (for_loop m 0 body s st) as [[s'|f] st3]
  end; simpl in Htrace |- *; exists k; repeat split; assumption.
Qed.

(** X12: the estimator is run only after everything has been accepted: if
    a call adds anything to the trace, whether it then returns or fails,
    the argument check, the configuration, the grid with its port indices
    and the pilots have all passed, and what it added are runs of the
    estimator for the ports 0, 1, ... in order, all on that grid, those
    pilots and that configuration. *)
Theorem estimation_only_after_validation inputs (st : mex_state event) :
  trace (snd (method_step inputs st)) <> trace st ->
  exists in_cfg cfg0 grid n cfg pilots k,
    fst (check_step_outputs_inputs inputs st) = Ok tt /\
    read_configuration inputs = Ok (in_cfg, cfg0) /\
    build_grid inputs in_cfg cfg0 st = (Ok (grid, n, cfg), st) /\
    build_pilots inputs (first_layer cfg) n st = (Ok pilots, st) /\
    (1 <= k <= N.to_nat n)%nat /\
    trace (snd (method_step inputs st)) =
    trace st ++ map (fun i => Compute grid i pilots cfg) (port_range k 0).
Proof.
  unfold method_step. rewrite bind_run.
  rewrite (stateless_run _ st (stateless_check inputs)).
  destruct (fst (check_step_outputs_inputs inputs st)) as [[]|f0] eqn:Hcheck;
    [| intros H; contradiction H; reflexivity].
  rewrite bind_run, lift_run.
  destruct (read_configuration inputs) as [[in_cfg cfg0]|f0];
    [| intros H; contradiction H; reflexivity].
  rewrite bind_run.
  rewrite (stateless_run _ st (stateless_build_grid inputs in_cfg cfg0)).
  destruct (fst (build_grid inputs in_cfg cfg0 st)) as [[[grid n] cfg]|f0] eqn:Hgrid;
    [| intros H; contradiction H; reflexivity].
  rewrite bind_run.
  rewrite (stateless_run _ st (stateless_build_pilots inputs (first_layer cfg) n)).
  destruct (fst (build_pilots inputs (first_layer cfg) n st)) as [pilots|f0] eqn:Hpilots;
    [| intros H; contradiction H; reflexivity].
  rewrite bind_run.
  destruct (run_estimator_trace grid pilots cfg n st) as (k & Hk & Hpos & Htrace).
  assert (Hend : forall r, r = run_estimator grid pilots cfg n st ->
            trace (snd (let (r0, st1) := r in
                        match r0 with
                        | Ok a => (let '(ch_estimate, ch_est_out) := a in
                                   build_info ch_estimate n ≫= fun info_out =>
                                     set_output 0 ch_est_out ≫= fun _ =>
                                       set_output 1 info_out) st1
                        | Fail f => (Fail f, st1)
                        end)) = trace (snd r)).
  { intros [[[ch out]|f] st3] _; [| reflexivity]. simpl. rewrite bind_run.
    rewrite (stateless_run _ st3 (stateless_build_info ch n)).
    destruct (fst (build_info ch n st3)) as [info|f]; [| reflexivity].
    rewrite bind_run. unfold set_output. simpl.
    destruct (decide _); simpl; [| reflexivity]. destruct (decide _); reflexivity. }
  rewrite (Hend _ eq_refl). rewrite Htrace. intros Hne.
  exists in_cfg, cfg0, grid, n, cfg, pilots, k.
  split; [reflexivity |]. split; [reflexivity |].
  split; [rewrite <- Hgrid; apply stateless_run, stateless_build_grid |].
  split; [rewrite <- Hpilots; apply stateless_run, stateless_build_pilots |].
  split; [| reflexivity].
  split; [| exact Hk].
  destruct k; [| lia].
  simpl in Hne. rewrite app_nil_r in Hne. contradiction.
Qed.

(** *** The configuration *)

(** The parts of a configuration that has been read. *)
Lemma read_configuration_inv inputs in_cfg cfg0 :
  read_configuration inputs = Ok (in_cfg, cfg0) ->
  exists p hop_field in_hop,
    dmrs_pattern cfg0 = [p] /\ rx_ports cfg0 = [] /\
    bitset_field in_cfg "Symbols" MAX_NSYMB_PER_SLOT = Ok (symbols p) /\
    bitset_field in_cfg "RBMask" MAX_RB = Ok (rb_mask p) /\
    bitset_field in_cfg "REPattern" NRE = Ok (re_pattern p) /\
    field in_cfg "HoppingIndex" = Ok hop_field /\
    as_double_array hop_field = Ok in_hop /\
    (if isEmpty hop_field
     then hopping_symbol_index p = None /\ rb_mask2 p = []
     else exists h0 h,
         element (getDimensions hop_field) in_hop [0] = Ok h0 /\
         double_to_unsigned h0 = Ok h /\
         hopping_symbol_index p = Some h /\
         bitset_field in_cfg "RBMask2" MAX_RB = Ok (rb_mask2 p)).
Proof.
  unfold read_configuration. intros H.
  apply result_bind_ok_inv in H as (in_cfg_array & _ & H).
  apply result_bind_ok_inv in H as (in_cfg' & _ & H).
  apply result_bind_ok_inv in H as (cp_field & _ & H).
  apply result_bind_ok_inv in H as (in_cp & _ & H).
  apply result_bind_ok_inv in H as (cfg_cp & _ & H).
  apply result_bind_ok_inv in H as (scs_field & _ & H).
  apply result_bind_ok_inv in H as (scs_value & _ & H).
  apply result_bind_ok_inv in H as (cfg_scs & _ & H).
  apply result_bind_ok_inv in H as (in2 & _ & H).
  apply result_bind_ok_inv in H as (in_allocation & _ & H).
  apply result_bind_ok_inv in H as (a0 & _ & H).
  apply result_bind_ok_inv in H as (first & _ & H).
  apply result_bind_ok_inv in H as (a1 & _ & H).
  apply result_bind_ok_inv in H as (nsym & _ & H).
  apply result_bind_ok_inv in H as (dmrs_symbols & Hsym & H).
  apply result_bind_ok_inv in H as (dmrs_rb_mask & Hrb & H).
  apply result_bind_ok_inv in H as (hop_field & Hfield & H).
  apply result_bind_ok_inv in H as (in_hop & Hhop & H).
  apply result_bind_ok_inv in H as ([hop mask2] & Hopt & H).
  apply result_bind_ok_inv in H as (dmrs_re_pattern & Hre & H).
  apply result_bind_ok_inv in H as (beta_field & _ & H).
  apply result_bind_ok_inv in H as (beta & _ & H).
  injection H as <- <-.
  exists (LayerDmrsPattern dmrs_symbols dmrs_rb_mask mask2 hop dmrs_re_pattern),
    hop_field, in_hop.
  simpl. repeat (split; [first [reflexivity | assumption] |]).
  destruct (isEmpty hop_field); simpl in Hopt.
  - injection Hopt as <- <-. split; reflexivity.
  - apply result_bind_ok_inv in Hopt as (h0 & Hh0 & Hopt).
    apply result_bind_ok_inv in Hopt as (h & Hh & Hopt).
    apply result_bind_ok_inv in Hopt as (m2 & Hm2 & Hopt).
    injection Hopt as <- <-. exists h0, h. repeat split; assumption.
Qed.

(** X13: a configuration structure array without elements passes the
    argument check, which only refuses more than one element; the call
    then stops at [in_cfg_array[0]] with the index exception of the MATLAB
    Data API, the call state as it was. *)
Theorem estimator_empty_config_is_an_index_error inputs (st : mex_state event) in4 :
  fst (check_step_outputs_inputs inputs st) = Ok tt ->
  arg inputs 4 = Ok in4 ->
  getNumberOfElements in4 = 0 ->
  method_step inputs st = (Fail (MatlabException InvalidArrayIndexException), st).
Proof.
  intros Hcheck Hin4 Hn.
  destruct (estimator_check_inv _ _ Hcheck)
    as (in0 & in1 & in2 & in3 & in4' & -> & _ & _ & _ & _ & _ & _ & Hty4 & _ & _).
  injection Hin4 as <-.
  unfold method_step. rewrite bind_run.
  rewrite (stateless_run _ st (stateless_check _)), Hcheck.
  rewrite bind_run, lift_run.
  assert (Hcfg : read_configuration [in0; in1; in2; in3; in4']
                 = Fail (MatlabException InvalidArrayIndexException)).
  { unfold read_configuration. simpl.
    rewrite (struct_element_of_nothing _ Hty4 Hn). reflexivity. }
  rewrite Hcfg. reflexivity.
Qed.

(** X14: frequency hopping is optional in an accepted configuration.  With
    an empty [HoppingIndex] field the pattern has no hopping symbol and an
    empty second mask, whatever the structure holds under [RBMask2]; with
    a non-empty one (a double array) the hopping symbol is its first
    element converted to [unsigned] and the second mask is the [RBMask2]
    field, which then has to be there and to fit [MAX_RB] bits. *)
Theorem hopping_is_optional inputs in_cfg cfg0 hop_field :
  read_configuration inputs = Ok (in_cfg, cfg0) ->
  field in_cfg "HoppingIndex" = Ok hop_field ->
  let p := first_layer cfg0 in
  (getNumberOfElements hop_field = 0 ->
   hopping_symbol_index p = None /\ rb_mask2 p = []) /\
  (getNumberOfElements hop_field <> 0 ->
   exists in_hop h0 h,
     as_double_array hop_field = Ok in_hop /\
     element (getDimensions hop_field) in_hop [0] = Ok h0 /\
     double_to_unsigned h0 = Ok h /\
     hopping_symbol_index p = Some h /\
     bitset_field in_cfg "RBMask2" MAX_RB = Ok (rb_mask2 p) /\
     size (rb_mask2 p) <= MAX_RB).
Proof.
  intros Hcfg Hfield p.
  apply read_configuration_inv in Hcfg
    as (p' & hop_field' & in_hop & Hp & _ & _ & _ & _ & Hfield' & Hhop & Hopt).
  rewrite Hfield in Hfield'. injection Hfield' as <-.
  assert (Hfirst : p = p') by (unfold p, first_layer; rewrite Hp; reflexivity).
  rewrite Hfirst. unfold isEmpty in Hopt. split; intros Hn.
  - apply N.eqb_eq in Hn. rewrite Hn in Hopt. exact Hopt.
  - apply N.eqb_neq in Hn. rewrite Hn in Hopt.
    destruct Hopt as (h0 & h & Hh0 & Hh & Hsome & Hmask).
    exists in_hop, h0, h. repeat (split; [assumption |]).
    exact (bitset_field_bound _ _ _ _ Hmask).
Qed.

(** X15: an accepted configuration carries exactly one DM-RS pattern (one
    transmit layer), no receive port yet, and masks that fit the bitsets
    they are stored in: at most [MAX_NSYMB_PER_SLOT] symbols, [MAX_RB]
    resource blocks in either mask and [NRE] resource elements; a longer
    logical field does not give a configuration. *)
Theorem accepted_masks_fit_their_bitsets inputs in_cfg cfg0 :
  read_configuration inputs = Ok (in_cfg, cfg0) ->
  let p := first_layer cfg0 in
  dmrs_pattern cfg0 = [p] /\ rx_ports cfg0 = [] /\
  size (symbols p) <= MAX_NSYMB_PER_SLOT /\
  size (rb_mask p) <= MAX_RB /\
  size (rb_mask2 p) <= MAX_RB /\
  size (re_pattern p) <= NRE.
Proof.
  intros Hcfg p.
  apply read_configuration_inv in Hcfg
    as (p' & hop_field & in_hop & Hp & Hports & Hsym & Hrb & Hre & _ & _ & Hopt).
  assert (Hfirst : p = p') by (unfold p, first_layer; rewrite Hp; reflexivity).
  rewrite Hfirst.
  split; [exact Hp |]. split; [exact Hports |].
  split; [exact (bitset_field_bound _ _ _ _ Hsym) |].
  split; [exact (bitset_field_bound _ _ _ _ Hrb) |].
  split; [| exact (bitset_field_bound _ _ _ _ Hre)].
  destruct (isEmpty hop_field).
  - destruct Hopt as [_ ->]. unfold size. simpl. lia.
  - destruct Hopt as (h0 & h & _ & _ & _ & Hmask). exact (bitset_field_bound _ _ _ _ Hmask).
Qed.

(** *** The resource grid *)

Lemma unsigned_sub_exact r n :
  n <= r -> r < UNSIGNED_MODULUS -> unsigned_sub r n = r - n.
Proof.
  intros Hle Hlt. unfold unsigned_sub.
  rewrite (to_unsigned_small n) by lia. unfold to_unsigned.
  replace (r + UNSIGNED_MODULUS - n) with (r - n + 1 * UNSIGNED_MODULUS) by lia.
  rewrite N.Div0.mod_add. apply N.mod_small. lia.
Qed.

(** One iteration of the grid loop: the first [nof_subcarriers] samples of
    the view go to symbol [l] of port [port], the view moves on by as
    many. *)
Lemma fill_grid_symbol_inv nsc port l g view rem g' view' rem' (st st' : mex_state event) :
  fill_grid_symbol nsc port l (g, view, rem) st = (Ok (g', view', rem'), st') ->
  rem = N.of_nat (length view) -> rem < UNSIGNED_MODULUS -> grid_nof_subc g = nsc ->
  let s := N.to_nat (nsc * (l + grid_nof_symbols g * port)) in
  (N.to_nat nsc <= length view)%nat /\
  view' = drop (N.to_nat nsc) view /\ rem' = N.of_nat (length view') /\
  port < grid_nof_ports g /\ l < grid_nof_symbols g /\
  g' = ResourceGrid nsc (grid_nof_symbols g) (grid_nof_ports g)
         (take s (grid_data g) ++ take (N.to_nat nsc) view
          ++ drop (s + N.to_nat nsc) (grid_data g)).
Proof.
  intros Hrun Hrem Hlt Hsubc s. unfold fill_grid_symbol in Hrun.
  apply bind_ok_inv in Hrun as (symbol_view & st1 & Hfirst & Hrun).
  apply lift_ok_inv in Hfirst as [Hfirst _].
  apply bind_ok_inv in Hrun as (view1 & st2 & Hlast & Hrun).
  apply lift_ok_inv in Hlast as [Hlast _].
  apply bind_ok_inv in Hrun as (g1 & st3 & Hput & Hrun).
  apply lift_ok_inv in Hput as [Hput _].
  injection Hrun as <- <- <- _.
  unfold span_first in Hfirst.
  destruct (N.leb_spec nsc (N.of_nat (length view))) as [Hle | _]; [| discriminate Hfirst].
  injection Hfirst as <-.
  rewrite (unsigned_sub_exact rem nsc) in * by lia.
  unfold span_last in Hlast.
  destruct (N.leb_spec (rem - nsc) (N.of_nat (length view))) as [_ | _]; [| discriminate Hlast].
  injection Hlast as <-.
  assert (Hdrop : (length view - N.to_nat (rem - nsc) = N.to_nat nsc)%nat) by lia.
  rewrite Hdrop.
  unfold put in Hput.
  destruct (N.ltb_spec port (grid_nof_ports g)) as [Hport | _]; [| discriminate Hput].
  destruct (N.ltb_spec l (grid_nof_symbols g)) as [Hl | _]; [| discriminate Hput].
  simpl in Hput. case_match; [| discriminate Hput]. injection Hput as <-.
  rewrite length_take, Hsubc, N.add_0_l.
  replace (N.to_nat nsc `min` length view)%nat with (N.to_nat nsc) by lia.
  repeat split; try assumption; try lia.
  rewrite length_drop. lia.
Qed.

(** Writing [a] samples at [s] and then [b] more right after them is
    writing [a + b] samples at [s]. *)
Lemma splice_twice (gd v : list cf_t) s a b :
  (s + a <= length gd)%nat -> (a <= length v)%nat ->
  let gd1 := take s gd ++ take a v ++ drop (s + a) gd in
  take (s + a) gd1 ++ take b (drop a v) ++ drop (s + a + b) gd1
  = take s gd ++ take (a + b) v ++ drop (s + (a + b)) gd.
Proof.
  intros Hs Ha gd1.
  assert (Hlen : length (take s gd ++ take a v) = (s + a)%nat)
    by (rewrite length_app, !length_take; lia).
  assert (Htake : take (s + a) gd1 = take s gd ++ take a v).
  { unfold gd1. rewrite app_assoc. apply take_app_length'. symmetry. exact Hlen. }
  assert (Hdrop : drop (s + a + b) gd1 = drop (s + (a + b)) gd).
  { unfold gd1. rewrite app_assoc. rewrite <- (drop_drop _ b (s + a)).
    rewrite (drop_app_length' _ _ (s + a)) by (symmetry; exact Hlen).
    rewrite drop_drop. f_equal. lia. }
  rewrite Htake, Hdrop, <- !app_assoc. f_equal.
  rewrite app_assoc, take_take_drop. reflexivity.
Qed.

(** The symbols of one port. *)
Lemma fill_grid_symbols nsc port n :
  forall l g view rem g' view' rem' (st st' : mex_state event),
    for_loop n l (fill_grid_symbol nsc port) (g, view, rem) st
    = (Ok (g', view', rem'), st') ->
    rem = N.of_nat (length view) -> rem < UNSIGNED_MODULUS -> grid_nof_subc g = nsc ->
    length (grid_data g) = N.to_nat (nsc * grid_nof_symbols g * grid_nof_ports g) ->
    let s := N.to_nat (nsc * (l + grid_nof_symbols g * port)) in
    let m := (n * N.to_nat nsc)%nat in
    (m <= length view)%nat /\ view' = drop m view /\ rem' = N.of_nat (length view') /\
    (n = 0%nat \/ port < grid_nof_ports g /\ l + N.of_nat n <= grid_nof_symbols g) /\
    g' = ResourceGrid nsc (grid_nof_symbols g) (grid_nof_ports g)
           (take s (grid_data g) ++ take m view ++ drop (s + m) (grid_data g)).
Proof.
  induction n as [|n IH]; intros l g view rem g' view' rem' st st' Hrun Hrem Hlt Hsubc Hlen s m.
  - injection Hrun as <- <- <- _. unfold m. simpl.
    split; [lia |]. split; [reflexivity |]. split; [exact Hrem |]. split; [left; reflexivity |].
    destruct g as [a b c gd]. simpl in *. subst a.
    rewrite Nat.add_0_r, take_drop. reflexivity.
  - rewrite for_loop_S in Hrun.
    apply bind_ok_inv in Hrun as ([[g1 view1] rem1] & st1 & Hbody & Hrest).
    apply fill_grid_symbol_inv in Hbody as (Hfit & Hview1 & Hrem1 & Hport & Hl & Hg1);
      [| assumption..].
    set (nsym := grid_nof_symbols g) in *. set (nports := grid_nof_ports g) in *.
    set (gd := grid_data g) in *.
    assert (Hroom : nsc * (l + nsym * port) + nsc <= nsc * nsym * nports).
    { assert (H1 : l + nsym * port + 1 <= nsym * (port + 1)) by lia.
      assert (H2 : nsym * (port + 1) <= nsym * nports) by (apply N.mul_le_mono_l; lia).
      assert (H3 : nsc * (l + nsym * port + 1) <= nsc * (nsym * nports))
        by (apply N.mul_le_mono_l; lia).
      lia. }
    assert (Hlen1 : length (grid_data g1) = N.to_nat (nsc * nsym * nports)).
    { rewrite Hg1. simpl. rewrite !length_app, !length_take, length_drop. fold gd. lia. }
    rewrite Hg1 in Hrest, Hlen1.
    apply IH in Hrest; simpl;
      [| assumption | rewrite Hrem1, Hview1, length_drop; lia | reflexivity
       | simpl in Hlen1; exact Hlen1].
    simpl in Hrest. destruct Hrest as (Hm & Hview' & Hrem' & Hbound & Hg').
    rewrite Hview1 in Hm, Hview'. rewrite length_drop in Hm.
    rewrite drop_drop in Hview'.
    split; [unfold m; simpl; lia |].
    split; [rewrite Hview'; unfold m; f_equal; simpl; lia |].
    split; [exact Hrem' |].
    split; [right; split; [exact Hport | destruct Hbound as [-> | [_ Hb]]; lia] |].
    rewrite Hg'. f_equal.
    replace (N.to_nat (nsc * (N.succ l + nsym * port))) with (s + N.to_nat nsc)%nat
      by (unfold s; fold nsym; lia).
    rewrite Hview1.
    unfold s. fold nsym. fold gd.
    rewrite (splice_twice gd view _ (N.to_nat nsc) (n * N.to_nat nsc)) by lia.
    unfold m. simpl. reflexivity.
Qed.

(** The ports one after the other. *)
Lemma fill_grid_ports nsc nsym n :
  forall p0 g view rem g' view' rem' (st st' : mex_state event),
    for_loop n p0
      (fun i_port => for_loop (N.to_nat nsym) 0 (fill_grid_symbol nsc i_port))
      (g, view, rem) st = (Ok (g', view', rem'), st') ->
    rem = N.of_nat (length view) -> rem < UNSIGNED_MODULUS ->
    grid_nof_subc g = nsc -> grid_nof_symbols g = nsym ->
    length (grid_data g) = N.to_nat (nsc * nsym * grid_nof_ports g) ->
    let s := N.to_nat (nsc * nsym * p0) in
    let m := (n * (N.to_nat nsym * N.to_nat nsc))%nat in
    (m <= length view)%nat /\ view' = drop m view /\
    g' = ResourceGrid nsc nsym (grid_nof_ports g)
           (take s (grid_data g) ++ take m view ++ drop (s + m) (grid_data g)).
Proof.
  induction n as [|n IH];
    intros p0 g view rem g' view' rem' st st' Hrun Hrem Hlt Hsubc Hsym Hlen s m.
  - injection Hrun as <- <- <- _. unfold m. simpl.
    split; [lia |]. split; [reflexivity |].
    destruct g as [a b c gd]. simpl in *. subst a b.
    rewrite Nat.add_0_r, take_drop. reflexivity.
  - rewrite for_loop_S in Hrun.
    apply bind_ok_inv in Hrun as ([[g1 view1] rem1] & st1 & Hport & Hrest).
    apply fill_grid_symbols in Hport; [| first [assumption | rewrite Hsym; assumption]..].
    rewrite Hsym in Hport. simpl in Hport.
    destruct Hport as (Hm1 & Hview1 & Hrem1 & Hbound & Hg1).
    set (nports := grid_nof_ports g) in *. set (gd := grid_data g) in *.
    set (a := (N.to_nat nsym * N.to_nat nsc)%nat) in *.
    replace (N.to_nat (nsc * (0 + nsym * p0))) with s in Hg1 by (unfold s; lia).
    assert (Hroom : (s + a <= length gd)%nat).
    { destruct Hbound as [Hz | [Hp _]].
      - unfold a, s. rewrite Hz. assert (nsym = 0) as -> by lia. lia.
      - assert (H1 : nsc * nsym * (p0 + 1) <= nsc * nsym * nports)
          by (apply N.mul_le_mono_l; lia).
        rewrite Hlen. unfold s, a. lia. }
    assert (Hlen1 : length (grid_data g1) = N.to_nat (nsc * nsym * nports)).
    { rewrite Hg1. simpl. rewrite !length_app, !length_take, length_drop. lia. }
    rewrite Hg1 in Hrest, Hlen1.
    apply IH in Hrest;
      [| assumption | rewrite Hrem1, Hview1, length_drop; lia | reflexivity | reflexivity
       | simpl in Hlen1 |- *; exact Hlen1].
    simpl in Hrest. destruct Hrest as (Hm & Hview' & Hg').
    rewrite Hview1 in Hm, Hview'. rewrite length_drop in Hm. rewrite drop_drop in Hview'.
    split; [unfold m; fold a; simpl; lia |].
    split; [rewrite Hview'; unfold m; fold a; f_equal; simpl; lia |].
    rewrite Hg'. f_equal.
    replace (N.to_nat (nsc * nsym * N.succ p0)) with (s + a)%nat by (unfold s, a; lia).
    rewrite Hview1. fold a.
    rewrite (splice_twice gd view s a (n * a)) by lia.
    unfold m. fold a. simpl. reflexivity.
Qed.

(** X16: for a grid input whose dimensions are not narrowed and whose
    samples number less than 2^32, filled into a fresh grid of the
    requested dimensions, the grid handed to the estimator holds exactly
    the samples of the input, in the order of the input (subcarrier
    fastest, then symbol, then port): the loop over ports and symbols
    moves every sample once and none twice. *)
Theorem grid_holds_the_input_samples inputs in_cfg cfg0 grid n cfg
    (st st' : mex_state event) in_grid data grid0 :
  build_grid inputs in_cfg cfg0 st = (Ok (grid, n, cfg), st') ->
  arg inputs 1 = Ok in_grid ->
  as_complex_single_array in_grid = Ok data ->
  let nof_subcarriers := to_unsigned (dim 0 (getDimensions in_grid)) in
  let nof_symbols := to_unsigned (dim 1 (getDimensions in_grid)) in
  create_resource_grid nof_subcarriers nof_symbols n = Some grid0 ->
  grid_nof_subc grid0 = nof_subcarriers ->
  grid_nof_symbols grid0 = nof_symbols ->
  grid_nof_ports grid0 = n ->
  length (grid_data grid0) = N.to_nat (nof_subcarriers * nof_symbols * n) ->
  N.of_nat (length data) = getNumberOfElements in_grid ->
  getNumberOfElements in_grid = nof_subcarriers * nof_symbols * n ->
  getNumberOfElements in_grid < UNSIGNED_MODULUS ->
  grid = ResourceGrid nof_subcarriers nof_symbols n data.
Proof.
  intros H Hin Hdata nsc nsym Hcreate Hsubc Hsym Hports Hlen Hdlen Hnumel Hlt.
  destruct (build_grid_ok_inv _ _ _ _ _ _ _ _ H) as (in_grid' & pf & Hin' & Hn & _).
  rewrite Hin in Hin'. injection Hin' as <-.
  unfold build_grid in H.
  rewrite bind_run, lift_run, Hin in H. rewrite bind_run, lift_run, Hdata in H.
  rewrite <- Hn in H. unfold nsc, nsym in Hcreate. rewrite Hcreate in H.
  apply bind_ok_inv in H as (ports & st3 & _ & H).
  apply bind_ok_inv in H as (grid1 & st4 & Hfill & H).
  injection H as <- _ _.
  unfold fill_grid in Hfill.
  apply bind_ok_inv in Hfill as ([[g' view'] rem'] & st5 & Hloop & Hret).
  injection Hret as <- _. simpl.
  rewrite (to_unsigned_small (getNumberOfElements in_grid)) in Hloop by exact Hlt.
  apply fill_grid_ports in Hloop;
    [| first [ symmetry; exact Hdlen | exact Hlt | exact Hsubc | exact Hsym
             | rewrite Hports; exact Hlen ]..].
  destruct Hloop as (_ & _ & ->). rewrite Hports. f_equal.
  fold nsc nsym in Hnumel |- *.
  replace (N.to_nat (nsc * nsym * 0)) with 0%nat by lia.
  assert (Hm : (N.to_nat n * (N.to_nat nsym * N.to_nat nsc))%nat = length data) by lia.
  rewrite Hm. simpl.
  rewrite take_ge by lia. rewrite drop_ge by (fold nsc nsym in Hlen; lia).
  apply app_nil_r.
Qed.

(** *** The receive ports *)

Lemma rx_ports_loop dims (data : list float64) n :
  forall i ports ports' (st st' : mex_state event),
    for_loop n i
      (fun i_port ports =>
         x ← lift (element dims data [i_port]);
         p ← lift (double_to_unsigned x);
         ret (<[N.to_nat i_port := p]> ports)) ports st = (Ok ports', st') ->
    length ports' = length ports /\
    (forall j, i <= j < i + N.of_nat n ->
       exists x p, element dims data [j] = Ok x /\ double_to_unsigned x = Ok p /\
                   ((N.to_nat j < length ports)%nat -> ports' !! N.to_nat j = Some p)) /\
    (forall j, j < i -> ports' !! N.to_nat j = ports !! N.to_nat j).
Proof.
  induction n as [|n IH]; intros i ports ports' st st' Hrun.
  - injection Hrun as <- _. split; [reflexivity | split]; [intros j Hj; lia | reflexivity].
  - rewrite for_loop_S in Hrun.
    apply bind_ok_inv in Hrun as (ports1 & st1 & Hbody & Hrest).
    apply bind_ok_inv in Hbody as (x & st2 & Hx & Hbody).
    apply lift_ok_inv in Hx as [Hx _].
    apply bind_ok_inv in Hbody as (p & st3 & Hp & Hbody).
    apply lift_ok_inv in Hp as [Hp _].
    injection Hbody as <- _.
    apply IH in Hrest as (Hlen & Hin & Hbefore).
    rewrite length_insert in Hlen, Hin.
    split; [exact Hlen | split].
    + intros j Hj. destruct (N.eq_dec j i) as [-> | Hne].
      * exists x, p. split; [exact Hx | split; [exact Hp |]].
        intros Hlt. rewrite Hbefore by lia. apply list_lookup_insert_eq. exact Hlt.
      * apply Hin. lia.
    + intros j Hj. rewrite Hbefore by lia. apply list_lookup_insert_ne. lia.
Qed.

(** X17: once the grid stage has passed, the configuration given to the
    estimator lists one receive port per port of the grid, in the order of
    the [PortIndices] field: port [i] is element [i] of the field converted
    to [unsigned]; the number of elements of the field, as [unsigned], is
    the number of ports; and the stage changes nothing else in the
    configuration. *)
Theorem rx_ports_are_the_port_indices inputs in_cfg cfg0 grid n cfg
    (st st' : mex_state event) port_field in_port_indices :
  build_grid inputs in_cfg cfg0 st = (Ok (grid, n, cfg), st') ->
  field in_cfg "PortIndices" = Ok port_field ->
  as_double_array port_field = Ok in_port_indices ->
  to_unsigned (getNumberOfElements port_field) = n /\
  length (rx_ports cfg) = N.to_nat n /\
  (forall i, i < n ->
     exists x p, element (getDimensions port_field) in_port_indices [i] = Ok x /\
                 double_to_unsigned x = Ok p /\
                 rx_ports cfg !! N.to_nat i = Some p) /\
  cfg = Configuration (scs cfg0) (cp cfg0) (first_symbol cfg0) (Estimator.nof_symbols cfg0)
          (dmrs_pattern cfg0) (rx_ports cfg) (scaling cfg0).
Proof.
  unfold build_grid. intros H Hfield Hdata.
  apply bind_ok_inv in H as (in_grid & st1 & _ & H).
  apply bind_ok_inv in H as (data & st2 & _ & H).
  destruct (create_resource_grid _ _ _) as [grid0|]; [| discriminate H].
  apply bind_ok_inv in H as (ports & st3 & Hports & H).
  apply bind_ok_inv in H as (grid1 & st4 & _ & H).
  injection H as <- <- <- _.
  unfold read_rx_ports in Hports.
  rewrite bind_run, lift_run, Hfield in Hports.
  rewrite bind_run, lift_run, Hdata in Hports.
  apply bind_ok_inv in Hports as ([] & st5 & Hcheck & Hloop).
  unfold check_port_indices in Hcheck. case_match eqn:Heq; [discriminate Hcheck |].
  apply negb_false_iff, N.eqb_eq in Heq.
  apply rx_ports_loop in Hloop as (Hlen & Hin & _).
  rewrite length_replicate in Hlen, Hin. simpl.
  split; [exact Heq |]. split; [exact Hlen |]. split; [| reflexivity].
  intros i Hi. destruct (Hin i ltac:(lia)) as (x & p & Hx & Hp & Hat).
  exists x, p. split; [exact Hx | split; [exact Hp | apply Hat; lia]].
Qed.

(** *** A grid without ports *)

(** X18: a grid whose number of ports, as the code reads it from a third
    dimension, is zero is not refused by the binding.  A call with it that
    returns normally has not run the estimator; its first output is an
    empty complex array with a zero third dimension and its second output
    a single record, the one of the means, in which every field is the
    result of a division by zero ports: not a number. *)
Theorem no_port_gives_one_record_of_nan inputs (st st' : mex_state event) in_grid :
  method_step inputs st = (Ok tt, st') ->
  arg inputs 1 = Ok in_grid ->
  grid_nof_rx_ports (getDimensions in_grid) = 0 ->
  trace st' = trace st /\
  exists d0 d1 noise_var rsrp epre sinr time_alignment,
    outputs st' =
    [ Some (MkArray [d0; d1; 0] (PComplexSingle []));
      Some (MkArray [1; 1] (PStruct [MkStruct
        [ ("NoiseVar", double_scalar noise_var);
          ("RSRP", double_scalar rsrp);
          ("EPRE", double_scalar epre);
          ("SINR", double_scalar sinr);
          ("TimeAlignment", double_scalar time_alignment) ]])) ] /\
    is_nan64 noise_var = true /\ is_nan64 rsrp = true /\ is_nan64 epre = true /\
    is_nan64 sinr = true /\ is_nan64 time_alignment = true.
Proof.
  intros H Hin Hzero.
  apply method_step_ok_inv in H
    as (in_cfg & cfg0 & grid & n & cfg & pilots & ch & out & info & st3 & H).
  destruct H as (_ & _ & Hgrid & _ & Hest & Hinfo & _ & ->).
  apply build_grid_ok_inv in Hgrid as (in_grid' & pf & Hin' & Hn & _).
  rewrite Hin in Hin'. injection Hin' as <-. rewrite Hzero in Hn. subst n.
  unfold run_estimator in Hest. simpl in Hest. injection Hest as _ <- <-.
  rewrite (build_info_run ch 0 st) in Hinfo by (vm_compute; reflexivity).
  injection Hinfo as <-. simpl.
  split; [reflexivity |].
  eexists _, _, _, _, _, _, _. split.
  - unfold EstimatorVocabulary.mean_record. simpl.
    rewrite !N.mul_0_r. simpl. reflexivity.
  - repeat split; vm_compute; reflexivity.
Qed.

(** *** A grid that cannot be created *)

(** X19: when the library's grid factory returns a null pointer, the call
    stops with the [mex_abort] "Cannot create resource grid." before the
    port indices are looked at, the call state as it was. *)
Theorem missing_grid_aborts inputs (st : mex_state event) in_cfg cfg0 in_grid :
  fst (check_step_outputs_inputs inputs st) = Ok tt ->
  read_configuration inputs = Ok (in_cfg, cfg0) ->
  arg inputs 1 = Ok in_grid ->
  create_resource_grid (to_unsigned (dim 0 (getDimensions in_grid)))
    (to_unsigned (dim 1 (getDimensions in_grid)))
    (grid_nof_rx_ports (getDimensions in_grid)) = None ->
  method_step inputs st = (Fail (MexAbort "Cannot create resource grid." []), st).
Proof.
  intros Hcheck Hcfg Hin Hnone.
  rewrite (method_step_from_grid _ _ _ _ Hcheck Hcfg).
  destruct (estimator_check_facts _ _ Hcheck) as (_ & (in1 & Hin1 & Hty1) & _).
  rewrite Hin in Hin1. injection Hin1 as <-.
  destruct (complex_single_data _ Hty1) as [data Hdata].
  apply bind_fail. unfold build_grid.
  rewrite bind_run, lift_run, Hin. rewrite bind_run, lift_run, Hdata.
  rewrite Hnone. reflexivity.
Qed.

End EstimatorFurther.

(** ** The tag conversions *)

(** X20: the base graph conversion accepts the indices 1 and 2 and nothing
    else: index 1 and only index 1 gives [BG1], index 2 and only index 2
    gives [BG2], and any other index, 0 included, ends in
    [srsran_terminate] with the message "Unknown base graph {}." carrying
    that index. *)
Theorem base_graph_conversion (bg : N) :
  (matlab_to_srs_base_graph bg = Ok BG1 <-> bg = 1) /\
  (matlab_to_srs_base_graph bg = Ok BG2 <-> bg = 2) /\
  (forall f, matlab_to_srs_base_graph bg = Fail f <->
             bg <> 1 /\ bg <> 2 /\ f = Terminate "Unknown base graph {}." [ArgNum bg]).
Proof.
  unfold matlab_to_srs_base_graph, srsran_terminate.
  destruct (N.eqb_spec bg 1) as [-> | H1]; [| destruct (N.eqb_spec bg 2) as [-> | H2]];
    (split; [split; intros H; first [reflexivity | discriminate H | contradiction] |
     split; [split; intros H; first [reflexivity | discriminate H | contradiction] |
       intros f; split;
         [ intros H;
           first [ discriminate H
                 | injection H as <-; repeat split; first [assumption | reflexivity] ]
         | intros (Ha & Hb & Hc);
           first [ contradiction Ha; reflexivity | contradiction Hb; reflexivity
                 | rewrite Hc; reflexivity ] ]]]).
Qed.

(** ** The further properties of the estimator binding on sample calls *)

Section EstimatorFurtherRuns.
Import Prach Estimator ChannelEstimatorMex EstimatorSamples EstimatorSmallSamples.

Lemma estimation_only_after_validation_witness :
  let lib := sample_library in
  trace (snd (method_step two_port_call fresh)) <> trace fresh /\
  exists grid n cfg pilots k,
    (1 <= k <= N.to_nat n)%nat /\
    trace (snd (method_step two_port_call fresh)) =
    trace fresh ++ map (fun i => Compute grid i pilots cfg) (port_range k 0).
Proof.
  intros lib.
  assert (Hne : trace (snd (method_step two_port_call fresh)) <> trace fresh)
    by (vm_compute; discriminate).
  split; [exact Hne |].
  destruct (estimation_only_after_validation (lib := lib) two_port_call fresh Hne)
    as (in_cfg & cfg0 & grid & n & cfg & pilots & k & _ & _ & _ & _ & Hk & Htrace).
  exists grid, n, cfg, pilots, k. split; [exact Hk | exact Htrace].
Defined.

Lemma estimator_empty_config_is_an_index_error_witness :
  let lib := sample_library in
  let inputs := call (rx_grid 24 14 2) (replicate 6 unit_sample)
                  PrachSmallSamples.empty_config in
  fst (check_step_outputs_inputs inputs fresh) = Ok tt /\
  method_step inputs fresh = (Fail (MatlabException InvalidArrayIndexException), fresh).
Proof.
  intros lib inputs. split; [vm_compute; reflexivity |].
  apply (estimator_empty_config_is_an_index_error (lib := lib) inputs fresh
           PrachSmallSamples.empty_config); vm_compute; reflexivity.
Defined.

Lemma hopping_is_optional_witness :
  let lib := sample_library in
  let in_cfg := first_element two_port_config in
  read_configuration two_port_call = Ok (in_cfg, two_port_cfg0) /\
  field in_cfg "RBMask2" = Fail (MatlabException InvalidFieldNameException) /\
  hopping_symbol_index (first_layer two_port_cfg0) = None /\
  rb_mask2 (first_layer two_port_cfg0) = [].
Proof.
  intros lib in_cfg.
  assert (Hcfg : read_configuration two_port_call = Ok (in_cfg, two_port_cfg0))
    by (vm_compute; reflexivity).
  split; [exact Hcfg |]. split; [vm_compute; reflexivity |].
  apply (proj1 (hopping_is_optional (lib := lib) two_port_call in_cfg two_port_cfg0
                  (MkArray [0; 0] (PDouble [])) Hcfg eq_refl)).
  reflexivity.
Defined.

Lemma accepted_masks_fit_their_bitsets_witness :
  let lib := sample_library in
  let in_cfg := first_element two_port_config in
  let p := first_layer two_port_cfg0 in
  read_configuration two_port_call = Ok (in_cfg, two_port_cfg0) /\
  dmrs_pattern two_port_cfg0 = [p] /\ rx_ports two_port_cfg0 = [] /\
  size (symbols p) <= 14 /\ size (rb_mask p) <= 275 /\
  size (rb_mask2 p) <= 275 /\ size (re_pattern p) <= NRE.
Proof.
  intros lib in_cfg p.
  assert (Hcfg : read_configuration two_port_call = Ok (in_cfg, two_port_cfg0))
    by (vm_compute; reflexivity).
  split; [exact Hcfg |].
  exact (accepted_masks_fit_their_bitsets (lib := lib) two_port_call in_cfg two_port_cfg0 Hcfg).
Defined.

Lemma grid_holds_the_input_samples_witness :
  let lib := sample_library in
  let in_cfg := first_element two_port_config in
  let data := replicate 672 unit_sample in
  let cfg := Configuration kHz15 NORMAL 0 14 (dmrs_pattern two_port_cfg0) [0; 1]
               (scaling two_port_cfg0) in
  build_grid two_port_call in_cfg two_port_cfg0 fresh
  = (Ok (ResourceGrid 24 14 2 data, 2, cfg), fresh) /\
  ResourceGrid 24 14 2 data = ResourceGrid 24 14 2 data.
Proof.
  intros lib in_cfg data cfg.
  assert (Hrun : build_grid two_port_call in_cfg two_port_cfg0 fresh
                 = (Ok (ResourceGrid 24 14 2 data, 2, cfg), fresh))
    by (vm_compute; reflexivity).
  split; [exact Hrun |].
  apply (grid_holds_the_input_samples (lib := lib) two_port_call in_cfg two_port_cfg0
           (ResourceGrid 24 14 2 data) 2 cfg fresh fresh (rx_grid 24 14 2) data
           (ResourceGrid 24 14 2 (replicate 672 cf_zero)) Hrun);
    vm_compute; reflexivity.
Defined.

Lemma rx_ports_are_the_port_indices_witness :
  let lib := sample_library in
  let in_cfg := first_element two_port_config in
  let cfg := Configuration kHz15 NORMAL 0 14 (dmrs_pattern two_port_cfg0) [0; 1]
               (scaling two_port_cfg0) in
  build_grid two_port_call in_cfg two_port_cfg0 fresh
  = (Ok (ResourceGrid 24 14 2 (replicate 672 unit_sample), 2, cfg), fresh) /\
  length (rx_ports cfg) = 2%nat.
Proof.
  intros lib in_cfg cfg.
  assert (Hrun : build_grid two_port_call in_cfg two_port_cfg0 fresh
                 = (Ok (ResourceGrid 24 14 2 (replicate 672 unit_sample), 2, cfg), fresh))
    by (vm_compute; reflexivity).
  split; [exact Hrun |].
  exact (proj1 (proj2
    (rx_ports_are_the_port_indices (lib := lib) two_port_call in_cfg two_port_cfg0 _ 2 cfg
       fresh fresh (column PDouble (map f64_of_unsigned [0; 1])) (map f64_of_unsigned [0; 1])
       Hrun eq_refl eq_refl))).
Defined.

Lemma no_port_gives_one_record_of_nan_witness :
  let lib := sample_library in
  fst (method_step no_port_call fresh) = Ok tt /\
  trace (snd (method_step no_port_call fresh)) = [].
Proof.
  intros lib.
  assert (Hok : fst (method_step no_port_call fresh) = Ok tt) by (vm_compute; reflexivity).
  split; [exact Hok |].
  exact (proj1 (no_port_gives_one_record_of_nan (lib := lib) no_port_call fresh _
                  (rx_grid 24 14 0) (ok_run _ _ _ Hok) eq_refl eq_refl)).
Defined.

Lemma missing_grid_aborts_witness :
  let lib := no_grid_library in
  let in_cfg := first_element two_port_config in
  fst (check_step_outputs_inputs two_port_call fresh) = Ok tt /\
  method_step two_port_call fresh = (Fail (MexAbort "Cannot create resource grid." []), fresh).
Proof.
  intros lib in_cfg.
  assert (Hcheck : fst (check_step_outputs_inputs two_port_call fresh) = Ok tt)
    by (vm_compute; reflexivity).
  split; [exact Hcheck |].
  apply (missing_grid_aborts (lib := lib) two_port_call fresh in_cfg two_port_cfg0
           (rx_grid 24 14 2) Hcheck); vm_compute; reflexivity.
Defined.

End EstimatorFurtherRuns.

(** ** The tags of a call *)

Section TagsInTheCall.
Import Prach PrachDetectorMex PrachVocabulary.

(** The format of a detector configuration is the conversion of the
    [format] field. *)
Lemma read_detector_config_format in_det_cfg rs cfg format_field s :
  read_detector_config in_det_cfg rs = Ok cfg ->
  field in_det_cfg "format" = Ok format_field ->
  as_char_array format_field = Ok s ->
  format cfg = matlab_to_srs_preamble_format s.
Proof.
  unfold read_detector_config. intros H Hfield Hs.
  apply result_bind_ok_inv in H as (x1 & _ & H).
  apply result_bind_ok_inv in H as (x2 & _ & H).
  apply result_bind_ok_inv in H as (f & Hf & H).
  rewrite Hfield in Hf. injection Hf as <-.
  apply result_bind_ok_inv in H as (fs & Hfs & H).
  rewrite Hs in Hfs. injection Hfs as <-.
  apply result_bind_ok_inv in H as (x5 & _ & H).
  apply result_bind_ok_inv in H as (x6 & _ & H).
  injection H as <-. reflexivity.
Qed.

(** The configuration of a prepared call is the one read from the
    structure. *)
Lemma prepared_configuration_read {lib : Library} inputs in_det_cfg rs
    (st st1 : mex_state event) buffer cfg :
  prepare inputs in_det_cfg rs st = (Ok (buffer, cfg), st1) ->
  read_detector_config in_det_cfg rs = Ok cfg.
Proof.
  unfold prepare. intros H.
  apply bind_ok_inv in H as (c & s0 & Hc & H).
  apply lift_ok_inv in Hc as [Hc _].
  apply bind_ok_inv in H as (in1 & s1 & _ & H).
  apply bind_ok_inv in H as (data & s2 & _ & H).
  destruct (negb (Nat.eqb (length (getDimensions in1)) 2)); [discriminate H |].
  apply bind_ok_inv in H as ([] & s3 & _ & H).
  apply bind_ok_inv in H as (b0 & s4 & _ & H).
  apply bind_ok_inv in H as (b1 & s5 & _ & H).
  injection H as _ <- _. exact Hc.
Qed.

(** The detector is the last thing a prepared call adds to the trace. *)
Lemma prepared_call_detects {lib : Library} inputs (st st1 : mex_state event)
    in_det_cfg buffer cfg :
  fst (check_step_outputs_inputs inputs st) = Ok tt ->
  read_restricted_set inputs = Ok (in_det_cfg, UNRESTRICTED) ->
  prepare inputs in_det_cfg UNRESTRICTED st = (Ok (buffer, cfg), st1) ->
  trace (snd (method_step inputs st)) = trace st1 ++ [Detect buffer cfg].
Proof.
  intros Hcheck Hrs Hprep.
  rewrite (method_step_unrestricted _ _ _ Hcheck Hrs).
  rewrite bind_run, Hprep. unfold run_detector, report. rewrite !bind_run. simpl.
  destruct (N.eqb _ 0); simpl; [reflexivity |].
  destruct (last (preambles (detect buffer cfg))); simpl; [| reflexivity].
  unfold set_output. simpl. destruct (decide _); reflexivity.
Qed.

(** C7, as amended: a modulation name or a restricted-set name outside the
    names the conversion knows stops the conversion with [srsran_terminate]
    (an [InvalidArgument] in the specification's terms) and a known name is
    converted.  A preamble-format tag other than "0", "1", "2", "3" does
    not fail: it is converted to the catch-all value [OTHER], to which no
    digit is converted, the digits being converted to [FORMAT0] ...
    [FORMAT3] in this order; and a call on the unrestricted set whose
    [format] field holds such a tag, once its buffer is prepared, runs the
    detector on a configuration whose format is [OTHER]. *)
Theorem unknown_tags (s : string) :
  (~ In s modulation_names -> fails_fast (matlab_to_srs_modulation s)) /\
  (In s modulation_names -> exists m, matlab_to_srs_modulation s = Ok m) /\
  (~ In s restricted_set_names -> fails_fast (matlab_to_srs_restricted_set s)) /\
  (In s restricted_set_names -> exists r, matlab_to_srs_restricted_set s = Ok r) /\
  (~ In s preamble_format_digits -> matlab_to_srs_preamble_format s = OTHER) /\
  (In s preamble_format_digits -> matlab_to_srs_preamble_format s <> OTHER) /\
  (matlab_to_srs_preamble_format "0" = FORMAT0 /\
   matlab_to_srs_preamble_format "1" = FORMAT1 /\
   matlab_to_srs_preamble_format "2" = FORMAT2 /\
   matlab_to_srs_preamble_format "3" = FORMAT3) /\
  (forall (lib : Library) inputs (st st1 : mex_state event) in_det_cfg format_field
          buffer cfg,
     fst (check_step_outputs_inputs inputs st) = Ok tt ->
     read_restricted_set inputs = Ok (in_det_cfg, UNRESTRICTED) ->
     field in_det_cfg "format" = Ok format_field ->
     as_char_array format_field = Ok s ->
     ~ In s preamble_format_digits ->
     prepare inputs in_det_cfg UNRESTRICTED st = (Ok (buffer, cfg), st1) ->
     format cfg = OTHER /\
     trace (snd (method_step inputs st)) = trace st1 ++ [Detect buffer cfg]).
Proof.
  split; [| split; [| split; [| split; [| split; [| split; [| split]]]]]].
  - intros H. eexists. split; [apply modulation_unknown, H | reflexivity].
  - apply modulation_known.
  - intros H. eexists. split; [apply restricted_set_unknown, H | reflexivity].
  - apply restricted_set_known.
  - apply preamble_format_unknown.
  - apply preamble_format_known.
  - repeat split.
  - intros lib inputs st st1 in_det_cfg format_field buffer cfg
      Hcheck Hrs Hfield Hs Hunknown Hprep.
    split.
    + rewrite (read_detector_config_format _ _ _ _ _
                 (prepared_configuration_read _ _ _ _ _ _ _ Hprep) Hfield Hs).
      apply preamble_format_unknown, Hunknown.
    + exact (prepared_call_detects _ _ _ _ _ _ Hcheck Hrs Hprep).
Qed.

Lemma unknown_tags_witness :
  let lib := PrachSamples.sample_library PrachSamples.silent_detector in
  let inputs := PrachSamples.call (PrachSamples.zero_symbols 839 0)
                  (PrachSamples.config_struct "UnrestrictedSet" "4") in
  let in_det_cfg := PrachSmallSamples.config_element "UnrestrictedSet" "4" in
  let buffer := PrachSamples.zeroed_buffer 1 1 0 4 839 in
  let cfg := Prach.Configuration 1 OTHER UNRESTRICTED 0 0 64 in
  let st1 := MexState [None] [dimensions_line [839; 0]] in
  fails_fast (matlab_to_srs_modulation "QAM1024") /\
  fails_fast (matlab_to_srs_restricted_set "RestrictedSetTypeC") /\
  matlab_to_srs_preamble_format "A1" = OTHER /\
  (exists m, matlab_to_srs_modulation "pi/2-BPSK" = Ok m) /\
  matlab_to_srs_preamble_format "2" = FORMAT2 /\
  prepare inputs in_det_cfg UNRESTRICTED PrachSamples.fresh = (Ok (buffer, cfg), st1) /\
  format cfg = OTHER /\
  trace (snd (method_step inputs PrachSamples.fresh)) = trace st1 ++ [Detect buffer cfg].
Proof.
  intros lib inputs in_det_cfg buffer cfg st1.
  assert (Hprep : prepare inputs in_det_cfg UNRESTRICTED PrachSamples.fresh
                  = (Ok (buffer, cfg), st1)) by (vm_compute; reflexivity).
  split; [| split; [| split; [| split; [| split; [| split; [exact Hprep |]]]]]].
  - apply (unknown_tags "QAM1024"). not_listed.
  - apply (unknown_tags "RestrictedSetTypeC"). not_listed.
  - apply (unknown_tags "A1"). not_listed.
  - apply (unknown_tags "pi/2-BPSK"). simpl. tauto.
  - apply (unknown_tags "2").
  - refine (proj2 (proj2 (proj2 (proj2 (proj2 (proj2 (proj2 (unknown_tags "4")))))))
              lib inputs PrachSamples.fresh st1 in_det_cfg (MkArray [1; 1] (PChar "4"))
              buffer cfg _ _ _ _ _ Hprep);
      first [reflexivity | not_listed].
Defined.

End TagsInTheCall.

(** ** Dimensions of 2^32 and more *)

Section WideBuffer.
Import Prach PrachDetectorMex PrachSamples PrachVocabulary.

(** C4 fails on the code.  The first dimension of the buffer is read into
    [unsigned nof_samples] before it is compared with the two sequence
    lengths.  A buffer of 2^32 + 839 samples per symbol and no symbol has a
    sample count that is neither sequence length, yet it is not refused:
    it is taken for a buffer of 839 samples, the long buffer is created,
    the detector runs on it and the call returns a record. *)
Theorem wide_buffer_is_taken_for_a_long_one :
  let lib := sample_library two_preamble_detector in
  let rows := 4294968135 in
  let prach_symbols := zero_symbols rows 0 in
  let inputs := call prach_symbols (config_struct "UnrestrictedSet" "0") in
  let run := method_step inputs fresh in
  let buffer := zeroed_buffer 1 1 0 4 839 in
  let cfg := Prach.Configuration 1 FORMAT0 UNRESTRICTED 0 0 64 in
  rows = UNSIGNED_MODULUS + LONG_SEQUENCE_LENGTH /\
  dim 0 (getDimensions prach_symbols) = rows /\
  rows <> LONG_SEQUENCE_LENGTH /\
  rows <> SHORT_SEQUENCE_LENGTH /\
  create_prach_buffer_long 0 = Some buffer /\
  fst run = Ok tt /\
  trace (snd run) = [dimensions_line [rows; 0]; Detect buffer cfg] /\
  length (outputs (snd run)) = 1%nat /\
  outputs (snd run) <> [None].
Proof. vm_compute. repeat split; discriminate. Qed.

End WideBuffer.

Section WideGrid.
Import Prach Estimator ChannelEstimatorMex EstimatorSamples.

(** C5 fails on the code.  The number of ports of the grid and the number
    of port indices are both read into an [unsigned] before they are
    compared.  A grid of 0 by 0 by 2^32 + 2 comes with two port indices,
    which is not its number of ports, yet the call is not refused: the
    grid is taken for one of two ports, the estimator runs for two ports
    and the call returns both outputs. *)
Theorem wide_grid_passes_the_port_check :
  let lib := sample_library in
  let ports := 4294967298 in
  let rx := rx_grid 0 0 ports in
  let inputs :=
    call rx (replicate 6 unit_sample) (config_struct symbols_mask rb_mask_10 even_res [0; 1]) in
  let run := method_step inputs fresh in
  let nof_port_indices :=
    match read_configuration inputs with
    | Ok (in_cfg, _) =>
        match field in_cfg "PortIndices" with
        | Ok port_field => getNumberOfElements port_field
        | Fail _ => 0
        end
    | Fail _ => 0
    end in
  ports = UNSIGNED_MODULUS + 2 /\
  length (getDimensions rx) = 3%nat /\
  dim 2 (getDimensions rx) = ports /\
  nof_port_indices = 2 /\
  nof_port_indices <> ports /\
  fst run = Ok tt /\
  length (trace (snd run)) = 2%nat /\
  length (outputs (snd run)) = 2%nat /\
  Forall (fun slot => slot <> None) (outputs (snd run)).
Proof.
  vm_compute. repeat split; try discriminate.
  repeat (constructor; [discriminate |]). constructor.
Qed.

End WideGrid.
